(** * Kolynia: value-transfer scripts, mock facilitator and log scraper

    A shallow embedding of the Python scripts under [scripts/] and the
    properties their specification states about them.

    Conventions.  A Python [str] is a [list ascii], so the texts range over
    the 8-bit alphabet; a Python [int] is a [Z]; a call that may raise
    returns a [result]; [sys.exit] and uncaught exceptions end a script with
    an exit status. *)

From Stdlib Require Import ZArith NArith List String Ascii Bool Lia.
From Stdlib Require Import SpecFloat.
Import ListNotations.

#[local] Abbreviation length := List.length.

Local Open Scope Z_scope.

(** ** Python text *)

Definition str := list ascii.

(** A string literal of the scripts, as a [str]. *)
Definition lit (s : string) : str := list_ascii_of_string s.

Definition ascii_eqb (a b : ascii) : bool := Ascii.eqb a b.

(** The double quote character. *)
Definition dquote : ascii := ascii_of_nat 34.

Fixpoint str_eqb (a b : str) : bool :=
  match a, b with
  | [], [] => true
  | x :: a', y :: b' => ascii_eqb x y && str_eqb a' b'
  | _, _ => false
  end.

(** [text[a:b]] for [0 <= a <= b]. *)
Definition slice (text : str) (a b : nat) : str :=
  firstn (b - a) (skipn a text).

Definition is_open (ch : ascii) : bool := ascii_eqb ch "{"%char.
Definition is_close (ch : ascii) : bool := ascii_eqb ch "}"%char.

Definition null {A} (l : list A) : bool :=
  match l with [] => true | _ => false end.

Definition opt_list {A} (o : option A) : list A :=
  match o with Some a => [a] | None => [] end.

(** ** scripts/run_demo_with_mock.py: [extract_json_objects] *)

Module RunDemoWithMock.
Section Extractor.
Variable J : Type.
(** [json.loads], [None] when it raises. *)
Variable json_loads : str -> option J.

Record loop_state := {
  objs : list J;
  brace_stack : list ascii;
  start_idx : option nat
}.

Definition init : loop_state :=
  {| objs := []; brace_stack := []; start_idx := None |}.

(** One iteration of [for i, ch in enumerate(text)]. *)
Definition step (text : str) (st : loop_state) (i : nat) (ch : ascii)
  : loop_state :=
  if is_open ch then
    {| objs := objs st;
       brace_stack := brace_stack st ++ ["{"%char];
       start_idx := if null (brace_stack st) then Some i else start_idx st |}
  else if is_close ch then
    if null (brace_stack st) then st
    else
      let stack' := removelast (brace_stack st) in
      match null stack', start_idx st with
      | true, Some s =>
          let candidate := slice text s (i + 1) in
          {| objs := objs st ++ opt_list (json_loads candidate);
             brace_stack := stack';
             start_idx := None |}
      | _, _ =>
          {| objs := objs st; brace_stack := stack';
             start_idx := start_idx st |}
      end
  else st.

Fixpoint loop (text : str) (i : nat) (rest : str) (st : loop_state)
  : loop_state :=
  match rest with
  | [] => st
  | ch :: rest' => loop text (S i) rest' (step text st i ch)
  end.

Definition extract_json_objects (text : str) : list J :=
  objs (loop text 0 text init).
End Extractor.
End RunDemoWithMock.

(** ** scripts/one_click_test.py: [extract_json_objects] *)

Module OneClickTest.
Section Extractor.
Variable J : Type.
Variable json_loads : str -> option J.

Record loop_state := {
  objs : list J;
  brace : Z;
  start_idx : option nat
}.

Definition init : loop_state :=
  {| objs := []; brace := 0; start_idx := None |}.

Definition step (text : str) (st : loop_state) (i : nat) (ch : ascii)
  : loop_state :=
  if is_open ch then
    {| objs := objs st;
       brace := brace st + 1;
       start_idx := if brace st =? 0 then Some i else start_idx st |}
  else if is_close ch then
    let brace' := brace st - 1 in
    match brace' =? 0, start_idx st with
    | true, Some s =>
        let chunk := slice text s (i + 1) in
        {| objs := objs st ++ opt_list (json_loads chunk);
           brace := brace';
           start_idx := None |}
    | _, _ =>
        {| objs := objs st; brace := brace'; start_idx := start_idx st |}
    end
  else st.

Fixpoint loop (text : str) (i : nat) (rest : str) (st : loop_state)
  : loop_state :=
  match rest with
  | [] => st
  | ch :: rest' => loop text (S i) rest' (step text st i ch)
  end.

Definition extract_json_objects (text : str) : list J :=
  objs (loop text 0 text init).
End Extractor.
End OneClickTest.

(** ** The extractor's contract, in the specification's words

    Brace-depth tracking cuts the text into its top-level balanced-brace
    chunks; the result is, in order, what [json.loads] makes of each chunk,
    a chunk it rejects contributing nothing. *)

Module ExtractorSpec.
(** [split_balanced depth s]: [s] follows an opening brace with [depth]
    further braces open; the text up to and including the brace that
    closes the outermost one, and what follows it. *)
Fixpoint split_balanced (depth : nat) (s : str) : option (str * str) :=
  match s with
  | [] => None
  | ch :: r =>
      if is_close ch then
        match depth with
        | O => Some ([ch], r)
        | S d =>
            match split_balanced d r with
            | Some (b, rest) => Some (ch :: b, rest)
            | None => None
            end
        end
      else
        match split_balanced (if is_open ch then S depth else depth) r with
        | Some (b, rest) => Some (ch :: b, rest)
        | None => None
        end
  end.

Fixpoint top_level_chunks (fuel : nat) (s : str) : list str :=
  match fuel with
  | O => []
  | S fuel' =>
      match s with
      | [] => []
      | ch :: r =>
          if is_open ch then
            match split_balanced 0 r with
            | Some (b, rest) => (ch :: b) :: top_level_chunks fuel' rest
            | None => []
            end
          else top_level_chunks fuel' r
      end
  end.

Definition candidates (text : str) : list str :=
  top_level_chunks (length text) text.

Definition valid_objects {J} (json_loads : str -> option J) (text : str)
  : list J :=
  flat_map (fun c => opt_list (json_loads c)) (candidates text).

(** No closing brace of [s] comes without an opening brace before it,
    [depth] braces being open at its start. *)
Fixpoint closers_matched (depth : nat) (s : str) : bool :=
  match s with
  | [] => true
  | ch :: r =>
      if is_open ch then closers_matched (S depth) r
      else if is_close ch then
        match depth with
        | O => false
        | S d => closers_matched d r
        end
      else closers_matched depth r
  end.
End ExtractorSpec.

(** ** Exceptions and results *)

(** The exception classes the scripts can meet: [decimal.DecimalException]
    (InvalidOperation, Overflow, ...), the built-in [ValueError] and
    [OverflowError], and any exception raised by a chain library. *)
Inductive pyexn :=
| DecimalException
| ValueError
| OverflowError
| LibraryError.

Inductive result (A : Type) :=
| Ok (a : A)
| Raise (e : pyexn).
Arguments Ok {A} a.
Arguments Raise {A} e.

Definition bind {A B} (r : result A) (k : A -> result B) : result B :=
  match r with
  | Ok a => k a
  | Raise e => Raise e
  end.

Declare Scope result_scope.
Delimit Scope result_scope with result.
Notation "x <- r ;; k" := (bind r (fun x => k))
  (at level 61, r at next level, right associativity) : result_scope.

(** ** Decimal numerals as Python's constructors read them *)

Module Numeral.
Definition is_digit (c : ascii) : bool :=
  let n := N_of_ascii c in ((48 <=? n) && (n <=? 57))%N.

Definition digit_val (c : ascii) : Z := Z.of_N (N_of_ascii c) - 48.

(** [int(digits)] for a run of decimal digits, most significant first. *)
Definition digits_val (ds : str) : Z :=
  fold_left (fun acc c => 10 * acc + digit_val c) ds 0.

(** [str.strip()] whitespace within the 8-bit alphabet. *)
Definition is_space (c : ascii) : bool :=
  let n := N_of_ascii c in
  (((9 <=? n) && (n <=? 13)) || ((28 <=? n) && (n <=? 32))
   || (n =? 133) || (n =? 160))%N.

(** Whitespace that [float()] and [int()] strip, within the 8-bit
    alphabet. *)
Definition is_cspace (c : ascii) : bool :=
  let n := N_of_ascii c in
  (((9 <=? n) && (n <=? 13)) || (n =? 32) || (n =? 133) || (n =? 160))%N.

Fixpoint lstrip (space : ascii -> bool) (s : str) : str :=
  match s with
  | c :: r => if space c then lstrip space r else s
  | [] => []
  end.

Definition strip (space : ascii -> bool) (s : str) : str :=
  rev (lstrip space (rev (lstrip space s))).

Definition lower (c : ascii) : ascii :=
  let n := N_of_ascii c in
  if ((65 <=? n) && (n <=? 90))%N then ascii_of_N (n + 32) else c.

(** Case-insensitive comparison with a lower-case literal. *)
Definition ieq (s : str) (l : string) : bool := str_eqb (map lower s) (lit l).

(** The longest prefix of digits, and the rest. *)
Fixpoint span_digits (s : str) : str * str :=
  match s with
  | c :: r =>
      if is_digit c then let '(d, rest) := span_digits r in (c :: d, rest)
      else ([], s)
  | [] => ([], [])
  end.

(** An optional sign: [true] for [-]. *)
Definition take_sign (s : str) : bool * str :=
  match s with
  | c :: r =>
      if ascii_eqb c "-"%char then (true, r)
      else if ascii_eqb c "+"%char then (false, r)
      else (false, s)
  | [] => (false, [])
  end.

(** A finite numeral: sign, integer digits, fraction digits, exponent. *)
Record numeral := {
  n_sign : bool;
  n_int : str;
  n_frac : str;
  n_exp : Z
}.

(** The optional exponent that ends a numeral ([E], an optional sign,
    digits), [0] when absent; [None] when the text is neither empty nor an
    exponent. *)
Definition exponent (s : str) : option Z :=
  match s with
  | [] => Some 0
  | c :: r =>
      if ascii_eqb (lower c) "e"%char then
        let '(neg, r1) := take_sign r in
        let '(ds, r2) := span_digits r1 in
        match ds, r2 with
        | _ :: _, [] => Some (if neg then - digits_val ds else digits_val ds)
        | _, _ => None
        end
      else None
  end.

(** Digits, an optional point and more digits, an optional exponent; at
    least one digit before the exponent. *)
Definition finite (neg : bool) (s : str) : option numeral :=
  let '(ip, r1) := span_digits s in
  let '(fp, r2) :=
    match r1 with
    | c :: r =>
        if ascii_eqb c "."%char then span_digits r else ([], r1)
    | [] => ([], [])
    end in
  match ip ++ fp with
  | [] => None
  | _ =>
      match exponent r2 with
      | Some e =>
          Some {| n_sign := neg; n_int := ip; n_frac := fp; n_exp := e |}
      | None => None
      end
  end.

(** The coefficient and the power of ten of a numeral. *)
Definition coefficient (n : numeral) : Z := digits_val (n_int n ++ n_frac n).
Definition scale (n : numeral) : Z := n_exp n - Z.of_nat (length (n_frac n)).

(** In the texts [float()] and [int()] read, underscores may only stand
    between two digits, where they are dropped. *)
Fixpoint drop_underscores (prev : option ascii) (s : str) : option str :=
  let digit o := match o with Some c => is_digit c | None => false end in
  match s with
  | [] => Some []
  | c :: r =>
      if ascii_eqb c "_"%char then
        if digit prev && digit (hd_error r) then drop_underscores (Some c) r
        else None
      else option_map (cons c) (drop_underscores (Some c) r)
  end.

(** [int(s)] for a [str], base ten. *)
Definition int_of_str (s : str) : result Z :=
  match drop_underscores None (strip is_cspace s) with
  | None => Raise ValueError
  | Some s1 =>
      let '(neg, body) := take_sign s1 in
      match span_digits body with
      | ((_ :: _) as ds, []) =>
          Ok (if neg then - digits_val ds else digits_val ds)
      | _ => Raise ValueError
      end
  end.
End Numeral.

(** ** Python's [decimal] module under its default context

    [prec=28], [rounding=ROUND_HALF_EVEN], [Emin=-999999], [Emax=999999],
    traps on InvalidOperation, DivisionByZero and Overflow.  Only what the
    scripts call is modelled: the constructors from [str] and [int],
    [*], [/], [10 ** n], [int()] and [str()]. *)

Module Decimal.
Import Numeral.
Local Open Scope result_scope.

Definition prec : Z := 28.
Definition Emax : Z := 999999.
Definition Emin : Z := -999999.
Definition Etiny : Z := Emin - prec + 1.
Definition Etop : Z := Emax - prec + 1.

(** Bounds of the exact conversion from text (libmpdec, 64 bit). *)
Definition MAX_EMAX : Z := 999999999999999999.
Definition MIN_ETINY : Z := -1999999999999999997.

(** [sign] is [true] for a negative number; [coeff >= 0]; the value of
    [Finite s c e] is [(-1)^s * c * 10^e]. *)
Inductive decimal :=
| Finite (sign : bool) (coeff : Z) (exp : Z)
| Infinity (sign : bool)
| NaN (signaling : bool).

(** [len(str(n))] for [n >= 0]. *)
Fixpoint ndigits_fuel (fuel : nat) (n : Z) : Z :=
  match fuel with
  | O => 1
  | S f => if n <? 10 then 1 else 1 + ndigits_fuel f (n / 10)
  end.

Definition ndigits (n : Z) : Z := ndigits_fuel (Z.to_nat (Z.log2 n)) n.

(** [Decimal(n)] for an [int]. *)
Definition of_int (n : Z) : decimal := Finite (n <? 0) (Z.abs n) 0.

(** The text after the sign is a NaN: an optional [s], [nan], then only
    digits. *)
Definition nan_form (body : str) : option bool :=
  let after (sig : bool) (s : str) :=
    if ieq (firstn 3 s) "nan" then
      match snd (span_digits (skipn 3 s)) with
      | [] => Some sig
      | _ => None
      end
    else None in
  match body with
  | c :: r =>
      if ascii_eqb (lower c) "s"%char then after true r else after false body
  | [] => None
  end.

(** [Decimal(s)] for a [str]. *)
Definition of_str (s : str) : result decimal :=
  let s1 := filter (fun c => negb (ascii_eqb c "_"%char)) (strip is_space s) in
  let '(neg, body) := take_sign s1 in
  if ieq body "inf" || ieq body "infinity" then Ok (Infinity neg)
  else
    match nan_form body with
    | Some sig => Ok (NaN sig)
    | None =>
        match finite neg body with
        | Some n =>
            let c := coefficient n in
            let e := scale n in
            if (e + ndigits c - 1 <=? MAX_EMAX) && (MIN_ETINY <=? e)
            then Ok (Finite neg c e)
            else Raise DecimalException
        | None => Raise DecimalException
        end
    end.

(** Dropping the last [k >= 1] digits of [c], rounding half to even. *)
Definition round_half_even (c k : Z) : Z :=
  let q := c / 10 ^ k in
  let r := c mod 10 ^ k in
  let half := 5 * 10 ^ (k - 1) in
  if (half <? r) || ((r =? half) && Z.odd q) then q + 1 else q.

(** [_fix]: round a finite result to the context. *)
Definition fix_ (sign : bool) (c e : Z) : result decimal :=
  if c =? 0 then Ok (Finite sign 0 (Z.min (Z.max e Etiny) Emax))
  else
    let len := ndigits c in
    let exp_min := len + e - prec in
    if Etop <? exp_min then Raise DecimalException
    else
      let exp_min := Z.max exp_min Etiny in
      if e <? exp_min then
        let digits := len + e - exp_min in
        let coeff :=
          if digits <? 0 then 0 else round_half_even c (exp_min - e) in
        if prec <? ndigits coeff then
          if Etop <? exp_min + 1 then Raise DecimalException
          else Ok (Finite sign (coeff / 10) (exp_min + 1))
        else Ok (Finite sign coeff exp_min)
      else Ok (Finite sign c e).

(** [a * b]. *)
Definition mul (a b : decimal) : result decimal :=
  match a, b with
  | NaN true, _ | _, NaN true => Raise DecimalException
  | NaN false, _ | _, NaN false => Ok (NaN false)
  | Infinity sa, Infinity sb => Ok (Infinity (xorb sa sb))
  | Infinity sa, Finite sb cb _ =>
      if cb =? 0 then Raise DecimalException else Ok (Infinity (xorb sa sb))
  | Finite sa ca _, Infinity sb =>
      if ca =? 0 then Raise DecimalException else Ok (Infinity (xorb sa sb))
  | Finite sa ca ea, Finite sb cb eb =>
      fix_ (xorb sa sb) (ca * cb) (ea + eb)
  end.

(** The loop that brings an exact quotient towards its ideal exponent. *)
Fixpoint strip_zeros (fuel : nat) (coeff exp ideal_exp : Z) : Z * Z :=
  match fuel with
  | O => (coeff, exp)
  | S f =>
      if (exp <? ideal_exp) && (coeff mod 10 =? 0)
      then strip_zeros f (coeff / 10) (exp + 1) ideal_exp
      else (coeff, exp)
  end.

(** [a / b]. *)
Definition div (a b : decimal) : result decimal :=
  match a, b with
  | NaN true, _ | _, NaN true => Raise DecimalException
  | NaN false, _ | _, NaN false => Ok (NaN false)
  | Infinity _, Infinity _ => Raise DecimalException
  | Infinity sa, Finite sb _ _ => Ok (Infinity (xorb sa sb))
  | Finite sa _ _, Infinity sb => Ok (Finite (xorb sa sb) 0 Etiny)
  | Finite sa ca ea, Finite sb cb eb =>
      let sign := xorb sa sb in
      if cb =? 0 then Raise DecimalException
      else if ca =? 0 then fix_ sign 0 (ea - eb)
      else
        let shift := ndigits cb - ndigits ca + prec + 1 in
        let exp := ea - eb - shift in
        let '(coeff, remainder) :=
          if 0 <=? shift then Z.div_eucl (ca * 10 ^ shift) cb
          else Z.div_eucl ca (cb * 10 ^ (- shift)) in
        let '(coeff, exp) :=
          if remainder =? 0 then
            strip_zeros (Z.to_nat (ea - eb - exp)) coeff exp (ea - eb)
          else ((if coeff mod 5 =? 0 then coeff + 1 else coeff), exp) in
        fix_ sign coeff exp
  end.

(** [Decimal(10) ** n] for an [int] [n >= 0]. *)
Definition pow10 (n : N) : result decimal :=
  let n := Z.of_N n in
  if n <=? Emax then Ok (Finite false (10 ^ Z.min n 27) (Z.max 0 (n - 27)))
  else Raise DecimalException.

(** [int(a)]: truncation towards zero. *)
Definition to_int (a : decimal) : result Z :=
  match a with
  | NaN _ => Raise ValueError
  | Infinity _ => Raise OverflowError
  | Finite s c e =>
      let m := if 0 <=? e then c * 10 ^ e else c / 10 ^ (- e) in
      Ok (if s then - m else m)
  end.

(** The decimal digits of [n >= 0], most significant first. *)
Fixpoint digits_fuel (fuel : nat) (n : Z) (acc : str) : str :=
  let d := ascii_of_N (Z.to_N (n mod 10) + 48) in
  match fuel with
  | O => d :: acc
  | S f => if n <? 10 then d :: acc else digits_fuel f (n / 10) (d :: acc)
  end.

Definition digits_of (n : Z) : str :=
  digits_fuel (Z.to_nat (Z.log2 n)) n [].

(** [str(n)] for an [int]. *)
Definition str_of_int (n : Z) : str :=
  if n <? 0 then "-"%char :: digits_of (- n) else digits_of n.

Definition zeros (n : Z) : str := repeat "0"%char (Z.to_nat n).

(** [str(a)] (scientific notation, capitals). *)
Definition to_str (a : decimal) : str :=
  match a with
  | NaN sig => lit (if sig then "sNaN" else "NaN")
  | Infinity s => lit (if s then "-Infinity" else "Infinity")
  | Finite s c e =>
      let int_ := digits_of c in
      let len := Z.of_nat (length int_) in
      let leftdigits := e + len in
      let dotplace :=
        if (e <=? 0) && (-6 <? leftdigits) then leftdigits else 1 in
      let body :=
        if dotplace <=? 0 then
          lit "0." ++ zeros (- dotplace) ++ int_
        else if len <=? dotplace then
          int_ ++ zeros (dotplace - len)
        else
          firstn (Z.to_nat dotplace) int_ ++ "."%char
            :: skipn (Z.to_nat dotplace) int_ in
      let exp :=
        if leftdigits =? dotplace then []
        else
          let x := leftdigits - dotplace in
          "E"%char :: (if 0 <=? x then "+"%char :: digits_of x
                       else str_of_int x) in
      (if s then ["-"%char] else []) ++ body ++ exp
  end.
End Decimal.

(** ** Python's [float]: IEEE 754 binary64, round to nearest even *)

Module Float64.
Import Numeral.

Definition prec : Z := 53.
Definition emax : Z := 1024.

Definition float := spec_float.

(** The binary64 nearest to [p / q], for [0 <= p] and [0 < q]. *)
Definition of_ratio (neg : bool) (p q : Z) : float :=
  if p =? 0 then S754_zero neg
  else
    let '(m, e, l) := SFdiv_core_binary prec emax p 0 q 0 in
    binary_round_aux prec emax neg m e l.

(** [float(n)] for an [int]. *)
Definition of_int (n : Z) : result float :=
  match binary_normalize prec emax n 0 false with
  | S754_infinity _ => Raise OverflowError
  | f => Ok f
  end.

(** [float(s)] for a [str]. *)
Definition of_str (s : str) : result float :=
  match drop_underscores None (strip is_cspace s) with
  | None => Raise ValueError
  | Some s1 =>
      let '(neg, body) := take_sign s1 in
      if ieq body "inf" || ieq body "infinity" then Ok (S754_infinity neg)
      else if ieq body "nan" then Ok S754_nan
      else
        match finite neg body with
        | Some n =>
            let c := coefficient n in
            let e := scale n in
            Ok (of_ratio neg (c * 10 ^ Z.max e 0) (10 ^ Z.max (- e) 0))
        | None => Raise ValueError
        end
  end.

Definition mul (a b : float) : float := SFmul prec emax a b.

(** [int(a)]: truncation towards zero. *)
Definition to_int (a : float) : result Z :=
  match a with
  | S754_nan => Raise ValueError
  | S754_infinity _ => Raise OverflowError
  | S754_zero _ => Ok 0
  | S754_finite s m e =>
      let v := if 0 <=? e then Zpos m * 2 ^ e else Zpos m / 2 ^ (- e) in
      Ok (if s then - v else v)
  end.

(** The literal [1e9]. *)
Definition f1e9 : float := of_ratio false 1000000000 1.
End Float64.

(** ** Python's [json.loads] *)

Module Json.
Import Numeral.

(** A decoded string is a sequence of code points: escapes reach beyond
    the alphabet of the text. *)
Definition ustr := list N.

Definition ulit (s : string) : ustr := map N_of_ascii (lit s).

#[warnings="-register-all"]
Inductive json :=
| JNull
| JBool (b : bool)
| JInt (n : Z)
| JFloat (f : Float64.float)
| JStr (s : ustr)
| JArr (items : list json)
| JObj (members : list (ustr * json)).

Fixpoint ustr_eqb (a b : ustr) : bool :=
  match a, b with
  | [], [] => true
  | x :: a', y :: b' => (x =? y)%N && ustr_eqb a' b'
  | _, _ => false
  end.

(** [d[k] = v] on an insertion-ordered [dict]. *)
Fixpoint dict_set (d : list (ustr * json)) (k : ustr) (v : json)
  : list (ustr * json) :=
  match d with
  | [] => [(k, v)]
  | (k', v') :: d' =>
      if ustr_eqb k' k then (k', v) :: d' else (k', v') :: dict_set d' k v
  end.

Fixpoint dict_get (d : list (ustr * json)) (k : ustr) : option json :=
  match d with
  | [] => None
  | (k', v) :: d' => if ustr_eqb k' k then Some v else dict_get d' k
  end.

Definition is_ws (c : ascii) : bool :=
  let n := N_of_ascii c in ((n =? 32) || (n =? 9) || (n =? 10) || (n =? 13))%N.

Fixpoint skip_ws (s : str) : str :=
  match s with
  | c :: r => if is_ws c then skip_ws r else s
  | [] => []
  end.

Definition hex_val (c : ascii) : option N :=
  let n := N_of_ascii c in
  if ((48 <=? n) && (n <=? 57))%N then Some (n - 48)%N
  else if ((97 <=? n) && (n <=? 102))%N then Some (n - 87)%N
  else if ((65 <=? n) && (n <=? 70))%N then Some (n - 55)%N
  else None.

(** Four hexadecimal digits. *)
Definition hex4 (s : str) : option (N * str) :=
  match s with
  | a :: b :: c :: d :: r =>
      match hex_val a, hex_val b, hex_val c, hex_val d with
      | Some x, Some y, Some z, Some w =>
          Some ((((x * 16 + y) * 16 + z) * 16 + w)%N, r)
      | _, _, _, _ => None
      end
  | _ => None
  end.

(** The escape after a [\u] whose four digits gave [c]: a high surrogate
    followed by an escaped low surrogate makes one code point. *)
Definition join_surrogate (c : N) (r : str) : N * str :=
  if ((55296 <=? c) && (c <=? 56319))%N then
    match r with
    | b :: u :: r' =>
        if ascii_eqb b "\"%char && ascii_eqb u "u"%char then
          match hex4 r' with
          | Some (c2, r'') =>
              if ((56320 <=? c2) && (c2 <=? 57343))%N
              then ((65536 + ((c - 55296) * 1024 + (c2 - 56320)))%N, r'')
              else (c, r)
          | None => (c, r)
          end
        else (c, r)
    | _ => (c, r)
    end
  else (c, r).

Definition simple_escape (c : ascii) : option N :=
  let n := N_of_ascii c in
  if (n =? 34)%N then Some 34%N          (* quote *)
  else if (n =? 92)%N then Some 92%N     (* backslash *)
  else if (n =? 47)%N then Some 47%N     (* slash *)
  else if (n =? 98)%N then Some 8%N      (* b *)
  else if (n =? 102)%N then Some 12%N    (* f *)
  else if (n =? 110)%N then Some 10%N    (* n *)
  else if (n =? 114)%N then Some 13%N    (* r *)
  else if (n =? 116)%N then Some 9%N     (* t *)
  else None.

(** [scanstring] (strict): the text after an opening quote. *)
Fixpoint scanstring (fuel : nat) (s : str) (acc : ustr)
  : option (ustr * str) :=
  match fuel with
  | O => None
  | S f =>
      match s with
      | [] => None
      | c :: r =>
          let n := N_of_ascii c in
          if (n =? 34)%N then Some (rev acc, r)
          else if (n =? 92)%N then
            match r with
            | [] => None
            | e :: r' =>
                if ascii_eqb e "u"%char then
                  match hex4 r' with
                  | Some (u, r'') =>
                      let '(u', r3) := join_surrogate u r'' in
                      scanstring f r3 (u' :: acc)
                  | None => None
                  end
                else
                  match simple_escape e with
                  | Some u => scanstring f r' (u :: acc)
                  | None => None
                  end
            end
          else if (n <? 32)%N then None
          else scanstring f r (n :: acc)
      end
  end.

(** The number at the head of the text, by the decoder's pattern: an
    integer part without superfluous zeros, then a fraction and an exponent
    only when each has a digit. *)
Definition scan_number (s : str) : option (json * str) :=
  let '(neg, r0) :=
    match s with
    | c :: r => if ascii_eqb c "-"%char then (true, r) else (false, s)
    | [] => (false, [])
    end in
  let '(ip, r1) :=
    match r0 with
    | c :: r =>
        if ascii_eqb c "0"%char then ([c], r) else span_digits r0
    | [] => ([], [])
    end in
  match ip with
  | [] => None
  | _ =>
      let '(fp, r2) :=
        match r1 with
        | c :: r =>
            if ascii_eqb c "."%char then
              match span_digits r with
              | ([], _) => ([], r1)
              | (ds, r') => (ds, r')
              end
            else ([], r1)
        | [] => ([], [])
        end in
      let '(ex, r3) :=
        match r2 with
        | c :: r =>
            if ascii_eqb (lower c) "e"%char then
              let '(eneg, ra) := take_sign r in
              match span_digits ra with
              | ([], _) => (None, r2)
              | (ds, r') =>
                  (Some (if eneg then - digits_val ds else digits_val ds), r')
              end
            else (None, r2)
        | [] => (None, [])
        end in
      match fp, ex with
      | [], None =>
          let v := digits_val ip in
          Some (JInt (if neg then - v else v), r3)
      | _, _ =>
          let c := digits_val (ip ++ fp) in
          let e := match ex with Some x => x | None => 0 end
                   - Z.of_nat (length fp) in
          Some (JFloat (Float64.of_ratio neg (c * 10 ^ Z.max e 0)
                                         (10 ^ Z.max (- e) 0)), r3)
      end
  end.

(** [s] starts with the literal [l]: what follows it. *)
Fixpoint after_prefix (l s : str) : option str :=
  match l, s with
  | [], _ => Some s
  | x :: l', y :: s' => if ascii_eqb x y then after_prefix l' s' else None
  | _ :: _, [] => None
  end.

Definition scan_constant (s : str) : option (json * str) :=
  let try (l : string) (v : json) (k : option (json * str)) :=
    match after_prefix (lit l) s with
    | Some r => Some (v, r)
    | None => k
    end in
  try "null"%string JNull
    (try "true"%string (JBool true)
      (try "false"%string (JBool false)
        (match scan_number s with
         | Some x => Some x
         | None =>
             try "NaN"%string (JFloat S754_nan)
               (try "Infinity"%string (JFloat (S754_infinity false))
                 (try "-Infinity"%string (JFloat (S754_infinity true))
                    None))
         end))).

(** [scan_once] and the array and object loops; every call consumes
    fuel, and a text of [n] characters needs fewer than [2 * n + 2]
    calls. *)
Fixpoint scan_once (fuel : nat) (s : str) : option (json * str) :=
  match fuel with
  | O => None
  | S f =>
      match s with
      | [] => None
      | c :: r =>
          if ascii_eqb c dquote then
            match scanstring (length r) r [] with
            | Some (u, r') => Some (JStr u, r')
            | None => None
            end
          else if ascii_eqb c "{"%char then
            match skip_ws r with
            | c' :: r' =>
                if ascii_eqb c' "}"%char then Some (JObj [], r')
                else if ascii_eqb c' dquote then members f r' []
                else None
            | [] => None
            end
          else if ascii_eqb c "["%char then
            match skip_ws r with
            | c' :: r' =>
                if ascii_eqb c' "]"%char then Some (JArr [], r')
                else items f (c' :: r') []
            | [] => None
            end
          else scan_constant s
      end
  end
(** The array loop, at a value. *)
with items (fuel : nat) (s : str) (acc : list json)
  : option (json * str) :=
  match fuel with
  | O => None
  | S f =>
      match scan_once f s with
      | Some (v, r) =>
          match skip_ws r with
          | c :: r' =>
              if ascii_eqb c "]"%char then Some (JArr (rev (v :: acc)), r')
              else if ascii_eqb c ","%char then
                items f (skip_ws r') (v :: acc)
              else None
          | [] => None
          end
      | None => None
      end
  end
(** The object loop, after the opening quote of a key. *)
with members (fuel : nat) (s : str) (acc : list (ustr * json))
  : option (json * str) :=
  match fuel with
  | O => None
  | S f =>
      match scanstring (length s) s [] with
      | Some (key, r) =>
          match skip_ws r with
          | c :: r1 =>
              if ascii_eqb c ":"%char then
                match scan_once f (skip_ws r1) with
                | Some (v, r2) =>
                    let acc' := dict_set acc key v in
                    match skip_ws r2 with
                    | c2 :: r3 =>
                        if ascii_eqb c2 "}"%char then Some (JObj acc', r3)
                        else if ascii_eqb c2 ","%char then
                          match skip_ws r3 with
                          | q :: r4 =>
                              if ascii_eqb q dquote
                              then members f r4 acc'
                              else None
                          | [] => None
                          end
                        else None
                    | [] => None
                    end
                | None => None
                end
              else None
          | [] => None
          end
      | None => None
      end
  end.

(** [json.loads(s)], [None] when it raises. *)
Definition loads (s : str) : option json :=
  match scan_once (2 * length s + 2) (skip_ws s) with
  | Some (v, r) =>
      match skip_ws r with
      | [] => Some v
      | _ => None
      end
  | None => None
  end.
End Json.

(** ** scripts/mock_facilitator.py *)

Module MockFacilitator.
Import Json.

(** [class PaymentRequest(BaseModel)]. *)
Record PaymentRequest := {
  amount : Float64.float;
  currency : ustr;
  metadata : option (list (ustr * json));
  from_address : option ustr;
  network : option ustr
}.

(** What the installed pydantic accepts for a field of each declared
    type; the scripts do not pin its version. *)
Record validators := {
  as_float : json -> option Float64.float;
  as_str : json -> option ustr;
  as_dict : json -> option (list (ustr * json))
}.

(** The conversions every pydantic version performs on JSON input: a
    number for [float], a string for [str], an object for [dict]. *)
Definition json_validators : validators :=
  {| as_float := fun v =>
       match v with
       | JFloat f => Some f
       | JInt n =>
           match Float64.of_int n with Ok f => Some f | Raise _ => None end
       | _ => None
       end;
     as_str := fun v => match v with JStr s => Some s | _ => None end;
     as_dict := fun v => match v with JObj d => Some d | _ => None end |}.

(** A field declared [T | None = None]. *)
Definition optional {A} (conv : json -> option A) (o : option json)
  : option (option A) :=
  match o with
  | None => Some None
  | Some JNull => Some None
  | Some v => option_map Some (conv v)
  end.

(** FastAPI's validation of the decoded request body against the model;
    [None] is the 422 answer given without calling the handler. *)
Definition validate (V : validators) (body : json) : option PaymentRequest :=
  match body with
  | JObj d =>
      match dict_get d (ulit "amount"), dict_get d (ulit "currency") with
      | Some a, Some c =>
          match as_float V a, as_str V c,
                optional (as_dict V) (dict_get d (ulit "metadata")),
                optional (as_str V) (dict_get d (ulit "from_address")),
                optional (as_str V) (dict_get d (ulit "network")) with
          | Some a', Some c', Some m, Some f, Some n =>
              Some {| amount := a'; currency := c'; metadata := m;
                      from_address := f; network := n |}
          | _, _, _, _, _ => None
          end
      | _, _ => None
      end
  | _ => None
  end.

Definition opt_json {A} (f : A -> json) (o : option A) : json :=
  match o with Some a => f a | None => JNull end.

(** [req.dict()]. *)
Definition dict (req : PaymentRequest) : json :=
  JObj [ (ulit "amount", JFloat (amount req));
         (ulit "currency", JStr (currency req));
         (ulit "metadata", opt_json JObj (metadata req));
         (ulit "from_address", opt_json JStr (from_address req));
         (ulit "network", opt_json JStr (network req)) ].

Record response := {
  status_code : Z;
  headers : list (ustr * ustr);
  content : json
}.

(** ["tx_" + uuid.uuid4().hex[:12]], given the hexadecimal text of the
    fresh UUID. *)
Definition new_tx_id (uuid_hex : str) : ustr :=
  ulit "tx_" ++ map N_of_ascii (firstn 12 uuid_hex).

Definition create_payment (req : PaymentRequest) (uuid_hex : str)
  : response :=
  let tx_id := new_tx_id uuid_hex in
  {| status_code := 200;
     headers := [(ulit "X-PAYMENT-RESPONSE", tx_id)];
     content := JObj [ (ulit "id", JStr tx_id);
                       (ulit "status", JStr (ulit "success"));
                       (ulit "received", dict req) ] |}.

Definition verify (req : PaymentRequest) : response :=
  {| status_code := 200;
     headers := [];
     content := JObj [ (ulit "ok", JBool true);
                       (ulit "message", JStr (ulit "verified"));
                       (ulit "received", dict req) ] |}.

Definition settle (req : PaymentRequest) (uuid_hex : str) : response :=
  let tx_id := new_tx_id uuid_hex in
  {| status_code := 200;
     headers := [(ulit "X-PAYMENT-RESPONSE", tx_id)];
     content := JObj [ (ulit "id", JStr tx_id);
                       (ulit "status", JStr (ulit "settled"));
                       (ulit "received", dict req) ] |}.

(** Whether [s.encode("utf-8")] succeeds: a lone surrogate, which an
    escape of the request can leave in a string, cannot be encoded. *)
Definition encodable (s : ustr) : bool :=
  forallb (fun c => negb ((55296 <=? c) && (c <=? 57343))%N) s.

(** Whether Starlette's [JSONResponse.render] succeeds on the value a
    handler returns: [json.dumps(content, ensure_ascii=False,
    allow_nan=False, ...)] raises [ValueError] on a float that is not
    finite, wherever it stands in the value, and [.encode("utf-8")] raises
    [UnicodeEncodeError] on a string that cannot be encoded. *)
Fixpoint renders (v : json) : bool :=
  match v with
  | JNull | JBool _ | JInt _ => true
  | JFloat (S754_zero _ | S754_finite _ _ _) => true
  | JFloat (S754_infinity _ | S754_nan) => false
  | JStr s => encodable s
  | JArr items => forallb renders items
  | JObj members =>
      forallb (fun kv => encodable (fst kv) && renders (snd kv)) members
  end.

(** What a client of the application gets. *)
Inductive answer :=
| Handled (r : response)
| Unprocessable
| ServerError.                (* an exception left the application *)

Definition answer_status (a : answer) : Z :=
  match a with
  | Handled r => status_code r
  | Unprocessable => 422
  | ServerError => 500
  end.

(** A POST route: the body is validated, the handler is called with the
    model, and what it returns is rendered as the JSON response. *)
Definition route (V : validators) (handler : PaymentRequest -> response)
           (body : json) : answer :=
  match validate V body with
  | Some req =>
      let r := handler req in
      if renders (content r) then Handled r else ServerError
  | None => Unprocessable
  end.

Definition post_create_payment V (uuid_hex : str) (body : json) : answer :=
  route V (fun req => create_payment req uuid_hex) body.

Definition post_verify V (body : json) : answer := route V verify body.

Definition post_settle V (uuid_hex : str) (body : json) : answer :=
  route V (fun req => settle req uuid_hex) body.
End MockFacilitator.

(** ** Running a script: output, exits and uncaught exceptions *)

(** A transaction handed to the node for broadcast. *)
Record transfer_tx := {
  tx_asset : option str;      (* token contract or mint; [None] for native *)
  tx_to : str;
  tx_amount : Z;              (* raw units *)
  tx_gas : option Z
}.

Inductive event :=
| Message (text : str)                         (* a fixed line of output *)
| Balance (label : str) (account : str) (human : str) (symbol : str)
| Deltas (deducted received : Z)
| Submitted (tx : transfer_tx).

Inductive stop :=
| Exit (code : Z)             (* [sys.exit(code)] *)
| Uncaught (e : pyexn).       (* traceback, interpreter status 1 *)

(** A script step: what it printed or sent, and how it went on. *)
Definition script (A : Type) : Type := list event * (stop + A).

Definition ret {A} (a : A) : script A := ([], inr a).

Definition then_ {A B} (m : script A) (k : A -> script B) : script B :=
  match m with
  | (t, inl s) => (t, inl s)
  | (t, inr a) => let '(t', r) := k a in (t ++ t', r)
  end.

Definition emit (e : event) : script unit := ([e], inr tt).
Definition print (text : string) : script unit := emit (Message (lit text)).
Definition sys_exit {A} (code : Z) : script A := ([], inl (Exit code)).

(** A call outside any [try]: an exception ends the script. *)
Definition call {A} (r : result A) : script A :=
  match r with
  | Ok a => ret a
  | Raise e => ([], inl (Uncaught e))
  end.

(** [try: x = f() except Exception: x = default]. *)
Definition try_or {A} (r : result A) (default : A) : A :=
  match r with
  | Ok a => a
  | Raise _ => default
  end.

Declare Scope script_scope.
Delimit Scope script_scope with script.
Notation "x <~ m ;; k" := (then_ m (fun x => k))
  (at level 61, m at next level, right associativity) : script_scope.
Notation "m ;;; k" := (then_ m (fun _ => k))
  (at level 61, right associativity) : script_scope.

(** How a script ends that makes a call outside any [try] and then goes on
    to end as [k] says: an exception of the call is the ending. *)
Definition after_call {A} (r : result A) (k : A -> stop + unit)
  : stop + unit :=
  match r with
  | Ok a => k a
  | Raise e => inl (Uncaught e)
  end.

(** The process exit status of a finished script. *)
Definition exit_status (r : script unit) : Z :=
  match snd r with
  | inl (Exit c) => c
  | inl (Uncaught _) => 1
  | inr tt => 0
  end.

Definition output {A} (r : script A) : list event := fst r.

Definition sent (t : list event) : list transfer_tx :=
  flat_map (fun e => match e with Submitted tx => [tx] | _ => [] end) t.

(** The transactions a script handed to the node. *)
Definition submitted {A} (r : script A) : list transfer_tx := sent (output r).

(** [a or b] on optional strings, and truth of an optional string. *)
Definition truthy (o : option str) : bool :=
  match o with
  | Some (_ :: _) => true
  | _ => false
  end.

Definition py_or (a b : option str) : option str := if truthy a then a else b.

Definition get (o : option str) : str :=
  match o with Some s => s | None => [] end.

(** The ABI encoder of web3 accepts a [uint256] argument only in range. *)
Definition abi_uint256 (n : Z) : result Z :=
  if (0 <=? n) && (n <? 2 ^ 256) then Ok n else Raise LibraryError.

(** ** scripts/send_usdc_and_verify.py *)

Module SendUsdcAndVerify.
Import Decimal.
Local Open Scope script_scope.

Definition format_amount (raw : Z) (decimals : N) : result decimal :=
  (p <- pow10 decimals ;; div (of_int raw) p)%result.

Definition parse_amount (amount_str : str) (decimals : N) : result Z :=
  (d <- of_str amount_str ;;
   p <- pow10 decimals ;;
   m <- mul d p ;;
   to_int m)%result.

(** The command line ([--amount] is required). *)
Record args := {
  rpc : option str;
  private_key : option str;
  token : option str;
  to : option str;
  amount : str;
  wait : bool
}.

Record environ := {
  RPC_URL : option str;
  PRIVATE_KEY : option str;
  X402_PRIVATE_KEY : option str;
  USDC_CONTRACT : option str;
  RECEIVER : option str;
  ADDRESS : option str
}.

(** What the libraries and the remote node answer during one run, call
    by call. *)
Record node := {
  imports : result unit;                  (* lazy_web3_imports() *)
  is_connected : bool;
  from_key : result str;                  (* Account.from_key(priv).address *)
  contract : result unit;                 (* w3.eth.contract(...) *)
  decimals_call : result N;               (* a uint8 *)
  symbol_call : result str;
  balance_from_before : result Z;
  balance_to_before : result Z;
  chain_id : result Z;
  get_transaction_count : result Z;
  build_transaction : result unit;
  gas_price : result Z;
  sign_transaction : result unit;
  send_raw_transaction : result str;      (* the transaction hash *)
  wait_for_transaction_receipt : result (option Z);
                                          (* the receipt's "status" entry *)
  balance_from_after : result Z;
  balance_to_after : result Z
}.

Definition require (o : option str) (msg : string) : script unit :=
  if truthy o then ret tt else print msg ;;; sys_exit 2.

Definition show_balance (label : string) (account : str) (raw : Z)
           (decimals : N) (symbol : str) : script unit :=
  h <~ call (format_amount raw decimals) ;;
  emit (Balance (lit label) account (to_str h) symbol).

(** What [main] holds once the balances have been read. *)
Record session := {
  from_addr : str;
  to_addr : str;
  token_addr : option str;
  decimals : N;
  symbol : str;
  raw_from_before : Z;
  raw_to_before : Z
}.

(** [main], from the arguments to the display of the balances before. *)
Definition setup (a : args) (env : environ) (w : node) : script session :=
  let rpc := py_or (rpc a) (RPC_URL env) in
  let priv :=
    py_or (py_or (private_key a) (PRIVATE_KEY env)) (X402_PRIVATE_KEY env) in
  let token_addr := py_or (token a) (USDC_CONTRACT env) in
  let to_addr := py_or (py_or (to a) (RECEIVER env)) (ADDRESS env) in
  require rpc "RPC URL is required (provide --rpc or set RPC_URL env)" ;;;
  require priv
    "Private key is required (set PRIVATE_KEY or X402_PRIVATE_KEY env)" ;;;
  require token_addr
    "Token contract address is required (set USDC_CONTRACT env or use --token)" ;;;
  require to_addr
    "Recipient address is required (set RECEIVER or ADDRESS env or use --to)" ;;;
  call (imports w) ;;;
  (if is_connected w then ret tt
   else print "Failed to connect to RPC" ;;; sys_exit 3) ;;;
  from_addr <~ call (from_key w) ;;
  print "Using from address" ;;;
  (* token contract *)
  call (contract w) ;;;
  let decimals := try_or (decimals_call w) 18%N in
  let symbol := try_or (symbol_call w) (lit "TOKEN") in
  (* balances before *)
  before <~
    match balance_from_before w, balance_to_before w with
    | Ok f, Ok t => ret (f, t)
    | _, _ => print "Error reading balances" ;;; sys_exit 4
    end ;;
  let '(raw_from_before, raw_to_before) := before in
  show_balance "Balance before" from_addr raw_from_before decimals symbol ;;;
  show_balance "Balance before" (get to_addr) raw_to_before decimals symbol ;;;
  ret {| from_addr := from_addr; to_addr := get to_addr;
         token_addr := token_addr; decimals := decimals; symbol := symbol;
         raw_from_before := raw_from_before;
         raw_to_before := raw_to_before |}.

(** [main]: the amount in raw units, and its check. *)
Definition convert_amount (amount_str : str) (decimals : N) : script Z :=
  amount_raw <~ call (parse_amount amount_str decimals) ;;
  (if amount_raw <=? 0 then print "Invalid amount" ;;; sys_exit 2
   else ret tt) ;;;
  ret amount_raw.

(** [main]: build, sign, send, and wait for the receipt (its ["status"]
    entry, [None] when the receipt has none). *)
Definition send_transfer (wait : bool) (s : session) (amount_raw : Z)
           (w : node) : script (option (option Z)) :=
  (* build tx *)
  call (chain_id w) ;;;
  call (get_transaction_count w) ;;;
  call (abi_uint256 amount_raw) ;;;
  call (build_transaction w) ;;;
  let _gas_price := try_or (gas_price w) 0 in
  (* sign and send *)
  call (sign_transaction w) ;;;
  emit (Submitted {| tx_asset := token_addr s; tx_to := to_addr s;
                     tx_amount := amount_raw; tx_gas := Some 200000 |}) ;;;
  call (send_raw_transaction w) ;;;
  print "Sent transfer tx" ;;;
  if wait then
    print "Waiting for confirmation..." ;;;
    r <~ call (wait_for_transaction_receipt w) ;;
    print "Receipt:" ;;;
    ret (Some r)
  else ret None.

(** [main]: the balances after, the deltas, and the exit status. *)
Definition verify (s : session) (receipt : option (option Z)) (w : node)
  : script unit :=
  (* balances after *)
  after <~
    match balance_from_after w, balance_to_after w with
    | Ok f, Ok t => ret (f, t)
    | _, _ => print "Error reading balances after tx" ;;; sys_exit 4
    end ;;
  let '(raw_from_after, raw_to_after) := after in
  show_balance "Balance after" (from_addr s) raw_from_after (decimals s)
    (symbol s) ;;;
  show_balance "Balance after" (to_addr s) raw_to_after (decimals s)
    (symbol s) ;;;
  let deducted := raw_from_before s - raw_from_after in
  let received := raw_to_after - raw_to_before s in
  emit (Deltas deducted received) ;;;
  (* one line of output, made of both amounts *)
  hd <~ call (format_amount deducted (decimals s)) ;;
  hr <~ call (format_amount received (decimals s)) ;;
  emit (Balance (lit "Deducted (human)") (from_addr s) (to_str hd)
          (symbol s)) ;;;
  emit (Balance (lit "Received") (to_addr s) (to_str hr) (symbol s)) ;;;
  match receipt with
  | Some r =>
      if (match r with Some st => st | None => 0 end) =? 1
      then print "Transfer succeeded" ;;; sys_exit 0
      else print "Transfer may have failed or is pending" ;;; sys_exit 5
  | None => print "Transfer may have failed or is pending" ;;; sys_exit 5
  end.

Definition main (a : args) (env : environ) (w : node) : script unit :=
  let wait := wait a || true in
  s <~ setup a env w ;;
  amount_raw <~ convert_amount (amount a) (decimals s) ;;
  receipt <~ send_transfer wait s amount_raw w ;;
  verify s receipt w.

(** Every required input is given, on the command line or in the
    environment. *)
Definition inputs_present (a : args) (env : environ) : bool :=
  truthy (py_or (rpc a) (RPC_URL env))
  && truthy (py_or (py_or (private_key a) (PRIVATE_KEY env))
                   (X402_PRIVATE_KEY env))
  && truthy (py_or (token a) (USDC_CONTRACT env))
  && truthy (py_or (py_or (to a) (RECEIVER env)) (ADDRESS env)).

(** The transaction [main] submits for a raw amount. *)
Definition session_tx (s : session) (amount_raw : Z) : transfer_tx :=
  {| tx_asset := token_addr s; tx_to := to_addr s;
     tx_amount := amount_raw; tx_gas := Some 200000 |}.
End SendUsdcAndVerify.

(** ** scripts/evm_test_usdc.py

    The optional [--gas-price-gwei] override only sets the price field of
    the transaction and is left out. *)

Module EvmTestUsdc.
Import Decimal.
Local Open Scope script_scope.

Definition format_token_amount (amount_raw : Z) (decimals : N)
  : result str :=
  (p <- pow10 decimals ;; q <- div (of_int amount_raw) p ;; Ok (to_str q))%result.

Definition parse_token_amount (amount_str : str) (decimals : N)
  : result Z :=
  (d <- of_str amount_str ;;
   p <- pow10 decimals ;;
   m <- mul d p ;;
   to_int m)%result.

Inductive unit_choice := token_unit | wei | ether.

(** The command line ([--address] is required). *)
Record args := {
  rpc : option str;
  address : str;
  erc20 : option str;
  amount : option str;
  unit_ : unit_choice;
  send : bool;
  to : option str
}.

Record environ := {
  RPC_URL : option str;
  PRIVATE_KEY : option str;
  X402_PRIVATE_KEY : option str
}.

Record node := {
  import_web3 : result unit;
  is_connected : bool;
  get_balance : result Z;
  contract : result unit;                 (* w3.eth.contract(...) *)
  symbol_call : result str;
  decimals_call : result N;               (* for the balance display *)
  balance_of : result Z;
  import_account : result unit;
  from_key : result str;
  checksum_match : result bool;           (* key address = --address *)
  send_decimals_call : result N;          (* again, before sending *)
  to_checksum_address : result str;       (* of [--to] *)
  get_transaction_count : result Z;
  build_transaction : result unit;
  to_wei : decimal -> result Z;           (* w3.to_wei(_, 'ether') *)
  sign_transaction : result unit;
  send_raw_transaction : result str
}.

Definition load_rpc (a : args) (env : environ) : script str :=
  if truthy (rpc a) then ret (get (rpc a))
  else if truthy (RPC_URL env) then ret (get (RPC_URL env))
  else print "RPC URL must be provided via --rpc or RPC_URL env var" ;;;
       sys_exit 2.

(** [main], up to the display of the balances. *)
Definition show_balances (a : args) (env : environ) (w : node)
  : script unit :=
  load_rpc a env ;;;
  let wallet := address a in
  call (import_web3 w) ;;;
  (if is_connected w then ret tt
   else print "Failed to connect to RPC" ;;; sys_exit 3) ;;;
  print "Connected to RPC" ;;;
  (* native balance *)
  (match get_balance w with
   | Ok _ => print "Native balance"
   | Raise _ => print "Error fetching native balance"
   end) ;;;
  (* ERC20 balance *)
  if truthy (erc20 a) then
    call (contract w) ;;;
    let symbol := try_or (symbol_call w) (lit "TOKEN") in
    let decimals := try_or (decimals_call w) 18%N in
    match (raw_bal <- balance_of w ;;
           human <- format_token_amount raw_bal decimals ;;
           Ok human)%result with
    | Ok human => emit (Balance (lit "balance") wallet human symbol)
    | Raise _ => print "Error fetching ERC20 balance"
    end
  else ret tt.

(** [main] under [if args.send], up to the choice of what to send. *)
Definition prepare_send (a : args) (env : environ) (w : node)
  : script unit :=
  (if truthy (to a) then ret tt
   else print "--to is required when --send is used" ;;; sys_exit 2) ;;;
  (if truthy (py_or (PRIVATE_KEY env) (X402_PRIVATE_KEY env)) then ret tt
   else print "PRIVATE_KEY (or X402_PRIVATE_KEY) env var must be set to sign transactions" ;;;
        sys_exit 2) ;;;
  call (import_account w) ;;;
  call (from_key w) ;;;
  same <~ call (checksum_match w) ;;
  if same then ret tt
  else print "Warning: provided PRIVATE_KEY does not match --address.".

(** [main]: send ERC20 transfer(token). *)
Definition send_erc20 (a : args) (w : node) : script unit :=
  call (contract w) ;;;
  let decimals := try_or (send_decimals_call w) 18%N in
  (if truthy (amount a) then ret tt
   else print "--amount is required to send tokens" ;;; sys_exit 2) ;;;
  amount_raw <~
    match parse_token_amount (get (amount a)) decimals with
    | Ok raw => ret raw
    | Raise _ => print "Invalid amount format:" ;;; sys_exit 2
    end ;;
  to_addr <~ call (to_checksum_address w) ;;
  call (get_transaction_count w) ;;;
  call (abi_uint256 amount_raw) ;;;
  call (build_transaction w) ;;;
  call (sign_transaction w) ;;;
  emit (Submitted {| tx_asset := erc20 a; tx_to := to_addr;
                     tx_amount := amount_raw; tx_gas := Some 150000 |}) ;;;
  call (send_raw_transaction w) ;;;
  print "Sent ERC20 transfer tx" ;;;
  print "Wait for confirmation on explorer or via w3.eth.wait_for_transaction_receipt".

(** [main]: send native. *)
Definition send_native (a : args) (w : node) : script unit :=
  (if truthy (amount a) then ret tt
   else print "--amount is required to send native tokens" ;;;
        sys_exit 2) ;;;
  value <~
    match (match unit_ a with
           | wei => Numeral.int_of_str (get (amount a))
           | ether | token_unit =>
               (d <- of_str (get (amount a)) ;; to_wei w d)%result
           end) with
    | Ok v => ret v
    | Raise _ => print "Invalid amount:" ;;; sys_exit 2
    end ;;
  to_addr <~ call (to_checksum_address w) ;;
  call (get_transaction_count w) ;;;
  call (sign_transaction w) ;;;
  emit (Submitted {| tx_asset := None; tx_to := to_addr;
                     tx_amount := value; tx_gas := Some 21000 |}) ;;;
  call (send_raw_transaction w) ;;;
  print "Sent native transfer tx".

Definition main (a : args) (env : environ) (w : node) : script unit :=
  show_balances a env w ;;;
  if send a then
    prepare_send a env w ;;;
    (* decide send type: if erc20 provided send ERC20, otherwise send native *)
    if truthy (erc20 a) then send_erc20 a w else send_native a w
  else ret tt.
End EvmTestUsdc.

(** ** scripts/send_solana_and_verify.py *)

Module SendSolanaAndVerify.
Local Open Scope script_scope.

Inductive token_type_choice := sol | spl.

Record args := {
  rpc : option str;
  private_key : option str;
  token : option str;
  to : option str;
  amount : str;
  token_type : token_type_choice
}.

Record environ := {
  SOLANA_RPC : option str;
  SOLANA_PRIVATE_KEY : option str;
  SPL_TOKEN : option str;
  RECEIVER : option str
}.

Record node := {
  imports : result unit;                  (* lazy_imports() and Client(rpc) *)
  load_keypair : result str;              (* the key's public address *)
  get_balance_before : result unit;       (* both accounts *)
  build_transfer : result unit;           (* Transaction().add(transfer(...)) *)
  send_transaction : result unit;
  get_balance_after : result unit;
  token_client : result unit;             (* PublicKey(token), Token(...), ATAs *)
  mint_decimals : result N;               (* get_mint_info().decimals *)
  token_transfer : result unit
}.

(** [int(float(amount_str) * 1e9)]. *)
Definition lamports_of (amount_str : str) : result Z :=
  (f <- Float64.of_str amount_str ;;
   Float64.to_int (Float64.mul f Float64.f1e9))%result.

(** [int(float(amount_str) * (10 ** decimals))]. *)
Definition raw_amount_of (amount_str : str) (decimals : N) : result Z :=
  (f <- Float64.of_str amount_str ;;
   p <- Float64.of_int (10 ^ Z.of_N decimals) ;;
   Float64.to_int (Float64.mul f p))%result.

Definition require (o : option str) (msg : string) : script unit :=
  if truthy o then ret tt else print msg ;;; sys_exit 2.

Definition main (a : args) (env : environ) (w : node) : script unit :=
  let rpc := py_or (rpc a) (SOLANA_RPC env) in
  let priv := py_or (private_key a) (SOLANA_PRIVATE_KEY env) in
  let token := py_or (token a) (SPL_TOKEN env) in
  let to := py_or (to a) (RECEIVER env) in
  let amount_str := amount a in
  require rpc "RPC is required (set --rpc or SOLANA_RPC env)" ;;;
  require priv
    "Private key is required (set --private-key or SOLANA_PRIVATE_KEY env)" ;;;
  require to "Recipient address is required (set --to or RECEIVER env)" ;;;
  call (imports w) ;;;
  from_addr <~
    match load_keypair w with
    | Ok addr => ret addr
    | Raise _ => print "Failed to load keypair" ;;; sys_exit 3
    end ;;
  print "Using from address" ;;;
  (match token_type a with
   | sol =>
       call (get_balance_before w) ;;;
       print "Balance before:" ;;;
       print "Receiver balance before:" ;;;
       lamports <~ call (lamports_of amount_str) ;;
       call (build_transfer w) ;;;
       emit (Submitted {| tx_asset := None; tx_to := get to;
                          tx_amount := lamports; tx_gas := None |}) ;;;
       (match send_transaction w with
        | Ok _ => print "Sent tx:"
        | Raise _ => print "Send failed:" ;;; sys_exit 4
        end) ;;;
       call (get_balance_after w) ;;;
       print "Balance after:" ;;;
       print "Receiver balance after:"
   | spl =>
       call (token_client w) ;;;
       print "From ATA:" ;;;
       print "To ATA:" ;;;
       decimals <~ call (mint_decimals w) ;;
       raw_amount <~ call (raw_amount_of amount_str decimals) ;;
       print "Transferring (raw units)" ;;;
       emit (Submitted {| tx_asset := token; tx_to := get to;
                          tx_amount := raw_amount; tx_gas := None |}) ;;;
       match token_transfer w with
       | Ok _ => print "Transfer response:"
       | Raise _ => print "SPL transfer failed:" ;;; sys_exit 5
       end
   end) ;;;
  print "Done".
End SendSolanaAndVerify.

(** ** Exact scaling, for stating what the conversions compute *)

(** [c * 10^x] for [c >= 0], cut to an integer towards zero. *)
Definition truncated_scale (c x : Z) : Z :=
  if 0 <=? x then c * 10 ^ x else c / 10 ^ (- x).

(** ** Runs used as examples

    A run of send_usdc_and_verify.py with every input given on the command
    line and every call succeeding, but for what the parameters say. *)

Module Run.
Import SendUsdcAndVerify.

Definition usdc_args (amount : string) : args :=
  {| rpc := Some (lit "http://127.0.0.1:8545");
     private_key := Some (lit "0x01");
     token := Some (lit "0xToken");
     to := Some (lit "0xReceiver");
     amount := lit amount;
     wait := true |}.

Definition no_env : environ :=
  {| RPC_URL := None; PRIVATE_KEY := None; X402_PRIVATE_KEY := None;
     USDC_CONTRACT := None; RECEIVER := None; ADDRESS := None |}.

Definition usdc_node (decimals : result N) (from_before to_before : Z)
           (receipt : result (option Z)) (from_after to_after : Z) : node :=
  {| imports := Ok tt;
     is_connected := true;
     from_key := Ok (lit "0xSender");
     contract := Ok tt;
     decimals_call := decimals;
     symbol_call := Ok (lit "USDC");
     balance_from_before := Ok from_before;
     balance_to_before := Ok to_before;
     chain_id := Ok 84532;
     get_transaction_count := Ok 7;
     build_transaction := Ok tt;
     gas_price := Ok 1000000000;
     sign_transaction := Ok tt;
     send_raw_transaction := Ok (lit "0xHash");
     wait_for_transaction_receipt := receipt;
     balance_from_after := Ok from_after;
     balance_to_after := Ok to_after |}.

(** The session of such a run. *)
Definition usdc_session (decimals : N) (from_before to_before : Z) : session :=
  {| from_addr := lit "0xSender"; to_addr := lit "0xReceiver";
     token_addr := Some (lit "0xToken"); decimals := decimals;
     symbol := lit "USDC"; raw_from_before := from_before;
     raw_to_before := to_before |}.

(** The transaction such a run submits for a raw amount. *)
Definition usdc_tx (amount_raw : Z) : transfer_tx :=
  {| tx_asset := Some (lit "0xToken"); tx_to := lit "0xReceiver";
     tx_amount := amount_raw; tx_gas := Some 200000 |}.

(** A run of evm_test_usdc.py sending tokens. *)
Definition evm_args (amount : string) : EvmTestUsdc.args :=
  {| EvmTestUsdc.rpc := Some (lit "http://127.0.0.1:8545");
     EvmTestUsdc.address := lit "0xSender";
     EvmTestUsdc.erc20 := Some (lit "0xToken");
     EvmTestUsdc.amount := Some (lit amount);
     EvmTestUsdc.unit_ := EvmTestUsdc.token_unit;
     EvmTestUsdc.send := true;
     EvmTestUsdc.to := Some (lit "0xReceiver") |}.

Definition evm_env : EvmTestUsdc.environ :=
  {| EvmTestUsdc.RPC_URL := None;
     EvmTestUsdc.PRIVATE_KEY := Some (lit "0x01");
     EvmTestUsdc.X402_PRIVATE_KEY := None |}.

Definition evm_node (decimals : result N) : EvmTestUsdc.node :=
  {| EvmTestUsdc.import_web3 := Ok tt;
     EvmTestUsdc.is_connected := true;
     EvmTestUsdc.get_balance := Ok 0;
     EvmTestUsdc.contract := Ok tt;
     EvmTestUsdc.symbol_call := Ok (lit "USDC");
     EvmTestUsdc.decimals_call := decimals;
     EvmTestUsdc.balance_of := Ok 0;
     EvmTestUsdc.import_account := Ok tt;
     EvmTestUsdc.from_key := Ok (lit "0xSender");
     EvmTestUsdc.checksum_match := Ok true;
     EvmTestUsdc.send_decimals_call := decimals;
     EvmTestUsdc.to_checksum_address := Ok (lit "0xReceiver");
     EvmTestUsdc.get_transaction_count := Ok 7;
     EvmTestUsdc.build_transaction := Ok tt;
     EvmTestUsdc.to_wei := fun _ => Raise LibraryError;
     EvmTestUsdc.sign_transaction := Ok tt;
     EvmTestUsdc.send_raw_transaction := Ok (lit "0xHash") |}.

Definition evm_tx (amount_raw : Z) : transfer_tx :=
  {| tx_asset := Some (lit "0xToken"); tx_to := lit "0xReceiver";
     tx_amount := amount_raw; tx_gas := Some 150000 |}.

(** A run of send_solana_and_verify.py sending SOL. *)
Definition sol_args (amount : string) : SendSolanaAndVerify.args :=
  {| SendSolanaAndVerify.rpc := Some (lit "https://api.devnet.solana.com");
     SendSolanaAndVerify.private_key := Some (lit "[1,2,3]");
     SendSolanaAndVerify.token := None;
     SendSolanaAndVerify.to := Some (lit "Receiver");
     SendSolanaAndVerify.amount := lit amount;
     SendSolanaAndVerify.token_type := SendSolanaAndVerify.sol |}.

Definition sol_env : SendSolanaAndVerify.environ :=
  {| SendSolanaAndVerify.SOLANA_RPC := None;
     SendSolanaAndVerify.SOLANA_PRIVATE_KEY := None;
     SendSolanaAndVerify.SPL_TOKEN := None;
     SendSolanaAndVerify.RECEIVER := None |}.

Definition sol_node : SendSolanaAndVerify.node :=
  {| SendSolanaAndVerify.imports := Ok tt;
     SendSolanaAndVerify.load_keypair := Ok (lit "Sender");
     SendSolanaAndVerify.get_balance_before := Ok tt;
     SendSolanaAndVerify.build_transfer := Ok tt;
     SendSolanaAndVerify.send_transaction := Ok tt;
     SendSolanaAndVerify.get_balance_after := Ok tt;
     SendSolanaAndVerify.token_client := Ok tt;
     SendSolanaAndVerify.mint_decimals := Ok 9%N;
     SendSolanaAndVerify.token_transfer := Ok tt |}.
End Run.

(** ** The runner scripts: the mock, the demo and the files they write *)

(** [subprocess.CompletedProcess] of a run with [text=True]. *)
Record completed_process := {
  stdout : str;
  stderr : str;
  returncode : Z
}.

Definition newline : ascii := ascii_of_nat 10.

(** The braces still open at the end of [s], [depth] of them being open at
    its start; a closing brace without an opening one counts for nothing. *)
Fixpoint final_depth (depth : nat) (s : str) : nat :=
  match s with
  | [] => depth
  | ch :: r =>
      if is_open ch then final_depth (S depth) r
      else if is_close ch then final_depth (pred depth) r
      else final_depth depth r
  end.

(** [o] is what [json_loads] made of a slice of [text] that starts with an
    opening brace and ends with a closing one. *)
Definition braced_slice {J} (json_loads : str -> option J) (text : str)
           (o : J) : Prop :=
  exists a b r,
    slice text a b = "{"%char :: r ++ ["}"%char] /\
    json_loads (slice text a b) = Some o.

(** The value evm_test_usdc.py computes for a native transfer. *)
Definition native_value (a : EvmTestUsdc.args) (w : EvmTestUsdc.node)
  : result Z :=
  match EvmTestUsdc.unit_ a with
  | EvmTestUsdc.wei => Numeral.int_of_str (get (EvmTestUsdc.amount a))
  | EvmTestUsdc.ether | EvmTestUsdc.token_unit =>
      (d <- Decimal.of_str (get (EvmTestUsdc.amount a)) ;;
       EvmTestUsdc.to_wei w d)%result
  end.

(** The node [w], but for what comparing the key's address with
    [--address] gives. *)
Definition with_checksum_match (w : EvmTestUsdc.node) (r : result bool)
  : EvmTestUsdc.node :=
  {| EvmTestUsdc.import_web3 := EvmTestUsdc.import_web3 w;
     EvmTestUsdc.is_connected := EvmTestUsdc.is_connected w;
     EvmTestUsdc.get_balance := EvmTestUsdc.get_balance w;
     EvmTestUsdc.contract := EvmTestUsdc.contract w;
     EvmTestUsdc.symbol_call := EvmTestUsdc.symbol_call w;
     EvmTestUsdc.decimals_call := EvmTestUsdc.decimals_call w;
     EvmTestUsdc.balance_of := EvmTestUsdc.balance_of w;
     EvmTestUsdc.import_account := EvmTestUsdc.import_account w;
     EvmTestUsdc.from_key := EvmTestUsdc.from_key w;
     EvmTestUsdc.checksum_match := r;
     EvmTestUsdc.send_decimals_call := EvmTestUsdc.send_decimals_call w;
     EvmTestUsdc.to_checksum_address := EvmTestUsdc.to_checksum_address w;
     EvmTestUsdc.get_transaction_count := EvmTestUsdc.get_transaction_count w;
     EvmTestUsdc.build_transaction := EvmTestUsdc.build_transaction w;
     EvmTestUsdc.to_wei := EvmTestUsdc.to_wei w;
     EvmTestUsdc.sign_transaction := EvmTestUsdc.sign_transaction w;
     EvmTestUsdc.send_raw_transaction := EvmTestUsdc.send_raw_transaction w |}.

(** The command line [a] of send_usdc_and_verify.py, with [--wait] given
    or not. *)
Definition with_wait (a : SendUsdcAndVerify.args) (b : bool)
  : SendUsdcAndVerify.args :=
  {| SendUsdcAndVerify.rpc := SendUsdcAndVerify.rpc a;
     SendUsdcAndVerify.private_key := SendUsdcAndVerify.private_key a;
     SendUsdcAndVerify.token := SendUsdcAndVerify.token a;
     SendUsdcAndVerify.to := SendUsdcAndVerify.to a;
     SendUsdcAndVerify.amount := SendUsdcAndVerify.amount a;
     SendUsdcAndVerify.wait := b |}.

(** ** scripts/run_demo_with_mock.py: [main]

    The [finally] clause only stops the mock and prints nothing. *)

Module RunDemoWithMockMain.
Import Json.
Local Open Scope script_scope.

Record world := {
  start_mock : result unit;               (* subprocess.Popen *)
  wait_for_mock : bool;
  communicate : result str;               (* uvicorn's stderr, decoded *)
  kill : result unit;
  run_demo : result completed_process;
  write_log : str -> result unit;         (* LOG_PATH.write_text *)
  write_last_tx : list json -> result unit
                                          (* json.dumps, LAST_TX_PATH.write_text *)
}.

Definition main (w : world) : script unit :=
  print "Starting mock facilitator and demo runner..." ;;;
  call (start_mock w) ;;;
  print "Waiting for mock to be ready..." ;;;
  let ready := wait_for_mock w in
  print (if ready then "OK" else "TIMEOUT") ;;;
  (if ready then ret tt
   else
     print "Mock facilitator did not start in time. Check logs." ;;;
     (* capture some stderr *)
     (match communicate w with
      | Ok err =>
          emit (Message (lit "uvicorn stderr:" ++ newline :: " "%char :: err))
      | Raise _ => ret tt
      end) ;;;
     call (kill w) ;;;
     sys_exit 1) ;;;
  print "Running demo script..." ;;;
  res <~ call (run_demo w) ;;
  call (write_log w (stdout res ++ newline :: stderr res)) ;;;
  print "Demo stdout/stderr written to" ;;;
  (* extract JSON objects from stdout *)
  let json_objs :=
    RunDemoWithMock.extract_json_objects json loads (stdout res) in
  (if null json_objs then print "No JSON objects extracted from demo output."
   else
     call (write_last_tx w json_objs) ;;;
     print "Extracted JSON object(s) and saved to") ;;;
  (* return exit code *)
  if returncode res =? 0 then ret tt
  else print "Demo exited with code" ;;; sys_exit (returncode res).
End RunDemoWithMockMain.

(** ** scripts/one_click_test.py: [main] and its [find_status_codes]

    The [finally] clause only stops the mock and prints nothing.  Objects
    nested deeper than the interpreter's recursion limit are outside the
    model. *)

Module OneClickTestMain.
Import Json.
Local Open Scope script_scope.

Section Main.
(** [int(s)] for a decoded string, [None] when it raises: the digits and
    blanks it accepts depend on the interpreter's Unicode tables. *)
Variable int_of_text : ustr -> option Z.

(** [int(v)] for a decoded JSON value, [None] when it raises. *)
Definition py_int (v : json) : option Z :=
  match v with
  | JBool b => Some (if b then 1 else 0)
  | JInt n => Some n
  | JFloat f =>
      match Float64.to_int f with
      | Ok n => Some n
      | Raise _ => None
      end
  | JStr s => int_of_text s
  | JNull | JArr _ | JObj _ => None
  end.

Fixpoint find_status_codes (o : json) : list Z :=
  match o with
  | JObj d =>
      match dict_get d (ulit "status_code") with
      | Some v => opt_list (py_int v)
      | None =>
          (fix values (d : list (ustr * json)) : list Z :=
             match d with
             | [] => []
             | (_, v) :: d' => find_status_codes v ++ values d'
             end) d
      end
  | JArr l =>
      (fix each (l : list json) : list Z :=
         match l with
         | [] => []
         | i :: l' => find_status_codes i ++ each l'
         end) l
  | _ => []
  end.

(** [for o in objs: for c in find_status_codes(o): if c != 200:
    non200.append(c)]. *)
Definition collect_non200 (objs : list json) : list Z :=
  fold_left
    (fun non200 o =>
       fold_left (fun acc c => if c =? 200 then acc else acc ++ [c])
                 (find_status_codes o) non200)
    objs [].

Record world := {
  mkdir : result unit;                    (* SCRIPTS.mkdir *)
  start_mock : result unit;               (* subprocess.Popen *)
  wait_for_mock : bool;
  communicate : result str;               (* uvicorn's stderr, decoded *)
  kill : result unit;
  run_demo : result completed_process;
  write_log : str -> result unit;         (* LOG.write_text *)
  write_last_json : list json -> result unit
                                          (* json.dumps, LAST_JSON.write_text *)
}.

Definition main (w : world) : script unit :=
  call (mkdir w) ;;;
  call (write_log w []) ;;;
  call (start_mock w) ;;;
  print "Starting mock facilitator..." ;;;
  (if wait_for_mock w then ret tt
   else
     print "Mock failed to start in time; capturing stderr..." ;;;
     (match communicate w with
      | Ok err => emit (Message err)
      | Raise _ => ret tt
      end) ;;;
     call (kill w) ;;;
     call (write_log w (lit "Mock facilitator failed to start" ++ [newline])) ;;;
     sys_exit 1) ;;;
  print "Mock ready at" ;;;
  print "Running integration demo against mock..." ;;;
  res <~ call (run_demo w) ;;
  let combined := stdout res ++ newline :: stderr res in
  call (write_log w combined) ;;;
  print "Logs written to" ;;;
  let objs := OneClickTest.extract_json_objects json loads (stdout res) in
  (if null objs then print "No JSON objects found in demo output"
   else
     call (write_last_json w objs) ;;;
     print "Extracted JSON objects to") ;;;
  (* Validate all status_code fields are 200 *)
  let non200 := collect_non200 objs in
  if null non200 then
    print "OK: all status_code values are 200 (tsaref)" ;;; sys_exit 0
  else
    print "FAIL: found non-200 status codes:" ;;; sys_exit 2.
End Main.

(** No object inside [o], [o] included, has a ['status_code'] key. *)
Fixpoint no_status_key (o : json) : bool :=
  match o with
  | JObj d =>
      match dict_get d (ulit "status_code") with
      | Some _ => false
      | None =>
          (fix values (d : list (ustr * json)) : bool :=
             match d with
             | [] => true
             | (_, v) :: d' => no_status_key v && values d'
             end) d
      end
  | JArr l =>
      (fix each (l : list json) : bool :=
         match l with
         | [] => true
         | i :: l' => no_status_key i && each l'
         end) l
  | _ => true
  end.
End OneClickTestMain.

(** ** scripts/automated_recording.py *)

Module AutomatedRecording.
Section Extractor.
Variable J : Type.
Variable json_loads : str -> option J.

Record loop_state := {
  objs : list J;
  brace_stack : list ascii;
  start_idx : option nat
}.

Definition init : loop_state :=
  {| objs := []; brace_stack := []; start_idx := None |}.

Definition step (text : str) (st : loop_state) (i : nat) (ch : ascii)
  : loop_state :=
  if is_open ch then
    {| objs := objs st;
       brace_stack := brace_stack st ++ ["{"%char];
       start_idx := if null (brace_stack st) then Some i else start_idx st |}
  else if is_close ch then
    if null (brace_stack st) then st
    else
      let stack' := removelast (brace_stack st) in
      match null stack', start_idx st with
      | true, Some s =>
          let candidate := slice text s (i + 1) in
          {| objs := objs st ++ opt_list (json_loads candidate);
             brace_stack := stack';
             start_idx := None |}
      | _, _ =>
          {| objs := objs st; brace_stack := stack';
             start_idx := start_idx st |}
      end
  else st.

Fixpoint loop (text : str) (i : nat) (rest : str) (st : loop_state)
  : loop_state :=
  match rest with
  | [] => st
  | ch :: rest' => loop text (S i) rest' (step text st i ch)
  end.

Definition extract_json_objects (text : str) : list J :=
  objs (loop text 0 text init).

(** A state of this loop, as a state of the loop of run_demo_with_mock.py
    it was copied from. *)
Definition as_original (st : loop_state) : RunDemoWithMock.loop_state J :=
  {| RunDemoWithMock.objs := objs st;
     RunDemoWithMock.brace_stack := brace_stack st;
     RunDemoWithMock.start_idx := start_idx st |}.
End Extractor.

Import Json.
Local Open Scope script_scope.

(** The command line. *)
Record args := {
  record : bool;
  timeout : Z
}.

(** The child processes of the runner. *)
Inductive process :=
| Recorder                    (* ffmpeg_proc *)
| Mock.                       (* proc *)

Record world := {
  start_mock : result unit;               (* subprocess.Popen *)
  wait_for_mock : result bool;            (* it imports httpx first *)
  communicate : result str;               (* uvicorn's stderr, decoded *)
  kill : result unit;
  which_ffmpeg : bool;                    (* shutil.which("ffmpeg") *)
  popen_ffmpeg : result unit;
  run_demo : Z -> result completed_process;
  write_log : str -> result unit;         (* LOG_PATH.write_text *)
  write_last_tx : list json -> result unit;
                                          (* json.dumps, LAST_TX_PATH.write_text *)
  terminate : process -> result unit;     (* in the [finally] clause *)
  wait : process -> result unit           (* wait(timeout=3), which raises
                                             when the time is up *)
}.

(** What a run does: it prints, and it signals its child processes. *)
Inductive action :=
| Out (e : event)
| Terminate (p : process)     (* p.terminate() *)
| Wait (p : process)          (* p.wait(timeout=3) *)
| Kill (p : process).         (* p.kill() *)

Definition run (A : Type) : Type := list action * (stop + A).

Definition lift {A} (m : script A) : run A := (map Out (fst m), snd m).

(** Whether a recorder was started. *)
Definition start_ffmpeg_recording (w : world) : script bool :=
  if which_ffmpeg w then
    match popen_ffmpeg w with
    | Ok _ => ret true
    | Raise _ => print "Failed to start ffmpeg:" ;;; ret false
    end
  else print "ffmpeg not found in PATH; skipping recording" ;;; ret false.

(** [main], before the [try] block. *)
Definition start (w : world) : script unit :=
  print "Starting mock facilitator and demo runner..." ;;;
  call (start_mock w).

(** The [try] block, up to the decision on the mock: whether it is
    ready. *)
Definition await_mock (w : world) : script bool :=
  print "Waiting for mock to be ready..." ;;;
  ready <~ call (wait_for_mock w) ;;
  print (if ready then "OK" else "TIMEOUT") ;;;
  (if ready then ret tt
   else
     print "Mock facilitator did not start in time. Reading uvicorn stderr for debugging..." ;;;
     match communicate w with
     | Ok err => emit (Message err)
     | Raise _ => ret tt
     end) ;;;
  ret ready.

(** The [try] block, from [ffmpeg_proc = None] to the recorder: whether
    one runs. *)
Definition prepare (a : args) (w : world) : script bool :=
  if record a then
    print "Starting ffmpeg recording to" ;;;
    ffmpeg_proc <~ start_ffmpeg_recording w ;;
    (if ffmpeg_proc then print "Recording started (ffmpeg pid:"
     else print "Recording not started") ;;;
    ret ffmpeg_proc
  else ret false.

(** The [try] block, from the demo to its end. *)
Definition run_and_save (a : args) (w : world) : script unit :=
  print "Running demo script..." ;;;
  res <~ call (run_demo w (timeout a)) ;;
  call (write_log w (stdout res ++ newline :: stderr res)) ;;;
  print "Logs written to" ;;;
  let json_objs := extract_json_objects json loads (stdout res) in
  (if null json_objs then print "No JSON objects extracted from demo output."
   else
     call (write_last_tx w json_objs) ;;;
     print "Extracted JSON object(s) and saved to") ;;;
  if returncode res =? 0 then ret tt
  else print "Demo exited with code".
  (* fall through to cleanup, then exit with code *)

(** The [finally] clause on the recorder: it is asked to terminate and
    waited for, and killed when either call raises.  An exception of
    [kill] is swallowed. *)
Definition stop_recorder (w : world) : list action :=
  Out (Message (lit "Stopping ffmpeg recording..."))
  :: Terminate Recorder
  :: match terminate w Recorder with
     | Ok _ =>
         Wait Recorder
         :: match wait w Recorder with
            | Ok _ => []
            | Raise _ => [Kill Recorder]
            end
     | Raise _ => [Kill Recorder]
     end.

(** The [finally] clause on the mock: it is killed when the wait raises,
    and left alone when [terminate] does. *)
Definition stop_mock (w : world) : list action :=
  Terminate Mock
  :: match terminate w Mock with
     | Ok _ =>
         Wait Mock
         :: match wait w Mock with
            | Ok _ => []
            | Raise _ => [Kill Mock]
            end
     | Raise _ => []
     end.

(** The [finally] clause; [ffmpeg_proc] is false also when the name is not
    yet bound.  Nothing it does changes how the run ends. *)
Definition cleanup (ffmpeg_proc : bool) (w : world) : list action :=
  (if ffmpeg_proc then stop_recorder w else []) ++ stop_mock w.

Definition main (a : args) (w : world) : run unit :=
  match lift (start w) with
  | (t0, inl s) => (t0, inl s)
  | (t0, inr _) =>
      match lift (await_mock w) with
      | (t1, inl s) => (t0 ++ t1 ++ cleanup false w, inl s)
      | (t1, inr false) =>
          (t0 ++ t1 ++ Kill Mock :: cleanup false w,
           match kill w with
           | Ok _ => inl (Exit 1)
           | Raise e => inl (Uncaught e)
           end)
      | (t1, inr true) =>
          match lift (prepare a w) with
          | (t2, inl s) => (t0 ++ t1 ++ t2 ++ cleanup false w, inl s)
          | (t2, inr ffmpeg_proc) =>
              let '(t3, r) := lift (run_and_save a w) in
              (t0 ++ t1 ++ t2 ++ t3 ++ cleanup ffmpeg_proc w, r)
          end
      end
  end.
End AutomatedRecording.

(** ** scripts/run_facilitator_forever.py

    One round of the loop starts the server, waits for it to answer and
    then for the process to end.  The rounds the world has in store are
    given as a list; when it is used up the launcher is still running.  A
    [KeyboardInterrupt] during the [try] around [proc.wait()] is handled
    there; one that arrives elsewhere in a round leaves [main]. *)

Module RunFacilitatorForever.
(** How the [try] around [proc.wait()] ends. *)
Inductive wait_outcome :=
| Exited (code : Z)
| Interrupted                 (* KeyboardInterrupt *)
| WaitError (e : pyexn).      (* another exception *)

(** Where in a round a [KeyboardInterrupt] arrives that no handler
    catches; a round that does not get there is not interrupted. *)
Inductive point :=
| InStart                     (* start_uvicorn_log() *)
| InReadyCheck                (* wait_for_ready() *)
| InReport                    (* the print after the check *)
| InBrowser                   (* open_browser_once() *)
| InHandler                   (* an except clause after proc.wait() *)
| InSleep.                    (* time.sleep(RESTART_DELAY) *)

Record round := {
  start_uvicorn_log : result unit;        (* the log file and Popen *)
  wait_for_ready : result bool;           (* it imports httpx first *)
  wait : wait_outcome;
  interrupt : option point
}.

Inductive action :=
| Say (text : str)
| StartUvicorn
| OpenBrowser
| Sleep                       (* time.sleep(RESTART_DELAY) *)
| Terminate.                  (* proc.terminate() after an interrupt *)

Inductive status :=
| Running
| Returned
| Raised (e : pyexn)
| Aborted.                    (* KeyboardInterrupt left [main] *)

(** [OPEN_BROWSER], from the value of [OPEN_FACILITATOR_BROWSER]. *)
Definition open_browser_setting (v : option str) : bool :=
  let s := match v with Some s => s | None => lit "1" end in
  str_eqb s (lit "1") || str_eqb s (lit "true") || str_eqb s (lit "True").

Definition point_eqb (p q : point) : bool :=
  match p, q with
  | InStart, InStart | InReadyCheck, InReadyCheck | InReport, InReport
  | InBrowser, InBrowser | InHandler, InHandler | InSleep, InSleep => true
  | _, _ => false
  end.

(** The user interrupts round [r] at [p]. *)
Definition interrupted_at (r : round) (p : point) : bool :=
  match interrupt r with
  | Some q => point_eqb q p
  | None => false
  end.

(** The [while True] loop. *)
Fixpoint loop (OPEN_BROWSER first_time : bool) (rounds : list round)
  : list action * status :=
  match rounds with
  | [] => ([], Running)
  | r :: rest =>
      if interrupted_at r InStart then ([], Aborted) else
      match start_uvicorn_log r with
      | Raise e => ([], Raised e)
      | Ok _ =>
          if interrupted_at r InReadyCheck then ([StartUvicorn], Aborted) else
          match wait_for_ready r with
          | Raise e => ([StartUvicorn], Raised e)
          | Ok ready =>
              if interrupted_at r InReport then ([StartUvicorn], Aborted) else
              let opens := ready && (OPEN_BROWSER && first_time) in
              let said :=
                if ready then
                  Say (lit "Facilitator is ready at")
                  :: (if opens then [OpenBrowser] else [])
                else
                  [Say (lit "Facilitator did not report ready within timeout; check logs.")] in
              if opens && interrupted_at r InBrowser
              then (StartUvicorn :: said, Aborted) else
              let first_time' := if opens then false else first_time in
              (* Wait for process to exit *)
              match wait r with
              | Exited _ =>
                  if interrupted_at r InSleep
                  then (StartUvicorn :: said
                          ++ [Say (lit "Facilitator process exited with code")],
                        Aborted)
                  else
                    let '(t, s) := loop OPEN_BROWSER first_time' rest in
                    (StartUvicorn :: said
                       ++ [Say (lit "Facilitator process exited with code"); Sleep]
                       ++ t, s)
              | WaitError _ =>
                  if interrupted_at r InHandler
                  then (StartUvicorn :: said, Aborted)
                  else if interrupted_at r InSleep
                  then (StartUvicorn :: said
                          ++ [Say (lit "Error waiting for process:")],
                        Aborted)
                  else
                    let '(t, s) := loop OPEN_BROWSER first_time' rest in
                    (StartUvicorn :: said
                       ++ [Say (lit "Error waiting for process:"); Sleep]
                       ++ t, s)
              | Interrupted =>
                  if interrupted_at r InHandler
                  then (StartUvicorn :: said, Aborted)
                  else
                    (StartUvicorn :: said
                       ++ [Say (lit "Received KeyboardInterrupt, terminating facilitator process...");
                           Terminate], Returned)
              end
          end
      end
  end.

(** [main]; the [finally] clause tidies up and has the last word. *)
Definition main (OPEN_BROWSER : bool) (rounds : list round)
  : list action * status :=
  let '(t, s) := loop OPEN_BROWSER true rounds in
  (Say (lit "Starting facilitator launcher for") :: t
     ++ match s with
        | Running => []
        | _ => [Say (lit "Facilitator launcher exiting.")]
        end, s).

Definition opened (t : list action) : nat :=
  length (filter (fun a => match a with OpenBrowser => true | _ => false end) t).

Definition started (t : list action) : nat :=
  length (filter (fun a => match a with StartUvicorn => true | _ => false end) t).
End RunFacilitatorForever.

(** ** Runs of the runner scripts used as examples *)

Module RunnerRuns.
(** A demo that stopped with a traceback before it printed any JSON. *)
Definition crashed_demo : completed_process :=
  {| stdout := lit "x402 integration demo";
     stderr := lit "Traceback (most recent call last):";
     returncode := 1 |}.

Definition quoted (s : string) : str := dquote :: lit s ++ [dquote].

(** The JSON text of an object with a status code. *)
Definition status_object (code : string) : str :=
  lit "{" ++ quoted "status_code" ++ lit ": " ++ lit code ++ lit "}".

(** A demo that printed a failed answer. *)
Definition failed_answer : completed_process :=
  {| stdout := lit "POST /verify -> " ++ status_object "422";
     stderr := [];
     returncode := 0 |}.

(** A demo that printed an answer with status 200 whose body holds a failed
    one. *)
Definition masked_failure : completed_process :=
  {| stdout := lit "{" ++ quoted "status_code" ++ lit ": 200, "
               ++ quoted "body" ++ lit ": " ++ status_object "500" ++ lit "}";
     stderr := [];
     returncode := 0 |}.

(** Runs in which every call to the system succeeds. *)
Definition one_click_world (ready : bool) (res : completed_process)
  : OneClickTestMain.world :=
  {| OneClickTestMain.mkdir := Ok tt;
     OneClickTestMain.start_mock := Ok tt;
     OneClickTestMain.wait_for_mock := ready;
     OneClickTestMain.communicate := Ok [];
     OneClickTestMain.kill := Ok tt;
     OneClickTestMain.run_demo := Ok res;
     OneClickTestMain.write_log := fun _ => Ok tt;
     OneClickTestMain.write_last_json := fun _ => Ok tt |}.

Definition run_demo_world (ready : bool) (res : completed_process)
  : RunDemoWithMockMain.world :=
  {| RunDemoWithMockMain.start_mock := Ok tt;
     RunDemoWithMockMain.wait_for_mock := ready;
     RunDemoWithMockMain.communicate := Ok [];
     RunDemoWithMockMain.kill := Ok tt;
     RunDemoWithMockMain.run_demo := Ok res;
     RunDemoWithMockMain.write_log := fun _ => Ok tt;
     RunDemoWithMockMain.write_last_tx := fun _ => Ok tt |}.

(** The recorder of these runs does not end within the three seconds it is
    given. *)
Definition recording_world (demo : result completed_process)
  : AutomatedRecording.world :=
  {| AutomatedRecording.start_mock := Ok tt;
     AutomatedRecording.wait_for_mock := Ok true;
     AutomatedRecording.communicate := Ok [];
     AutomatedRecording.kill := Ok tt;
     AutomatedRecording.which_ffmpeg := true;
     AutomatedRecording.popen_ffmpeg := Ok tt;
     AutomatedRecording.run_demo := fun _ => demo;
     AutomatedRecording.write_log := fun _ => Ok tt;
     AutomatedRecording.write_last_tx := fun _ => Ok tt;
     AutomatedRecording.terminate := fun _ => Ok tt;
     AutomatedRecording.wait :=
       fun p =>
         match p with
         | AutomatedRecording.Recorder => Raise LibraryError
         | AutomatedRecording.Mock => Ok tt
         end |}.

Definition recording_args (record : bool) : AutomatedRecording.args :=
  {| AutomatedRecording.record := record;
     AutomatedRecording.timeout := 60 |}.

(** A server that answers and then exits with [code]. *)
Definition served (code : Z) : RunFacilitatorForever.round :=
  {| RunFacilitatorForever.start_uvicorn_log := Ok tt;
     RunFacilitatorForever.wait_for_ready := Ok true;
     RunFacilitatorForever.wait := RunFacilitatorForever.Exited code;
     RunFacilitatorForever.interrupt := None |}.

(** A server that never answers and exits with [code]. *)
Definition failed (code : Z) : RunFacilitatorForever.round :=
  {| RunFacilitatorForever.start_uvicorn_log := Ok tt;
     RunFacilitatorForever.wait_for_ready := Ok false;
     RunFacilitatorForever.wait := RunFacilitatorForever.Exited code;
     RunFacilitatorForever.interrupt := None |}.

(** A server that answers and runs until the user interrupts. *)
Definition interrupted : RunFacilitatorForever.round :=
  {| RunFacilitatorForever.start_uvicorn_log := Ok tt;
     RunFacilitatorForever.wait_for_ready := Ok true;
     RunFacilitatorForever.wait := RunFacilitatorForever.Interrupted;
     RunFacilitatorForever.interrupt := None |}.
End RunnerRuns.

(** * Properties *)

(** ** Text helpers *)

Lemma slice_middle (pre mid post : str) :
  slice (pre ++ mid ++ post) (length pre) (length pre + length mid) = mid.
Proof.
  unfold slice.
  rewrite skipn_app, skipn_all, Nat.sub_diag. simpl.
  replace (length pre + length mid - length pre)%nat with (length mid) by lia.
  rewrite firstn_app, firstn_all, Nat.sub_diag. simpl.
  apply app_nil_r.
Qed.

Lemma close_not_open ch : is_close ch = true -> is_open ch = false.
Proof.
  unfold is_close, is_open, ascii_eqb. intros H.
  apply Ascii.eqb_eq in H. subst ch. reflexivity.
Qed.

Lemma null_length {A} (l : list A) : null l = (length l =? 0)%nat.
Proof. destruct l; reflexivity. Qed.

Lemma removelast_length {A} (l : list A) :
  length (removelast l) = pred (length l).
Proof.
  induction l as [|x l IH]; [reflexivity|].
  destruct l as [|y l]; [reflexivity|].
  change (removelast (x :: y :: l)) with (x :: removelast (y :: l)).
  simpl length in *. rewrite IH. reflexivity.
Qed.

(** ** The stack-based extractor meets its contract *)

Module RunDemoFacts.
Section Facts.
Import RunDemoWithMock ExtractorSpec.
Variable J : Type.
Variable json_loads : str -> option J.

Local Abbreviation loop := (RunDemoWithMock.loop J json_loads).
Local Abbreviation St := (Build_loop_state J).

Lemma split_balanced_app s : forall d b rest,
  split_balanced d s = Some (b, rest) -> s = b ++ rest /\ b <> [].
Proof.
  induction s as [|ch r IH]; intros d b rest H; simpl in H; [discriminate|].
  destruct (is_close ch).
  - destruct d as [|d].
    + inversion H; subst. split; [reflexivity | discriminate].
    + destruct (split_balanced d r) as [[b' rest']|] eqn:E; [|discriminate].
      inversion H; subst. apply IH in E. destruct E as [-> _].
      split; [reflexivity | discriminate].
  - destruct (split_balanced _ r) as [[b' rest']|] eqn:E; [|discriminate].
    inversion H; subst. apply IH in E. destruct E as [-> _].
    split; [reflexivity | discriminate].
Qed.

(** Inside a chunk: the loop runs to the closing brace, hands the chunk to
    [json.loads] and is back at depth zero. *)
Lemma loop_in_chunk text start : forall rest d b rest' i stk os,
  split_balanced d rest = Some (b, rest') ->
  length stk = S d ->
  loop text i rest (St os stk (Some start)) =
  loop text (i + length b) rest'
    (St (os ++ opt_list (json_loads (slice text start (i + length b))))
        [] None).
Proof.
  induction rest as [|ch r IH]; intros d b rest' i stk os H Hlen;
    simpl in H; [discriminate|].
  cbn [RunDemoWithMock.loop]. unfold step. simpl.
  destruct (is_close ch) eqn:Hc.
  - rewrite (close_not_open _ Hc).
    rewrite (null_length stk), Hlen. simpl.
    rewrite (null_length (removelast stk)), removelast_length, Hlen. simpl.
    destruct d as [|d].
    + inversion H; subst. simpl.
      assert (Hnil : removelast stk = []).
      { apply length_zero_iff_nil. rewrite removelast_length, Hlen.
        reflexivity. }
      rewrite Hnil, Nat.add_1_r. reflexivity.
    + destruct (split_balanced d r) as [[b' r']|] eqn:E; [|discriminate].
      inversion H; subst. simpl.
      rewrite (IH d b' rest' (S i) (removelast stk) os E).
      * rewrite <- plus_n_Sm. reflexivity.
      * rewrite removelast_length, Hlen. reflexivity.
  - destruct (split_balanced _ r) as [[b' r']|] eqn:E; [|discriminate].
    inversion H; subst. simpl.
    destruct (is_open ch) eqn:Ho.
    + rewrite (null_length stk), Hlen. simpl.
      rewrite (IH (S d) b' rest' (S i) (stk ++ ["{"%char]) os E).
      * rewrite <- plus_n_Sm. reflexivity.
      * rewrite length_app, Hlen. simpl. lia.
    + rewrite (IH d b' rest' (S i) stk os E Hlen).
      rewrite <- plus_n_Sm. reflexivity.
Qed.

(** A chunk that never closes yields nothing more. *)
Lemma loop_unclosed text start : forall rest d i stk os,
  split_balanced d rest = None ->
  length stk = S d ->
  objs J (loop text i rest (St os stk (Some start))) = os.
Proof.
  induction rest as [|ch r IH]; intros d i stk os H Hlen;
    [reflexivity|].
  simpl in H.
  cbn [RunDemoWithMock.loop]. unfold step. simpl.
  destruct (is_close ch) eqn:Hc.
  - rewrite (close_not_open _ Hc).
    rewrite (null_length stk), Hlen. simpl.
    rewrite (null_length (removelast stk)), removelast_length, Hlen. simpl.
    destruct d as [|d]; [discriminate|].
    destruct (split_balanced d r) as [[b' r']|] eqn:E; [discriminate|].
    apply (IH d); [exact E|].
    rewrite removelast_length, Hlen. reflexivity.
  - destruct (split_balanced _ r) as [[b' r']|] eqn:E; [discriminate|].
    destruct (is_open ch) eqn:Ho.
    + rewrite (null_length stk), Hlen. simpl.
      apply (IH (S d)); [exact E|].
      rewrite length_app, Hlen. simpl. lia.
    + apply (IH d); assumption.
Qed.

(** At depth zero the loop yields what the remaining chunks yield. *)
Lemma loop_top_level text : forall fuel rest pre os,
  (length rest <= fuel)%nat ->
  text = pre ++ rest ->
  objs J (loop text (length pre) rest (St os [] None)) =
  os ++ flat_map (fun c => opt_list (json_loads c))
                 (top_level_chunks fuel rest).
Proof.
  induction fuel as [|fuel IH]; intros rest pre os Hfuel Htext.
  - destruct rest; [|simpl in Hfuel; lia].
    simpl. symmetry. apply app_nil_r.
  - destruct rest as [|ch r]; [simpl; symmetry; apply app_nil_r|].
    simpl in Hfuel.
    cbn [RunDemoWithMock.loop]. unfold step. simpl.
    destruct (is_open ch) eqn:Ho.
    + destruct (split_balanced 0 r) as [[b rest']|] eqn:E.
      * destruct (split_balanced_app _ _ _ _ E) as [Hr _].
        rewrite (loop_in_chunk text (length pre) r 0 b rest'
                   (S (length pre)) ["{"%char] os E eq_refl).
        assert (Hslice :
          slice text (length pre) (S (length pre) + length b) = ch :: b).
        { rewrite Htext, Hr.
          change (ch :: b ++ rest') with ((ch :: b) ++ rest').
          replace (S (length pre) + length b)%nat
            with (length pre + length (ch :: b))%nat by (simpl; lia).
          apply slice_middle. }
        rewrite Hslice.
        replace (S (length pre) + length b)%nat
          with (length (pre ++ ch :: b)) by (rewrite length_app; simpl; lia).
        rewrite IH.
        -- simpl. rewrite <- app_assoc. reflexivity.
        -- rewrite Hr, length_app in Hfuel. lia.
        -- rewrite Htext, Hr, <- app_assoc. reflexivity.
      * simpl. rewrite app_nil_r.
        apply (loop_unclosed text (length pre) r 0); [exact E | reflexivity].
    + assert (Hsame : (if is_close ch then St os [] None else St os [] None)
                      = St os [] None) by (destruct (is_close ch); reflexivity).
      replace (S (length pre)) with (length (pre ++ [ch]))
        by (rewrite length_app; simpl; lia).
      destruct (is_close ch);
        (rewrite IH;
         [reflexivity | lia | rewrite Htext, <- app_assoc; reflexivity]).
Qed.
End Facts.
End RunDemoFacts.

(** The fuel of the contract is enough: more of it changes nothing. *)
Lemma top_level_chunks_fuel : forall fuel s,
  (length s <= fuel)%nat ->
  ExtractorSpec.top_level_chunks fuel s = ExtractorSpec.candidates s.
Proof.
  unfold ExtractorSpec.candidates.
  assert (G : forall n s f1 f2,
            (length s <= n)%nat -> (length s <= f1)%nat ->
            (length s <= f2)%nat ->
            ExtractorSpec.top_level_chunks f1 s
            = ExtractorSpec.top_level_chunks f2 s).
  { induction n as [|n IH]; intros s f1 f2 Hn H1 H2.
    - destruct s; [|simpl in Hn; lia]. destruct f1, f2; reflexivity.
    - destruct s as [|ch r]; [destruct f1, f2; reflexivity|].
      simpl in Hn, H1, H2.
      destruct f1 as [|f1]; [lia|]. destruct f2 as [|f2]; [lia|].
      cbn [ExtractorSpec.top_level_chunks].
      destruct (is_open ch).
      + destruct (ExtractorSpec.split_balanced 0 r) as [[b rest]|] eqn:E;
          [|reflexivity].
        destruct (RunDemoFacts.split_balanced_app _ _ _ _ E) as [Hr _].
        f_equal. subst r. rewrite length_app in *. apply IH; lia.
      + apply IH; lia. }
  intros fuel s H. apply (G (length s)); lia.
Qed.

(** C8. The contract holds for one of the two extractors it is claimed
    for.  For every input text and every behaviour of [json.loads], the
    extractor of run_demo_with_mock.py returns, in order of occurrence, what
    [json.loads] makes of each top-level chunk found by brace-depth
    tracking; a chunk that fails to parse contributes nothing and leaves
    the other results as they are.  The copy in one_click_test.py breaks
    the contract: on [}{}], whose one top-level chunk is the empty object,
    it returns nothing. *)
Theorem one_click_extractor_breaks_contract :
  (forall (J : Type) (json_loads : str -> option J) (text : str),
     RunDemoWithMock.extract_json_objects J json_loads text =
     ExtractorSpec.valid_objects json_loads text) /\
  ExtractorSpec.valid_objects Json.loads (lit "}{}") = [Json.JObj []] /\
  OneClickTest.extract_json_objects Json.json Json.loads (lit "}{}") = [].
Proof.
  split; [|split; reflexivity].
  intros J json_loads text.
  unfold RunDemoWithMock.extract_json_objects, ExtractorSpec.valid_objects,
    ExtractorSpec.candidates.
  apply (RunDemoFacts.loop_top_level J json_loads text (length text) text [] []);
    [lia | reflexivity].
Qed.

(** ** The two extractors *)

Module ExtractorAgreement.
Section Facts.
Import ExtractorSpec.
Variable J : Type.
Variable json_loads : str -> option J.

Local Abbreviation loop_s := (RunDemoWithMock.loop J json_loads).
Local Abbreviation loop_c := (OneClickTest.loop J json_loads).
Local Abbreviation StS := (RunDemoWithMock.Build_loop_state J).
Local Abbreviation StC := (OneClickTest.Build_loop_state J).

(** While no closing brace is unmatched, the counter is the height of the
    stack and both loops move in step. *)
Lemma loops_agree text : forall rest i stk brace os start,
  closers_matched (length stk) rest = true ->
  brace = Z.of_nat (length stk) ->
  RunDemoWithMock.objs J (loop_s text i rest (StS os stk start)) =
  OneClickTest.objs J (loop_c text i rest (StC os brace start)).
Proof.
  induction rest as [|ch r IH]; intros i stk brace os start Hm Hb;
    [reflexivity|].
  simpl in Hm.
  cbn [RunDemoWithMock.loop OneClickTest.loop].
  unfold RunDemoWithMock.step, OneClickTest.step. simpl.
  destruct (is_open ch) eqn:Ho.
  - rewrite (null_length stk).
    replace (brace =? 0) with (length stk =? 0)%nat
      by (subst brace; destruct stk; reflexivity).
    apply IH.
    + rewrite length_app, Nat.add_1_r. exact Hm.
    + rewrite length_app. simpl. lia.
  - destruct (is_close ch) eqn:Hc; [|apply IH; assumption].
    destruct (length stk) as [|d] eqn:Hlen; [discriminate|].
    rewrite (null_length stk), Hlen. simpl.
    rewrite (null_length (removelast stk)), removelast_length, Hlen. simpl.
    replace (brace - 1 =? 0) with (d =? 0)%nat
      by (subst brace; destruct d; [reflexivity|];
          symmetry; apply Z.eqb_neq; lia).
    assert (Hlen' : length (removelast stk) = d)
      by (rewrite removelast_length, Hlen; reflexivity).
    destruct (d =? 0)%nat, start;
      (apply IH; [rewrite Hlen'; exact Hm | lia]).
Qed.

(** On a text without unmatched closing braces the two extractors return
    the same objects. *)
Lemma extractors_agree_when_matched text :
  closers_matched 0 text = true ->
  RunDemoWithMock.extract_json_objects J json_loads text =
  OneClickTest.extract_json_objects J json_loads text.
Proof.
  intros H. apply (loops_agree text text 0%nat [] 0 [] None H eq_refl).
Qed.

(** On such a text the counter-based extractor meets the contract too. *)
Lemma counter_extractor_meets_contract_when_matched text :
  closers_matched 0 text = true ->
  OneClickTest.extract_json_objects J json_loads text =
  valid_objects json_loads text.
Proof.
  intros H. rewrite <- (extractors_agree_when_matched text H).
  unfold RunDemoWithMock.extract_json_objects, valid_objects, candidates.
  apply (RunDemoFacts.loop_top_level J json_loads text (length text) text
           [] []); [lia | reflexivity].
Qed.
End Facts.
End ExtractorAgreement.

(** C10. The two extractors do not agree on a text with an unmatched
    closing brace: on [}{}] the stack-based one of run_demo_with_mock.py
    returns the empty object that follows the stray brace, the counter-based
    one of one_click_test.py returns nothing. *)
Theorem extractors_differ_after_stray_close :
  RunDemoWithMock.extract_json_objects Json.json Json.loads (lit "}{}")
    = [Json.JObj []] /\
  OneClickTest.extract_json_objects Json.json Json.loads (lit "}{}") = [].
Proof. split; reflexivity. Qed.

(** ** The mock facilitator *)

Module MockFacts.
Import Json MockFacilitator.

(** A body without [amount] never reaches a handler, whatever the field
    validators accept. *)
Lemma validate_needs_amount V d :
  dict_get d (ulit "amount") = None -> validate V (JObj d) = None.
Proof. intros H. unfold validate. rewrite H. reflexivity. Qed.

Lemma validate_needs_object V body :
  (forall d, body <> JObj d) -> validate V body = None.
Proof.
  intros H. destruct body; try reflexivity. exfalso. eapply H. reflexivity.
Qed.

(** An integer amount comes back as a float, absent optional fields as
    null, and fields the model does not declare are dropped. *)
Example received_is_the_validated_model :
  option_map dict
    (validate json_validators
       (JObj [ (ulit "amount", JInt 1); (ulit "currency", JStr (ulit "USD"));
               (ulit "memo", JStr (ulit "x")) ]))
  = Some (JObj [ (ulit "amount", JFloat (S754_finite false 4503599627370496 (-52)));
                 (ulit "currency", JStr (ulit "USD"));
                 (ulit "metadata", JNull);
                 (ulit "from_address", JNull);
                 (ulit "network", JNull) ]).
Proof. reflexivity. Qed.

(** Text of the script's alphabet has no surrogate in it. *)
Lemma encodable_ascii (s : str) : encodable (map N_of_ascii s) = true.
Proof.
  unfold encodable. apply forallb_forall. intros c Hc.
  apply in_map_iff in Hc. destruct Hc as (a & <- & _).
  pose proof (N_ascii_bounded a) as Hb.
  apply negb_true_iff, andb_false_iff. left. apply N.leb_gt. lia.
Qed.

Lemma encodable_app (s t : ustr) :
  encodable (s ++ t) = encodable s && encodable t.
Proof. unfold encodable. apply forallb_app. Qed.

Lemma encodable_tx_id (uuid_hex : str) :
  encodable (new_tx_id uuid_hex) = true.
Proof.
  unfold new_tx_id, ulit. rewrite encodable_app, !encodable_ascii.
  reflexivity.
Qed.

(** What the handlers add to the model cannot fail to render: a response
    is rendered exactly when the model in it is. *)
Lemma renders_created req uuid_hex :
  renders (content (create_payment req uuid_hex)) = renders (dict req).
Proof.
  unfold create_payment.
  cbn [content renders forallb fst snd].
  rewrite encodable_tx_id.
  change (encodable (ulit "id")) with true.
  change (encodable (ulit "status")) with true.
  change (encodable (ulit "success")) with true.
  change (encodable (ulit "received")) with true.
  cbn [andb]. apply andb_true_r.
Qed.

Lemma renders_settled req uuid_hex :
  renders (content (settle req uuid_hex)) = renders (dict req).
Proof.
  unfold settle.
  cbn [content renders forallb fst snd].
  rewrite encodable_tx_id.
  change (encodable (ulit "id")) with true.
  change (encodable (ulit "status")) with true.
  change (encodable (ulit "settled")) with true.
  change (encodable (ulit "received")) with true.
  cbn [andb]. apply andb_true_r.
Qed.

Lemma renders_verified req :
  renders (content (verify req)) = renders (dict req).
Proof.
  unfold verify.
  cbn [content renders forallb fst snd].
  change (encodable (ulit "ok")) with true.
  change (encodable (ulit "message")) with true.
  change (encodable (ulit "verified")) with true.
  change (encodable (ulit "received")) with true.
  cbn [andb]. apply andb_true_r.
Qed.

(** The model renders when its amount is finite and no string in it has a
    lone surrogate. *)
Lemma renders_dict req :
  renders (dict req)
  = match amount req with
    | S754_zero _ | S754_finite _ _ _ => true
    | _ => false
    end
    && encodable (currency req)
    && renders (opt_json JObj (metadata req))
    && renders (opt_json JStr (from_address req))
    && renders (opt_json JStr (network req)).
Proof.
  unfold dict.
  cbn [renders forallb fst snd].
  change (encodable (ulit "amount")) with true.
  change (encodable (ulit "currency")) with true.
  change (encodable (ulit "metadata")) with true.
  change (encodable (ulit "from_address")) with true.
  change (encodable (ulit "network")) with true.
  cbn [andb]. rewrite andb_true_r, !andb_assoc. reflexivity.
Qed.

(** An amount beyond the range of a float validates, and the answer is a
    server error. *)
Example infinite_amount_is_a_server_error :
  option_map
    (fun body =>
       (option_map amount (validate json_validators body),
        answer_status (post_verify json_validators body)))
    (loads (lit "{" ++ dquote :: lit "amount" ++ dquote :: lit ": 1e400, "
            ++ dquote :: lit "currency" ++ dquote :: lit ": " ++ dquote
            :: lit "USD" ++ dquote :: lit "}"))
  = Some (Some (S754_infinity false), 500).
Proof. vm_compute. reflexivity. Qed.
End MockFacts.

(** C9, as the code has it.  For every request body that validates against
    [PaymentRequest], with any field validators and any fresh UUID, the
    three POST endpoints answer alike.  When the validated model can be
    rendered as JSON (its amount is finite and no string in it has a lone
    surrogate), [POST /create_payment] and [POST /settle] answer 200 with
    the body [{id, status, received}], status ["success"] and ["settled"],
    and the header [X-PAYMENT-RESPONSE] equal to the id, and [POST /verify]
    answers 200 with [{ok: true, message: "verified", received}];
    [received] is the validated model.  When the model cannot be rendered,
    as with an amount that is infinite or not a number, all three answer
    500.  A body that does not validate is answered 422 by all three
    without reaching the handler. *)
Theorem mock_posts_answer_validated_bodies :
  forall (V : MockFacilitator.validators) (uuid_hex : str) (body : Json.json),
    let id := MockFacilitator.new_tx_id uuid_hex in
    let reply status received :=
      MockFacilitator.Handled
        {| MockFacilitator.status_code := 200;
           MockFacilitator.headers := [(Json.ulit "X-PAYMENT-RESPONSE", id)];
           MockFacilitator.content :=
             Json.JObj [ (Json.ulit "id", Json.JStr id);
                         (Json.ulit "status", Json.JStr (Json.ulit status));
                         (Json.ulit "received", received) ] |} in
    match MockFacilitator.validate V body with
    | Some req =>
        if MockFacilitator.renders (MockFacilitator.dict req) then
          MockFacilitator.post_create_payment V uuid_hex body
            = reply "success"%string (MockFacilitator.dict req) /\
          MockFacilitator.post_settle V uuid_hex body
            = reply "settled"%string (MockFacilitator.dict req) /\
          MockFacilitator.post_verify V body
            = MockFacilitator.Handled
                {| MockFacilitator.status_code := 200;
                   MockFacilitator.headers := [];
                   MockFacilitator.content :=
                     Json.JObj [ (Json.ulit "ok", Json.JBool true);
                                 (Json.ulit "message",
                                  Json.JStr (Json.ulit "verified"));
                                 (Json.ulit "received",
                                  MockFacilitator.dict req) ] |}
        else
          MockFacilitator.answer_status
            (MockFacilitator.post_create_payment V uuid_hex body) = 500 /\
          MockFacilitator.answer_status
            (MockFacilitator.post_settle V uuid_hex body) = 500 /\
          MockFacilitator.answer_status
            (MockFacilitator.post_verify V body) = 500
    | None =>
        MockFacilitator.answer_status
          (MockFacilitator.post_create_payment V uuid_hex body) = 422 /\
        MockFacilitator.answer_status
          (MockFacilitator.post_settle V uuid_hex body) = 422 /\
        MockFacilitator.answer_status
          (MockFacilitator.post_verify V body) = 422
    end.
Proof.
  intros V uuid_hex body id reply.
  unfold MockFacilitator.post_create_payment, MockFacilitator.post_settle,
    MockFacilitator.post_verify, MockFacilitator.route.
  destruct (MockFacilitator.validate V body) as [req|];
    [|repeat split; reflexivity].
  rewrite MockFacts.renders_created, MockFacts.renders_settled,
    MockFacts.renders_verified.
  destruct (MockFacilitator.renders (MockFacilitator.dict req));
    repeat split; reflexivity.
Qed.

(** The POST endpoints are not unconditionally successful: the empty object,
    which lacks the required [amount] and [currency], is answered 422, and
    a body with an infinite amount, which validates, is answered 500. *)
Lemma mock_rejects_empty_object :
  (MockFacilitator.answer_status
     (MockFacilitator.post_create_payment MockFacilitator.json_validators
        (lit "0123456789abcdef0123456789abcdef") (Json.JObj [])) = 422 /\
   MockFacilitator.answer_status
     (MockFacilitator.post_verify MockFacilitator.json_validators
        (Json.JObj [])) = 422 /\
   MockFacilitator.answer_status
     (MockFacilitator.post_settle MockFacilitator.json_validators
        (lit "0123456789abcdef0123456789abcdef") (Json.JObj [])) = 422) /\
  let body :=
    Json.JObj [ (Json.ulit "amount", Json.JFloat (S754_infinity false));
                (Json.ulit "currency", Json.JStr (Json.ulit "USD")) ] in
  MockFacilitator.answer_status
    (MockFacilitator.post_create_payment MockFacilitator.json_validators
       (lit "0123456789abcdef0123456789abcdef") body) = 500 /\
  MockFacilitator.answer_status
    (MockFacilitator.post_verify MockFacilitator.json_validators body) = 500 /\
  MockFacilitator.answer_status
    (MockFacilitator.post_settle MockFacilitator.json_validators
       (lit "0123456789abcdef0123456789abcdef") body) = 500.
Proof. repeat split; reflexivity. Qed.

(** ** Scripts *)

Lemma then_stop {A B} (t : list event) (s : stop) (k : A -> script B) :
  then_ (t, inl s) k = (t, inl s).
Proof. reflexivity. Qed.

Lemma then_value {A B} (t : list event) (a : A) (k : A -> script B) :
  then_ (t, inr a) k = (t ++ fst (k a), snd (k a)).
Proof. simpl. destruct (k a). reflexivity. Qed.

Lemma sent_app (t1 t2 : list event) : sent (t1 ++ t2) = sent t1 ++ sent t2.
Proof. unfold sent. apply flat_map_app. Qed.

(** ** send_usdc_and_verify.py, stage by stage *)

Module SendUsdcFacts.
Import Decimal SendUsdcAndVerify.

#[local] Opaque format_amount parse_amount to_str.
#[local] Arguments lit : simpl never.

Lemma show_balance_cases label account raw d sym :
  (exists h, format_amount raw d = Ok h /\
             show_balance label account raw d sym
             = ([Balance (lit label) account (to_str h) sym], inr tt)) \/
  (exists e, format_amount raw d = Raise e /\
             show_balance label account raw d sym = ([], inl (Uncaught e))).
Proof.
  unfold show_balance.
  destruct (format_amount raw d) as [h|e]; [left | right]; eauto.
Qed.

Lemma show_balance_sent label account raw d sym :
  sent (fst (show_balance label account raw d sym)) = [].
Proof.
  destruct (show_balance_cases label account raw d sym)
    as [(h & _ & ->) | (e & _ & ->)]; reflexivity.
Qed.

Lemma show_balance_no_exit label account raw d sym c :
  snd (show_balance label account raw d sym) <> inl (Exit c).
Proof.
  destruct (show_balance_cases label account raw d sym)
    as [(h & _ & ->) | (e & _ & ->)]; discriminate.
Qed.

(** What [setup] leaves behind: nothing submitted; an exit only for a
    missing input (2), a failed connection (3) or a failed balance read (4);
    otherwise the session that the rest of [main] uses. *)
Lemma setup_spec a env w :
  sent (fst (setup a env w)) = [] /\
  match snd (setup a env w) with
  | inl (Exit c) =>
      (c = 2 /\ inputs_present a env = false) \/
      (c = 3 /\ inputs_present a env = true /\ is_connected w = false) \/
      (c = 4 /\ inputs_present a env = true /\ is_connected w = true /\
       exists e, balance_from_before w = Raise e \/
                 balance_to_before w = Raise e)
  | inl (Uncaught _) => inputs_present a env = true
  | inr s =>
      inputs_present a env = true /\
      is_connected w = true /\
      decimals s = try_or (decimals_call w) 18%N /\
      balance_from_before w = Ok (raw_from_before s) /\
      balance_to_before w = Ok (raw_to_before s) /\
      token_addr s = py_or (token a) (USDC_CONTRACT env) /\
      to_addr s = get (py_or (py_or (to a) (RECEIVER env)) (ADDRESS env))
  end.
Proof.
  unfold setup, inputs_present, require.
  destruct (truthy (py_or (rpc a) (RPC_URL env))); [|cbn; auto].
  destruct (truthy (py_or (py_or (private_key a) (PRIVATE_KEY env))
                          (X402_PRIVATE_KEY env))); [|cbn; auto].
  destruct (truthy (py_or (token a) (USDC_CONTRACT env))); [|cbn; auto].
  destruct (truthy (py_or (py_or (to a) (RECEIVER env)) (ADDRESS env)));
    [|cbn; auto].
  destruct (imports w) as [[]|]; [|cbn; auto].
  destruct (is_connected w); [|cbn; auto 6].
  destruct (from_key w) as [from|]; [|cbn; auto].
  destruct (contract w) as [[]|]; [|cbn; auto].
  destruct (balance_from_before w) as [f|ef]; [|cbn; eauto 10].
  destruct (balance_to_before w) as [t|et]; [|cbn; eauto 10].
  cbn -[show_balance].
  match goal with
  | |- context [show_balance ?l ?x f ?d ?y] =>
      destruct (show_balance_cases l x f d y)
        as [(h & _ & ->) | (e & _ & ->)]; [|cbn; auto]
  end.
  match goal with
  | |- context [show_balance ?l ?x t ?d ?y] =>
      destruct (show_balance_cases l x t d y)
        as [(h' & _ & ->) | (e & _ & ->)]; [|cbn; auto]
  end.
  cbn. auto 10.
Qed.

Lemma convert_amount_cases s d :
  match parse_amount s d with
  | Raise e => convert_amount s d = ([], inl (Uncaught e))
  | Ok raw =>
      if raw <=? 0
      then convert_amount s d
           = ([Message (lit "Invalid amount")], inl (Exit 2))
      else convert_amount s d = ([], inr raw)
  end.
Proof.
  unfold convert_amount.
  destruct (parse_amount s d) as [raw|e]; [|reflexivity].
  cbn. destruct (raw <=? 0); reflexivity.
Qed.

(** [send_transfer] submits at most the one transfer of the raw amount, never
    exits by itself, and returns only with the receipt the node gave. *)
Lemma send_transfer_spec s raw w :
  let r := send_transfer true s raw w in
  (sent (fst r) = [] \/ sent (fst r) = [session_tx s raw]) /\
  match snd r with
  | inl (Exit _) => False
  | inl (Uncaught _) => True
  | inr receipt =>
      sent (fst r) = [session_tx s raw] /\
      exists st, receipt = Some st /\ wait_for_transaction_receipt w = Ok st
  end.
Proof.
  unfold send_transfer, session_tx.
  destruct (chain_id w); [|cbn; auto].
  destruct (get_transaction_count w); [|cbn; auto].
  destruct (abi_uint256 raw); [|cbn; auto].
  destruct (build_transaction w) as [[]|]; [|cbn; auto].
  destruct (sign_transaction w) as [[]|]; [|cbn; auto].
  destruct (send_raw_transaction w); [|cbn; auto].
  destruct (wait_for_transaction_receipt w) as [st|]; [|cbn; auto].
  cbn. eauto 10.
Qed.

(** It does submit as soon as the calls before the broadcast succeed. *)
Lemma send_transfer_submits s raw w c n :
  chain_id w = Ok c ->
  get_transaction_count w = Ok n ->
  0 <= raw < 2 ^ 256 ->
  build_transaction w = Ok tt ->
  sign_transaction w = Ok tt ->
  sent (fst (send_transfer true s raw w)) = [session_tx s raw].
Proof.
  intros Hc Hn Hraw Hb Hs.
  unfold send_transfer, session_tx, abi_uint256.
  rewrite Hc, Hn, Hb, Hs.
  replace ((0 <=? raw) && (raw <? 2 ^ 256)) with true
    by (symmetry; apply andb_true_intro; split;
        [apply Z.leb_le | apply Z.ltb_lt]; lia).
  destruct (send_raw_transaction w); [|reflexivity].
  destruct (wait_for_transaction_receipt w); reflexivity.
Qed.

(** [verify] submits nothing; it ends with 4 when a balance cannot be read,
    and otherwise, unless a display fails, with 0 or 5 after reporting the two
    deltas: 0 exactly when the receipt has status 1. *)
Lemma verify_spec s receipt w :
  let r := verify s receipt w in
  sent (fst r) = [] /\
  match snd r with
  | inl (Exit c) =>
      (c = 4 /\ exists e, balance_from_after w = Raise e \/
                          balance_to_after w = Raise e) \/
      ((c = 0 \/ c = 5) /\
       (c = 0 <-> receipt = Some (Some 1)) /\
       exists fa ta,
         balance_from_after w = Ok fa /\ balance_to_after w = Ok ta /\
         In (Deltas (raw_from_before s - fa) (ta - raw_to_before s)) (fst r))
  | inl (Uncaught _) => True
  | inr _ => False
  end.
Proof.
  unfold verify.
  destruct (balance_from_after w) as [fa|]; [|cbn; eauto 10].
  destruct (balance_to_after w) as [ta|]; [|cbn; eauto 10].
  cbn -[show_balance].
  repeat match goal with
  | |- context [show_balance ?l ?x ?v ?d ?y] =>
      destruct (show_balance_cases l x v d y)
        as [(? & _ & ->) | (? & _ & ->)]; [|cbn; auto]
  end.
  cbn.
  destruct (format_amount (raw_from_before s - fa) (decimals s));
    [|cbn; auto].
  destruct (format_amount (ta - raw_to_before s) (decimals s));
    [|cbn; auto].
  destruct receipt as [[st|]|]; cbn.
  - destruct (st =? 1) eqn:E; cbn; (split; [reflexivity|]); right;
      (split; [auto|]); (split; [|eauto 10]).
    + apply Z.eqb_eq in E. subst st. tauto.
    + apply Z.eqb_neq in E. split; [discriminate|].
      intros H. inversion H. congruence.
  - split; [reflexivity|]. right. split; [auto|].
    split; [split; discriminate | eauto 10].
  - split; [reflexivity|]. right. split; [auto|].
    split; [split; discriminate | eauto 10].
Qed.

(** How a run of [main] unfolds through its stages. *)
Lemma main_cases a env w :
  (exists t st, setup a env w = (t, inl st) /\ main a env w = (t, inl st)) \/
  (exists t s, setup a env w = (t, inr s) /\
     ((exists t2 st,
         convert_amount (amount a) (decimals s) = (t2, inl st) /\
         sent t2 = [] /\
         main a env w = (t ++ t2, inl st)) \/
      (exists raw,
         convert_amount (amount a) (decimals s) = ([], inr raw) /\
         parse_amount (amount a) (decimals s) = Ok raw /\ 0 < raw /\
         main a env w
         = (t ++ fst (send_transfer true s raw w)
              ++ match snd (send_transfer true s raw w) with
                 | inl _ => []
                 | inr receipt => fst (verify s receipt w)
                 end,
            match snd (send_transfer true s raw w) with
            | inl st => inl st
            | inr receipt => snd (verify s receipt w)
            end)))).
Proof.
  unfold main. rewrite orb_true_r.
  destruct (setup a env w) as [t [st|s]]; [left; eauto|].
  right. exists t, s. split; [reflexivity|].
  rewrite then_value.
  pose proof (convert_amount_cases (amount a) (decimals s)) as Hc.
  destruct (parse_amount (amount a) (decimals s)) as [raw|e].
  - destruct (raw <=? 0) eqn:E.
    + left. rewrite Hc. cbn. eauto 10.
    + right. exists raw. rewrite Hc. apply Z.leb_gt in E.
      repeat split; [exact E|].
      rewrite then_value. cbn [fst snd app].
      destruct (send_transfer true s raw w) as [t3 [st|receipt]]; cbn.
      * rewrite app_nil_r. reflexivity.
      * destruct (verify s receipt w). reflexivity.
  - left. rewrite Hc. cbn. eauto 10.
Qed.
End SendUsdcFacts.

(** ** send_usdc_and_verify.py, whole runs *)

Module SendUsdcRuns.
Import Decimal SendUsdcAndVerify SendUsdcFacts.

(** A run submits nothing, or the one transfer of the converted amount. *)
Lemma main_submitted a env w :
  submitted (main a env w) = [] \/
  exists s raw,
    snd (setup a env w) = inr s /\
    parse_amount (amount a) (decimals s) = Ok raw /\ 0 < raw /\
    submitted (main a env w) = [session_tx s raw].
Proof.
  unfold submitted, output.
  pose proof (setup_spec a env w) as [Hq _].
  destruct (main_cases a env w)
    as [(t & st & Hs & ->) | (t & s & Hs & [(t2 & st & _ & Hq2 & ->) |
                                            (raw & _ & Hp & Hpos & ->)])];
    rewrite Hs in Hq; cbn [fst snd] in *.
  - left. exact Hq.
  - left. rewrite sent_app, Hq, Hq2. reflexivity.
  - pose proof (send_transfer_spec s raw w) as [Hsent Hres].
    cbn zeta in Hsent, Hres.
    destruct (send_transfer true s raw w) as [t3 [st|receipt]];
      cbn [fst snd] in *.
    + rewrite app_nil_r, sent_app, Hq. cbn [app].
      destruct Hsent as [-> | ->]; [left; reflexivity|].
      right. exists s, raw. rewrite Hs. auto.
    + destruct Hres as [Hsub _].
      pose proof (verify_spec s receipt w) as [Hv _]. cbn zeta in Hv.
      rewrite !sent_app, Hq, Hsub, Hv. right. exists s, raw.
      rewrite Hs. auto.
Qed.

(** The exit of a run and its cause. *)
Lemma usdc_main_exit a env w :
  match snd (main a env w) with
  | inl (Exit c) =>
      (c = 0 /\ wait_for_transaction_receipt w = Ok (Some 1)) \/
      (c = 2 /\ (inputs_present a env = false \/
                 exists d raw, parse_amount (amount a) d = Ok raw /\ raw <= 0)) \/
      (c = 3 /\ is_connected w = false) \/
      (c = 4 /\ exists e,
          balance_from_before w = Raise e \/ balance_to_before w = Raise e \/
          balance_from_after w = Raise e \/ balance_to_after w = Raise e) \/
      (c = 5 /\ wait_for_transaction_receipt w <> Ok (Some 1))
  | inl (Uncaught _) => True
  | inr _ => False
  end.
Proof.
  pose proof (setup_spec a env w) as [_ Hsetup].
  destruct (main_cases a env w)
    as [(t & st & Hs & ->) | (t & s & Hs & [(t2 & st & Hc & _ & ->) |
                                            (raw & _ & Hp & Hpos & ->)])];
    rewrite Hs in Hsetup; cbn [fst snd] in *.
  - destruct st as [c|]; [|exact I].
    destruct Hsetup as [[-> H] | [(-> & _ & H) | (-> & _ & _ & e & H)]].
    + right; left. auto.
    + right; right; left. auto.
    + right; right; right; left. split; [reflexivity|].
      exists e. tauto.
  - pose proof (convert_amount_cases (amount a) (decimals s)) as Hcc.
    destruct (parse_amount (amount a) (decimals s)) as [raw|e] eqn:Hp.
    + destruct (raw <=? 0) eqn:E; rewrite Hcc in Hc; inversion Hc; subst.
      right; left. split; [reflexivity|]. right.
      exists (decimals s), raw. split; [exact Hp | apply Z.leb_le; exact E].
    + rewrite Hcc in Hc. inversion Hc; subst. exact I.
  - pose proof (send_transfer_spec s raw w) as [_ Hres]. cbn zeta in Hres.
    destruct (snd (send_transfer true s raw w)) as [[c|e]|receipt];
      [contradiction | exact I |].
    destruct Hres as (_ & st & -> & Hw).
    pose proof (verify_spec s (Some st) w) as [_ Hv]. cbn zeta in Hv.
    destruct (snd (verify s (Some st) w)) as [[c|e]|[]];
      [| exact I | contradiction].
    destruct Hv as [(-> & e & H) | ([-> | ->] & Hiff & _)].
    + right; right; right; left. split; [reflexivity|]. exists e. tauto.
    + left. split; [reflexivity|].
      destruct Hiff as [Hiff _]. specialize (Hiff eq_refl).
      inversion Hiff; subst. exact Hw.
    + right; right; right; right. split; [reflexivity|].
      intros Heq. rewrite Heq in Hw. inversion Hw; subst.
      destruct Hiff as [_ Hiff]. specialize (Hiff eq_refl). discriminate.
Qed.

(** A run that ends with 0 or 5 has read all four balances and reported
    the two deltas. *)
Lemma main_reports_deltas a env w :
  exit_status (main a env w) = 0 \/ exit_status (main a env w) = 5 ->
  exists fb tb fa ta,
    balance_from_before w = Ok fb /\ balance_to_before w = Ok tb /\
    balance_from_after w = Ok fa /\ balance_to_after w = Ok ta /\
    In (Deltas (fb - fa) (ta - tb)) (output (main a env w)).
Proof.
  unfold exit_status, output.
  pose proof (setup_spec a env w) as [_ Hsetup].
  destruct (main_cases a env w)
    as [(t & st & Hs & ->) | (t & s & Hs & [(t2 & st & Hc & _ & ->) |
                                            (raw & _ & Hp & Hpos & ->)])];
    rewrite Hs in Hsetup; cbn [fst snd] in *.
  - destruct st as [c|]; [|intros [H|H]; discriminate].
    destruct Hsetup as [[-> H] | [(-> & _ & H) | (-> & _ & _ & e & H)]];
      intros [H'|H']; discriminate.
  - pose proof (convert_amount_cases (amount a) (decimals s)) as Hcc.
    destruct (parse_amount (amount a) (decimals s)) as [raw|e] eqn:Hp.
    + destruct (raw <=? 0) eqn:E; rewrite Hcc in Hc; inversion Hc; subst.
      intros [H'|H']; discriminate.
    + rewrite Hcc in Hc. inversion Hc; subst. intros [H'|H']; discriminate.
  - pose proof (send_transfer_spec s raw w) as [_ Hres]. cbn zeta in Hres.
    destruct (snd (send_transfer true s raw w)) as [[c|e]|receipt];
      [contradiction | intros [H'|H']; discriminate |].
    pose proof (verify_spec s receipt w) as [_ Hv]. cbn zeta in Hv.
    destruct (snd (verify s receipt w)) as [[c|e]|[]];
      [| intros [H'|H']; discriminate | contradiction].
    destruct Hv as [(-> & e & H) | (_ & _ & fa & ta & Hfa & Hta & Hin)];
      [intros [H'|H']; discriminate|].
    intros _.
    destruct Hsetup as (_ & _ & _ & Hfb & Htb & _).
    exists (raw_from_before s), (raw_to_before s), fa, ta.
    repeat split; try assumption.
    apply in_or_app. right. apply in_or_app. right. exact Hin.
Qed.
End SendUsdcRuns.

(** ** evm_test_usdc.py *)

Module EvmTestFacts.
Import Decimal EvmTestUsdc.

#[local] Opaque format_token_amount parse_token_amount of_str.
#[local] Arguments lit : simpl never.

Ltac branch :=
  match goal with
  | |- context [match ?x with _ => _ end] => destruct x eqn:?; cbn
  end.

Lemma show_balances_sent a env w : sent (fst (show_balances a env w)) = [].
Proof.
  unfold show_balances, load_rpc. cbn.
  destruct (truthy (rpc a)); [|destruct (truthy (RPC_URL env))]; cbn;
    try reflexivity;
    (destruct (import_web3 w) as [[]|]; cbn; [|reflexivity];
     destruct (is_connected w); cbn; [|reflexivity];
     destruct (get_balance w); cbn;
     (destruct (truthy (erc20 a)); cbn; [|reflexivity];
      destruct (contract w) as [[]|]; cbn; [|reflexivity];
      destruct (balance_of w); cbn; [|reflexivity];
      destruct (format_token_amount _ _); reflexivity)).
Qed.

Lemma prepare_send_sent a env w : sent (fst (prepare_send a env w)) = [].
Proof.
  unfold prepare_send.
  destruct (truthy (to a)); cbn; [|reflexivity].
  destruct (truthy (py_or (PRIVATE_KEY env) (X402_PRIVATE_KEY env))); cbn;
    [|reflexivity].
  destruct (import_account w) as [[]|]; cbn; [|reflexivity].
  destruct (from_key w); cbn; [|reflexivity].
  destruct (checksum_match w) as [[]|]; reflexivity.
Qed.

(** Whatever the token branch submits carries the amount converted with the
    decimals read before sending, 18 when that read failed. *)
Lemma send_erc20_amount a w tx :
  In tx (sent (fst (send_erc20 a w))) ->
  parse_token_amount (get (amount a)) (try_or (send_decimals_call w) 18%N)
  = Ok (tx_amount tx).
Proof.
  unfold send_erc20.
  destruct (contract w) as [[]|]; cbn; [|contradiction].
  destruct (truthy (amount a)); cbn; [|contradiction].
  destruct (parse_token_amount _ _) as [raw|]; cbn; [|contradiction].
  destruct (to_checksum_address w); cbn; [|contradiction].
  destruct (get_transaction_count w); cbn; [|contradiction].
  destruct (abi_uint256 raw); cbn; [|contradiction].
  destruct (build_transaction w) as [[]|]; cbn; [|contradiction].
  destruct (sign_transaction w) as [[]|]; cbn; [|contradiction].
  destruct (send_raw_transaction w); cbn;
    (intros [<- | []]; reflexivity).
Qed.

Lemma main_amount a env w tx :
  truthy (erc20 a) = true ->
  In tx (submitted (main a env w)) ->
  parse_token_amount (get (amount a)) (try_or (send_decimals_call w) 18%N)
  = Ok (tx_amount tx).
Proof.
  intros Herc. unfold submitted, output, main. rewrite Herc.
  pose proof (show_balances_sent a env w) as H1.
  destruct (show_balances a env w) as [t1 [st|[]]]; cbn [fst snd] in *.
  - rewrite then_stop. cbn [fst]. rewrite H1. contradiction.
  - rewrite then_value. cbn [fst]. rewrite sent_app, H1. cbn [app].
    destruct (send a); [|contradiction].
    pose proof (prepare_send_sent a env w) as H2.
    destruct (prepare_send a env w) as [t2 [st|[]]]; cbn [fst snd] in *.
    + rewrite then_stop. cbn [fst]. rewrite H2. contradiction.
    + rewrite then_value. cbn [fst]. rewrite sent_app, H2. cbn [app].
      apply send_erc20_amount.
Qed.
End EvmTestFacts.

(** ** send_solana_and_verify.py *)

Module SendSolanaFacts.
Import SendSolanaAndVerify.

#[local] Opaque lamports_of raw_amount_of.
#[local] Arguments lit : simpl never.

(** Every required input is given. *)
Lemma solana_main_exit a env w :
  match snd (main a env w) with
  | inl (Exit c) =>
      (c = 2 /\ (truthy (py_or (rpc a) (SOLANA_RPC env)) = false \/
                 truthy (py_or (private_key a) (SOLANA_PRIVATE_KEY env)) = false \/
                 truthy (py_or (to a) (RECEIVER env)) = false)) \/
      (c = 3 /\ exists e, load_keypair w = Raise e) \/
      (c = 4 /\ token_type a = sol /\ exists e, send_transaction w = Raise e) \/
      (c = 5 /\ token_type a = spl /\ exists e, token_transfer w = Raise e)
  | inl (Uncaught _) => True
  | inr _ =>
      match token_type a with
      | sol => send_transaction w = Ok tt
      | spl => token_transfer w = Ok tt
      end
  end.
Proof.
  unfold main, require.
  destruct (truthy (py_or (rpc a) (SOLANA_RPC env))); cbn; [|auto].
  destruct (truthy (py_or (private_key a) (SOLANA_PRIVATE_KEY env))); cbn;
    [|auto].
  destruct (truthy (py_or (to a) (RECEIVER env))); cbn; [|auto 6].
  destruct (imports w) as [[]|]; cbn; [|auto].
  destruct (load_keypair w); cbn; [|eauto 6].
  destruct (token_type a); cbn.
  - destruct (get_balance_before w) as [[]|]; cbn; [|auto].
    destruct (lamports_of (amount a)); cbn; [|auto].
    destruct (build_transfer w) as [[]|]; cbn; [|auto].
    destruct (send_transaction w) as [[]|]; cbn; [|eauto 10].
    destruct (get_balance_after w) as [[]|]; cbn; auto.
  - destruct (token_client w) as [[]|]; cbn; [|auto].
    destruct (mint_decimals w); cbn; [|auto].
    destruct (raw_amount_of (amount a) _); cbn; [|auto].
    destruct (token_transfer w) as [[]|]; cbn; eauto 10.
Qed.
End SendSolanaFacts.

(** * The claims about the transfer flow *)

(** C4, as the code has it.  When the decimals lookup fails, both EVM
    scripts fall back to 18 decimals and use that default for the conversion
    that feeds the transfer: every transaction a run then submits carries the
    amount converted at 18 decimals. *)
Theorem failed_decimals_lookup_converts_at_18 :
  forall (a : SendUsdcAndVerify.args) (env : SendUsdcAndVerify.environ)
         (w : SendUsdcAndVerify.node)
         (a' : EvmTestUsdc.args) (env' : EvmTestUsdc.environ)
         (w' : EvmTestUsdc.node) (e e' : pyexn),
    SendUsdcAndVerify.decimals_call w = Raise e ->
    EvmTestUsdc.send_decimals_call w' = Raise e' ->
    truthy (EvmTestUsdc.erc20 a') = true ->
    (forall tx, In tx (submitted (SendUsdcAndVerify.main a env w)) ->
       SendUsdcAndVerify.parse_amount (SendUsdcAndVerify.amount a) 18
       = Ok (tx_amount tx)) /\
    (forall tx, In tx (submitted (EvmTestUsdc.main a' env' w')) ->
       EvmTestUsdc.parse_token_amount (get (EvmTestUsdc.amount a')) 18
       = Ok (tx_amount tx)).
Proof.
  intros a env w a' env' w' e e' Hd Hd' Herc. split.
  - intros tx Hin.
    destruct (SendUsdcRuns.main_submitted a env w)
      as [Hnone | (s & raw & Hs & Hp & _ & Hsub)].
    + rewrite Hnone in Hin. contradiction.
    + rewrite Hsub in Hin. destruct Hin as [<- | []].
      pose proof (SendUsdcFacts.setup_spec a env w) as [_ Hsetup].
      rewrite Hs in Hsetup. destruct Hsetup as (_ & _ & Hdec & _).
      rewrite Hd in Hdec. cbn in Hdec. rewrite <- Hdec. exact Hp.
  - intros tx Hin.
    pose proof (EvmTestFacts.main_amount a' env' w' tx Herc Hin) as H.
    rewrite Hd' in H. exact H.
Qed.

Lemma failed_decimals_lookup_converts_at_18_witness :
  SendUsdcAndVerify.decimals_call
    (Run.usdc_node (Raise LibraryError) 5 0 (Ok (Some 1)) 5 0)
    = Raise LibraryError /\
  EvmTestUsdc.send_decimals_call (Run.evm_node (Raise LibraryError))
    = Raise LibraryError /\
  truthy (EvmTestUsdc.erc20 (Run.evm_args "1")) = true /\
  (forall tx,
     In tx (submitted (SendUsdcAndVerify.main (Run.usdc_args "1") Run.no_env
              (Run.usdc_node (Raise LibraryError) 5 0 (Ok (Some 1)) 5 0))) ->
     SendUsdcAndVerify.parse_amount
       (SendUsdcAndVerify.amount (Run.usdc_args "1")) 18
     = Ok (tx_amount tx)) /\
  (forall tx,
     In tx (submitted (EvmTestUsdc.main (Run.evm_args "1") Run.evm_env
              (Run.evm_node (Raise LibraryError)))) ->
     EvmTestUsdc.parse_token_amount
       (get (EvmTestUsdc.amount (Run.evm_args "1"))) 18
     = Ok (tx_amount tx)).
Proof.
  split; [reflexivity|]. split; [reflexivity|]. split; [reflexivity|].
  apply (failed_decimals_lookup_converts_at_18
           (Run.usdc_args "1") Run.no_env
           (Run.usdc_node (Raise LibraryError) 5 0 (Ok (Some 1)) 5 0)
           (Run.evm_args "1") Run.evm_env (Run.evm_node (Raise LibraryError))
           LibraryError LibraryError); reflexivity.
Defined.

(** With the decimals lookup failing, a transfer of "1" token is submitted
    as 10^18 raw units by both scripts: the default of 18 is assumed silently
    on the path that moves funds. *)
Lemma default_decimals_move_funds :
  submitted (SendUsdcAndVerify.main (Run.usdc_args "1") Run.no_env
               (Run.usdc_node (Raise LibraryError) 5 0 (Ok (Some 1)) 5 0))
    = [Run.usdc_tx 1000000000000000000] /\
  submitted (EvmTestUsdc.main (Run.evm_args "1") Run.evm_env
               (Run.evm_node (Raise LibraryError)))
    = [Run.evm_tx 1000000000000000000].
Proof. split; vm_compute; reflexivity. Qed.

(** C5, as the code has it.  A run that gets past the confirmation reads
    the balances again, computes [deducted = sender before - sender after]
    and [received = receiver after - receiver before] and reports them; its
    exit status is then 0 exactly when the receipt has status 1, whatever the
    two deltas are. *)
Theorem deltas_are_reported_and_receipt_decides :
  forall (a : SendUsdcAndVerify.args) (env : SendUsdcAndVerify.environ)
         (w : SendUsdcAndVerify.node),
    exit_status (SendUsdcAndVerify.main a env w) = 0 \/
    exit_status (SendUsdcAndVerify.main a env w) = 5 ->
    (exists fb tb fa ta,
       SendUsdcAndVerify.balance_from_before w = Ok fb /\
       SendUsdcAndVerify.balance_to_before w = Ok tb /\
       SendUsdcAndVerify.balance_from_after w = Ok fa /\
       SendUsdcAndVerify.balance_to_after w = Ok ta /\
       In (Deltas (fb - fa) (ta - tb))
          (output (SendUsdcAndVerify.main a env w))) /\
    (exit_status (SendUsdcAndVerify.main a env w) = 0 <->
     SendUsdcAndVerify.wait_for_transaction_receipt w = Ok (Some 1)).
Proof.
  intros a env w Hend. split.
  - apply SendUsdcRuns.main_reports_deltas. exact Hend.
  - pose proof (SendUsdcRuns.usdc_main_exit a env w) as Hexit.
    unfold exit_status in *.
    destruct (snd (SendUsdcAndVerify.main a env w)) as [[c|e]|[]];
      [| destruct Hend; discriminate | contradiction].
    destruct Hexit as [[-> H] | [[-> H] | [[-> H] | [[-> H] | [-> H]]]]];
      try (destruct Hend; discriminate).
    + tauto.
    + split; [discriminate | intros; contradiction].
Qed.

(** Before-balances 1000 and 0, a transfer of 100 raw units without fee:
    the run reports deducted = 100 and received = 100 and exits 0. *)
Lemma deltas_are_reported_and_receipt_decides_witness :
  (exit_status (SendUsdcAndVerify.main (Run.usdc_args "0.0001") Run.no_env
                  (Run.usdc_node (Ok 6%N) 1000 0 (Ok (Some 1)) 900 100)) = 0 \/
   exit_status (SendUsdcAndVerify.main (Run.usdc_args "0.0001") Run.no_env
                  (Run.usdc_node (Ok 6%N) 1000 0 (Ok (Some 1)) 900 100)) = 5) /\
  (exists fb tb fa ta,
     Ok 1000 = Ok fb /\ Ok 0 = Ok tb /\
     Ok 900 = Ok fa /\ Ok 100 = Ok ta /\
     In (Deltas (fb - fa) (ta - tb))
        (output (SendUsdcAndVerify.main (Run.usdc_args "0.0001") Run.no_env
                   (Run.usdc_node (Ok 6%N) 1000 0 (Ok (Some 1)) 900 100)))) /\
  (exit_status (SendUsdcAndVerify.main (Run.usdc_args "0.0001") Run.no_env
                  (Run.usdc_node (Ok 6%N) 1000 0 (Ok (Some 1)) 900 100)) = 0 <->
   @Ok (option Z) (Some 1) = Ok (Some 1)).
Proof.
  split; [left; vm_compute; reflexivity|].
  apply (deltas_are_reported_and_receipt_decides
           (Run.usdc_args "0.0001") Run.no_env
           (Run.usdc_node (Ok 6%N) 1000 0 (Ok (Some 1)) 900 100)).
  left. vm_compute. reflexivity.
Defined.

(** The receiver got 90 instead of the 100 requested: the run still reports
    success and exits 0; no mismatch is detected. *)
Lemma short_receipt_still_succeeds :
  let r := SendUsdcAndVerify.main (Run.usdc_args "0.0001") Run.no_env
             (Run.usdc_node (Ok 6%N) 1000 0 (Ok (Some 1)) 900 90) in
  submitted r = [Run.usdc_tx 100] /\
  In (Deltas 100 90) (output r) /\
  In (Message (lit "Transfer succeeded")) (output r) /\
  exit_status r = 0.
Proof.
  vm_compute. repeat split; auto 20.
Qed.

(** C6, as the code has it.  There is no pre-flight balance check: once
    the balances have been read and displayed, a positive raw amount that
    fits a uint256 is submitted as soon as the calls that build and sign the
    transaction succeed, whatever the balances read, in particular when the
    sender holds less than the amount. *)
Theorem transfer_is_submitted_whatever_the_balances :
  forall (a : SendUsdcAndVerify.args) (env : SendUsdcAndVerify.environ)
         (w : SendUsdcAndVerify.node) (s : SendUsdcAndVerify.session)
         (raw c n : Z),
    snd (SendUsdcAndVerify.setup a env w) = inr s ->
    SendUsdcAndVerify.parse_amount (SendUsdcAndVerify.amount a)
      (SendUsdcAndVerify.decimals s) = Ok raw ->
    0 < raw < 2 ^ 256 ->
    SendUsdcAndVerify.chain_id w = Ok c ->
    SendUsdcAndVerify.get_transaction_count w = Ok n ->
    SendUsdcAndVerify.build_transaction w = Ok tt ->
    SendUsdcAndVerify.sign_transaction w = Ok tt ->
    submitted (SendUsdcAndVerify.main a env w)
    = [SendUsdcAndVerify.session_tx s raw].
Proof.
  intros a env w s raw c n Hs Hp Hraw Hc Hn Hb Hsg.
  destruct (SendUsdcRuns.main_submitted a env w)
    as [Hnone | (s' & raw' & Hs' & Hp' & _ & Hsub)].
  - exfalso.
    pose proof (SendUsdcFacts.setup_spec a env w) as [Hq _].
    destruct (SendUsdcFacts.main_cases a env w)
      as [(t & st & Hst & _) | (t & s1 & Hs1 & [(t2 & st & Hcv & _) |
                                               (raw1 & _ & Hp1 & _ & Hm)])].
    + rewrite Hst in Hs. discriminate.
    + rewrite Hs1 in Hs. inversion Hs; subst s1.
      pose proof (SendUsdcFacts.convert_amount_cases
                    (SendUsdcAndVerify.amount a)
                    (SendUsdcAndVerify.decimals s)) as Hcc.
      rewrite Hp in Hcc.
      replace (raw <=? 0) with false in Hcc
        by (symmetry; apply Z.leb_gt; lia).
      rewrite Hcc in Hcv. discriminate.
    + rewrite Hs1 in Hs. inversion Hs; subst s1.
      rewrite Hp in Hp1. inversion Hp1; subst raw1.
      unfold submitted, output in Hnone. rewrite Hm in Hnone.
      cbn [fst] in Hnone. rewrite !sent_app in Hnone.
      rewrite (SendUsdcFacts.send_transfer_submits s raw w c n Hc Hn) in Hnone;
        try assumption; [|lia].
      apply app_eq_nil in Hnone. destruct Hnone as [_ Hnone].
      discriminate.
  - rewrite Hs' in Hs. inversion Hs; subst s'.
    rewrite Hp' in Hp. inversion Hp; subst raw'. exact Hsub.
Qed.

(** The sender holds nothing, the receiver nothing, and 100 raw units are
    sent all the same. *)
Lemma transfer_is_submitted_whatever_the_balances_witness :
  let a := Run.usdc_args "0.0001" in
  let w := Run.usdc_node (Ok 6%N) 0 0 (Ok (Some 0)) 0 0 in
  let s := Run.usdc_session 6 0 0 in
  snd (SendUsdcAndVerify.setup a Run.no_env w) = inr s /\
  SendUsdcAndVerify.parse_amount (SendUsdcAndVerify.amount a)
    (SendUsdcAndVerify.decimals s) = Ok 100 /\
  0 < 100 < 2 ^ 256 /\
  SendUsdcAndVerify.chain_id w = Ok 84532 /\
  SendUsdcAndVerify.get_transaction_count w = Ok 7 /\
  SendUsdcAndVerify.build_transaction w = Ok tt /\
  SendUsdcAndVerify.sign_transaction w = Ok tt /\
  submitted (SendUsdcAndVerify.main a Run.no_env w)
  = [SendUsdcAndVerify.session_tx s 100].
Proof.
  intros a w s.
  assert (Hs : snd (SendUsdcAndVerify.setup a Run.no_env w) = inr s)
    by (vm_compute; reflexivity).
  assert (Hp : SendUsdcAndVerify.parse_amount (SendUsdcAndVerify.amount a)
                 (SendUsdcAndVerify.decimals s) = Ok 100)
    by (vm_compute; reflexivity).
  assert (Hr : 0 < 100 < 2 ^ 256) by (split; reflexivity).
  repeat (split; [first [exact Hs | exact Hp | exact Hr | reflexivity]|]).
  exact (transfer_is_submitted_whatever_the_balances a Run.no_env w s 100
           84532 7 Hs Hp Hr eq_refl eq_refl eq_refl eq_refl).
Defined.

(** A sender without any balance: the flow does not stop before the
    submission; the transfer goes to the node and only the receipt tells. *)
Lemma empty_sender_still_submits :
  let r := SendUsdcAndVerify.main (Run.usdc_args "0.0001") Run.no_env
             (Run.usdc_node (Ok 6%N) 0 0 (Ok (Some 0)) 0 0) in
  submitted r = [Run.usdc_tx 100] /\ exit_status r = 5.
Proof. vm_compute. split; reflexivity. Qed.

(** ** How the transfer scripts end, call by call *)

Module EndingFacts.
#[local] Arguments lit : simpl never.

Section Usdc.
Import SendUsdcAndVerify.
#[local] Opaque format_amount parse_amount Decimal.to_str.

Lemma usdc_main_ending a env w :
  snd (main a env w)
  = if negb (inputs_present a env) then inl (Exit 2) else
    after_call (imports w) (fun _ =>
    if negb (is_connected w) then inl (Exit 3) else
    after_call (from_key w) (fun _ =>
    after_call (contract w) (fun _ =>
    let d := try_or (decimals_call w) 18%N in
    match balance_from_before w, balance_to_before w with
    | Ok f, Ok t =>
        after_call (format_amount f d) (fun _ =>
        after_call (format_amount t d) (fun _ =>
        after_call (parse_amount (amount a) d) (fun raw =>
        if raw <=? 0 then inl (Exit 2) else
        after_call (chain_id w) (fun _ =>
        after_call (get_transaction_count w) (fun _ =>
        after_call (abi_uint256 raw) (fun _ =>
        after_call (build_transaction w) (fun _ =>
        after_call (sign_transaction w) (fun _ =>
        after_call (send_raw_transaction w) (fun _ =>
        after_call (wait_for_transaction_receipt w) (fun receipt =>
        match balance_from_after w, balance_to_after w with
        | Ok f', Ok t' =>
            after_call (format_amount f' d) (fun _ =>
            after_call (format_amount t' d) (fun _ =>
            after_call (format_amount (f - f') d) (fun _ =>
            after_call (format_amount (t' - t) d) (fun _ =>
            if (match receipt with Some st => st | None => 0 end) =? 1
            then inl (Exit 0) else inl (Exit 5)))))
        | _, _ => inl (Exit 4)
        end))))))))))
    | _, _ => inl (Exit 4)
    end))).
Proof.
  unfold main, setup, convert_amount, send_transfer, verify, show_balance,
    require, inputs_present.
  rewrite orb_true_r.
  destruct (truthy (py_or (rpc a) (RPC_URL env))); cbn; [|reflexivity].
  destruct (truthy (py_or (py_or (private_key a) (PRIVATE_KEY env))
                          (X402_PRIVATE_KEY env))); cbn; [|reflexivity].
  destruct (truthy (py_or (token a) (USDC_CONTRACT env))); cbn;
    [|reflexivity].
  destruct (truthy (py_or (py_or (to a) (RECEIVER env)) (ADDRESS env))); cbn;
    [|reflexivity].
  destruct (imports w) as [[]|]; cbn; [|reflexivity].
  destruct (is_connected w); cbn; [|reflexivity].
  destruct (from_key w); cbn; [|reflexivity].
  destruct (contract w) as [[]|]; cbn; [|reflexivity].
  destruct (balance_from_before w) as [f|]; cbn; [|reflexivity].
  destruct (balance_to_before w) as [t|]; cbn; [|reflexivity].
  destruct (format_amount f _); cbn; [|reflexivity].
  destruct (format_amount t _); cbn; [|reflexivity].
  destruct (parse_amount _ _) as [raw|]; cbn; [|reflexivity].
  destruct (raw <=? 0); cbn; [reflexivity|].
  destruct (chain_id w); cbn; [|reflexivity].
  destruct (get_transaction_count w); cbn; [|reflexivity].
  destruct (abi_uint256 raw); cbn; [|reflexivity].
  destruct (build_transaction w) as [[]|]; cbn; [|reflexivity].
  destruct (sign_transaction w) as [[]|]; cbn; [|reflexivity].
  destruct (send_raw_transaction w); cbn; [|reflexivity].
  destruct (wait_for_transaction_receipt w) as [receipt|]; cbn;
    [|reflexivity].
  destruct (balance_from_after w) as [f'|]; cbn; [|reflexivity].
  destruct (balance_to_after w) as [t'|]; cbn; [|reflexivity].
  destruct (format_amount f' _); cbn; [|reflexivity].
  destruct (format_amount t' _); cbn; [|reflexivity].
  destruct (format_amount (f - f') _); cbn; [|reflexivity].
  destruct (format_amount (t' - t) _); cbn; [|reflexivity].
  destruct (_ =? 1); reflexivity.
Qed.
End Usdc.

Section Solana.
Import SendSolanaAndVerify.
#[local] Opaque lamports_of raw_amount_of.

Lemma solana_main_ending a env w :
  snd (main a env w)
  = if negb (truthy (py_or (rpc a) (SOLANA_RPC env))
             && truthy (py_or (private_key a) (SOLANA_PRIVATE_KEY env))
             && truthy (py_or (to a) (RECEIVER env)))
    then inl (Exit 2) else
    after_call (imports w) (fun _ =>
    match load_keypair w with
    | Raise _ => inl (Exit 3)
    | Ok _ =>
        match token_type a with
        | sol =>
            after_call (get_balance_before w) (fun _ =>
            after_call (lamports_of (amount a)) (fun _ =>
            after_call (build_transfer w) (fun _ =>
            match send_transaction w with
            | Raise _ => inl (Exit 4)
            | Ok _ => after_call (get_balance_after w) (fun _ => inr tt)
            end)))
        | spl =>
            after_call (token_client w) (fun _ =>
            after_call (mint_decimals w) (fun decimals =>
            after_call (raw_amount_of (amount a) decimals) (fun _ =>
            match token_transfer w with
            | Raise _ => inl (Exit 5)
            | Ok _ => inr tt
            end)))
        end
    end).
Proof.
  unfold main, require.
  destruct (truthy (py_or (rpc a) (SOLANA_RPC env))); cbn; [|reflexivity].
  destruct (truthy (py_or (private_key a) (SOLANA_PRIVATE_KEY env))); cbn;
    [|reflexivity].
  destruct (truthy (py_or (to a) (RECEIVER env))); cbn; [|reflexivity].
  destruct (imports w) as [[]|]; cbn; [|reflexivity].
  destruct (load_keypair w); cbn; [|reflexivity].
  destruct (token_type a); cbn.
  - destruct (get_balance_before w) as [[]|]; cbn; [|reflexivity].
    destruct (lamports_of _); cbn; [|reflexivity].
    destruct (build_transfer w) as [[]|]; cbn; [|reflexivity].
    destruct (send_transaction w) as [[]|]; cbn; [|reflexivity].
    destruct (get_balance_after w) as [[]|]; reflexivity.
  - destruct (token_client w) as [[]|]; cbn; [|reflexivity].
    destruct (mint_decimals w) as [d|]; cbn; [|reflexivity].
    destruct (raw_amount_of _ _); cbn; [|reflexivity].
    destruct (token_transfer w) as [[]|]; reflexivity.
Qed.
End Solana.
End EndingFacts.

(** C7, as the code has it.  How a run of each script ends is decided by the
    first of its calls and checks that does not go well, in the order of
    the source.  send_usdc_and_verify.py exits 2 when a required input is
    missing, 3 when the node is not connected, 4 when a balance cannot be
    read, before or after the transfer, and 2 when the amount, converted at
    the decimals of the token (18 when they cannot be read), is not
    positive; once every call has returned it exits 0 when the receipt has
    status 1 and 5 when it has another status or none, without comparing
    the balances.  An exception of any other call, the wait for the receipt
    and its timeout among them, ends the run with a traceback; there is no
    other exit code, so none for an insufficient balance or a timeout.
    send_solana_and_verify.py exits 2 for a missing input, 3 for a key that
    does not load, 4 when sending SOL fails and 5 when the SPL transfer
    fails, ends with a traceback on an exception of any other call, and
    otherwise ends normally (status 0) without reading a receipt. *)
Theorem exit_codes_and_their_causes :
  forall (a : SendUsdcAndVerify.args) (env : SendUsdcAndVerify.environ)
         (w : SendUsdcAndVerify.node)
         (a' : SendSolanaAndVerify.args) (env' : SendSolanaAndVerify.environ)
         (w' : SendSolanaAndVerify.node),
    snd (SendUsdcAndVerify.main a env w)
    = (if negb (SendUsdcAndVerify.inputs_present a env) then inl (Exit 2)
       else
       after_call (SendUsdcAndVerify.imports w) (fun _ =>
       if negb (SendUsdcAndVerify.is_connected w) then inl (Exit 3) else
       after_call (SendUsdcAndVerify.from_key w) (fun _ =>
       after_call (SendUsdcAndVerify.contract w) (fun _ =>
       let d := try_or (SendUsdcAndVerify.decimals_call w) 18%N in
       match SendUsdcAndVerify.balance_from_before w,
             SendUsdcAndVerify.balance_to_before w with
       | Ok f, Ok t =>
           after_call (SendUsdcAndVerify.format_amount f d) (fun _ =>
           after_call (SendUsdcAndVerify.format_amount t d) (fun _ =>
           after_call (SendUsdcAndVerify.parse_amount
                         (SendUsdcAndVerify.amount a) d) (fun raw =>
           if raw <=? 0 then inl (Exit 2) else
           after_call (SendUsdcAndVerify.chain_id w) (fun _ =>
           after_call (SendUsdcAndVerify.get_transaction_count w) (fun _ =>
           after_call (abi_uint256 raw) (fun _ =>
           after_call (SendUsdcAndVerify.build_transaction w) (fun _ =>
           after_call (SendUsdcAndVerify.sign_transaction w) (fun _ =>
           after_call (SendUsdcAndVerify.send_raw_transaction w) (fun _ =>
           after_call (SendUsdcAndVerify.wait_for_transaction_receipt w)
             (fun receipt =>
           match SendUsdcAndVerify.balance_from_after w,
                 SendUsdcAndVerify.balance_to_after w with
           | Ok f', Ok t' =>
               after_call (SendUsdcAndVerify.format_amount f' d) (fun _ =>
               after_call (SendUsdcAndVerify.format_amount t' d) (fun _ =>
               after_call (SendUsdcAndVerify.format_amount (f - f') d)
                 (fun _ =>
               after_call (SendUsdcAndVerify.format_amount (t' - t) d)
                 (fun _ =>
               if (match receipt with Some st => st | None => 0 end) =? 1
               then inl (Exit 0) else inl (Exit 5)))))
           | _, _ => inl (Exit 4)
           end))))))))))
       | _, _ => inl (Exit 4)
       end)))) /\
    snd (SendSolanaAndVerify.main a' env' w')
    = (if negb (truthy (py_or (SendSolanaAndVerify.rpc a')
                              (SendSolanaAndVerify.SOLANA_RPC env'))
                && truthy (py_or (SendSolanaAndVerify.private_key a')
                                 (SendSolanaAndVerify.SOLANA_PRIVATE_KEY env'))
                && truthy (py_or (SendSolanaAndVerify.to a')
                                 (SendSolanaAndVerify.RECEIVER env')))
       then inl (Exit 2) else
       after_call (SendSolanaAndVerify.imports w') (fun _ =>
       match SendSolanaAndVerify.load_keypair w' with
       | Raise _ => inl (Exit 3)
       | Ok _ =>
           match SendSolanaAndVerify.token_type a' with
           | SendSolanaAndVerify.sol =>
               after_call (SendSolanaAndVerify.get_balance_before w')
                 (fun _ =>
               after_call (SendSolanaAndVerify.lamports_of
                             (SendSolanaAndVerify.amount a')) (fun _ =>
               after_call (SendSolanaAndVerify.build_transfer w') (fun _ =>
               match SendSolanaAndVerify.send_transaction w' with
               | Raise _ => inl (Exit 4)
               | Ok _ =>
                   after_call (SendSolanaAndVerify.get_balance_after w')
                     (fun _ => inr tt)
               end)))
           | SendSolanaAndVerify.spl =>
               after_call (SendSolanaAndVerify.token_client w') (fun _ =>
               after_call (SendSolanaAndVerify.mint_decimals w')
                 (fun decimals =>
               after_call (SendSolanaAndVerify.raw_amount_of
                             (SendSolanaAndVerify.amount a') decimals)
                 (fun _ =>
               match SendSolanaAndVerify.token_transfer w' with
               | Raise _ => inl (Exit 5)
               | Ok _ => inr tt
               end)))
           end
       end)).
Proof.
  intros a env w a' env' w'. split.
  - apply EndingFacts.usdc_main_ending.
  - apply EndingFacts.solana_main_ending.
Qed.

(** Status 0 without an exact transfer, and no status of its own for a
    confirmation timeout: the run whose receiver got nothing exits 0, the
    run whose confirmation times out ends like the run whose imports fail
    (traceback, status 1), and the Solana script exits 0 without reading a
    receipt. *)
Lemma exit_zero_is_not_exact :
  (let r := SendUsdcAndVerify.main (Run.usdc_args "0.0001") Run.no_env
              (Run.usdc_node (Ok 6%N) 1000 0 (Ok (Some 1)) 1000 0) in
   submitted r = [Run.usdc_tx 100] /\ In (Deltas 0 0) (output r) /\
   exit_status r = 0) /\
  exit_status (SendUsdcAndVerify.main (Run.usdc_args "0.0001") Run.no_env
                 (Run.usdc_node (Ok 6%N) 1000 0 (Raise LibraryError) 900 100))
    = 1 /\
  exit_status (SendUsdcAndVerify.main (Run.usdc_args "0.0001") Run.no_env
                 {| SendUsdcAndVerify.imports := Raise LibraryError;
                    SendUsdcAndVerify.is_connected := false;
                    SendUsdcAndVerify.from_key := Raise LibraryError;
                    SendUsdcAndVerify.contract := Raise LibraryError;
                    SendUsdcAndVerify.decimals_call := Raise LibraryError;
                    SendUsdcAndVerify.symbol_call := Raise LibraryError;
                    SendUsdcAndVerify.balance_from_before := Raise LibraryError;
                    SendUsdcAndVerify.balance_to_before := Raise LibraryError;
                    SendUsdcAndVerify.chain_id := Raise LibraryError;
                    SendUsdcAndVerify.get_transaction_count := Raise LibraryError;
                    SendUsdcAndVerify.build_transaction := Raise LibraryError;
                    SendUsdcAndVerify.gas_price := Raise LibraryError;
                    SendUsdcAndVerify.sign_transaction := Raise LibraryError;
                    SendUsdcAndVerify.send_raw_transaction := Raise LibraryError;
                    SendUsdcAndVerify.wait_for_transaction_receipt :=
                      Raise LibraryError;
                    SendUsdcAndVerify.balance_from_after := Raise LibraryError;
                    SendUsdcAndVerify.balance_to_after := Raise LibraryError |})
    = 1 /\
  exit_status (SendSolanaAndVerify.main (Run.sol_args "0.5") Run.sol_env
                 Run.sol_node) = 0.
Proof. vm_compute. repeat split; auto 20. Qed.

(** * Decimal arithmetic *)

Module DecimalFacts.
Import Numeral Decimal.

Lemma ndigits_fuel_pos fuel : forall n, 1 <= ndigits_fuel fuel n.
Proof.
  induction fuel as [|f IH]; intros n; cbn [ndigits_fuel]; [lia|].
  destruct (n <? 10); [lia|]. specialize (IH (n / 10)). lia.
Qed.

Lemma ndigits_fuel_bounds fuel : forall n,
  0 < n -> n < 2 ^ (Z.of_nat fuel + 1) ->
  10 ^ (ndigits_fuel fuel n - 1) <= n < 10 ^ ndigits_fuel fuel n.
Proof.
  induction fuel as [|f IH]; intros n Hpos Hlt.
  - simpl in *. change (2 ^ 1) with 2 in Hlt. change (10 ^ 0) with 1.
    change (10 ^ 1) with 10. lia.
  - cbn [ndigits_fuel]. destruct (n <? 10) eqn:E.
    + apply Z.ltb_lt in E. change (10 ^ (1 - 1)) with 1.
      change (10 ^ 1) with 10. lia.
    + apply Z.ltb_ge in E.
      pose proof (ndigits_fuel_pos f (n / 10)) as Hr.
      assert (Hq : 0 < n / 10) by (apply Z.div_str_pos; lia).
      assert (Hq2 : n / 10 < 2 ^ (Z.of_nat f + 1)).
      { apply Z.div_lt_upper_bound; [lia|].
        replace (Z.of_nat (S f) + 1) with (Z.succ (Z.of_nat f + 1)) in Hlt
          by lia.
        rewrite Z.pow_succ_r in Hlt by lia. lia. }
      specialize (IH (n / 10) Hq Hq2).
      set (r := ndigits_fuel f (n / 10)) in *.
      replace (1 + r - 1) with (Z.succ (r - 1)) by lia.
      replace (1 + r) with (Z.succ r) by lia.
      rewrite !Z.pow_succ_r by lia.
      pose proof (Z.div_mod n 10 ltac:(lia)) as Hdm.
      pose proof (Z.mod_pos_bound n 10 ltac:(lia)) as Hmod.
      lia.
Qed.

(** [ndigits] counts the decimal digits. *)
Lemma ndigits_bounds n :
  0 < n -> 10 ^ (ndigits n - 1) <= n < 10 ^ ndigits n.
Proof.
  intros Hpos. unfold ndigits. apply ndigits_fuel_bounds; [exact Hpos|].
  rewrite Z2Nat.id by apply Z.log2_nonneg.
  replace (Z.log2 n + 1) with (Z.succ (Z.log2 n)) by lia.
  apply Z.log2_spec. exact Hpos.
Qed.

Lemma ndigits_pos n : 1 <= ndigits n.
Proof. apply ndigits_fuel_pos. Qed.

Lemma ndigits_unique n k :
  0 < n -> 10 ^ (k - 1) <= n < 10 ^ k -> ndigits n = k.
Proof.
  intros Hpos [Hlo Hhi].
  pose proof (ndigits_bounds n Hpos) as [Hlo' Hhi'].
  pose proof (ndigits_pos n) as Hr.
  assert (Hk : 1 <= k).
  { destruct (Z_lt_le_dec k 1) as [Hk|Hk]; [|exact Hk].
    assert (10 ^ k <= 1).
    { destruct (Z.eq_dec k 0) as [->|]; [change (10 ^ 0) with 1; lia|].
      rewrite Z.pow_neg_r by lia. lia. }
    lia. }
  assert (ndigits n - 1 < k).
  { apply (Z.pow_lt_mono_r_iff 10); lia. }
  assert (k - 1 < ndigits n).
  { apply (Z.pow_lt_mono_r_iff 10); lia. }
  lia.
Qed.

Lemma ndigits_le n k : 0 < n -> n < 10 ^ k -> ndigits n <= k.
Proof.
  intros Hpos Hlt.
  pose proof (ndigits_bounds n Hpos) as [Hlo _].
  pose proof (ndigits_pos n) as Hr.
  destruct (Z_lt_le_dec k 0) as [Hk|Hk];
    [rewrite Z.pow_neg_r in Hlt by lia; lia|].
  assert (ndigits n - 1 < k); [|lia].
  apply (Z.pow_lt_mono_r_iff 10); lia.
Qed.

Lemma ndigits_mul_pow10 c k :
  0 < c -> 0 <= k -> ndigits (c * 10 ^ k) = ndigits c + k.
Proof.
  intros Hc Hk.
  pose proof (ndigits_bounds c Hc) as [Hlo Hhi].
  pose proof (ndigits_pos c) as Hr.
  assert (Hp : 0 < 10 ^ k) by (apply Z.pow_pos_nonneg; lia).
  apply ndigits_unique; [nia|].
  replace (ndigits c + k - 1) with (ndigits c - 1 + k) by lia.
  rewrite !Z.pow_add_r by lia. nia.
Qed.

Lemma ndigits_pow10 m : 0 <= m -> ndigits (10 ^ m) = m + 1.
Proof.
  intros Hm. replace (10 ^ m) with (1 * 10 ^ m) by lia.
  rewrite ndigits_mul_pow10 by lia. change (ndigits 1) with 1. lia.
Qed.

(** ** Rounding to the context *)

Lemma fix_zero s e : Etiny <= e <= Emax -> fix_ s 0 e = Ok (Finite s 0 e).
Proof.
  intros He. unfold fix_. cbn [Z.eqb].
  rewrite Z.max_l, Z.min_l by lia. reflexivity.
Qed.

(** A coefficient of at most [prec] digits is left alone. *)
Lemma fix_exact s c e :
  0 < c -> c < 10 ^ prec -> Etiny <= e <= Etop ->
  fix_ s c e = Ok (Finite s c e).
Proof.
  intros Hc Hlt He. unfold fix_.
  replace (c =? 0) with false by (symmetry; apply Z.eqb_neq; lia).
  pose proof (ndigits_le c prec Hc Hlt) as Hlen.
  replace (Etop <? ndigits c + e - prec) with false
    by (symmetry; apply Z.ltb_ge; lia).
  replace (e <? Z.max (ndigits c + e - prec) Etiny) with false
    by (symmetry; apply Z.ltb_ge; lia).
  reflexivity.
Qed.

Lemma round_half_even_nonneg c k : 0 <= c -> 0 <= round_half_even c k.
Proof.
  intros Hc. unfold round_half_even.
  assert (0 <= c / 10 ^ k).
  { destruct (Z_lt_le_dec k 0) as [Hk|Hk].
    - rewrite Z.pow_neg_r by lia. rewrite Z.div_0_r. lia.
    - apply Z.div_pos; [lia|]. apply Z.pow_pos_nonneg; lia. }
  destruct (_ || _); lia.
Qed.

(** Rounding keeps the sign, and keeps zero at zero. *)
Lemma fix_shape s c e d :
  0 <= c -> fix_ s c e = Ok d ->
  exists c' e', d = Finite s c' e' /\ 0 <= c' /\ (c = 0 -> c' = 0).
Proof.
  intros Hc. unfold fix_.
  destruct (c =? 0) eqn:E0.
  - intros H. inversion H. exists 0, (Z.min (Z.max e Etiny) Emax).
    repeat split; lia.
  - apply Z.eqb_neq in E0.
    destruct (Etop <? _); [discriminate|].
    destruct (e <? _).
    + set (coeff := if _ <? 0 then 0 else round_half_even c _).
      assert (0 <= coeff).
      { subst coeff. destruct (_ <? 0); [lia|].
        apply round_half_even_nonneg. exact Hc. }
      destruct (prec <? ndigits coeff).
      * destruct (Etop <? _); [discriminate|].
        intros H'. inversion H'. do 2 eexists.
        repeat split; [apply Z.div_pos; lia | lia].
      * intros H'. inversion H'. do 2 eexists. repeat split; [lia|lia].
    + intros H. inversion H. exists c, e. repeat split; [lia|lia].
Qed.

(** ** What the constructor reads *)

Lemma is_digit_val c : is_digit c = true -> 0 <= digit_val c <= 9.
Proof.
  unfold is_digit, digit_val. intros H.
  apply andb_true_iff in H. destruct H as [H1 H2].
  apply N.leb_le in H1, H2. lia.
Qed.

Lemma span_digits_digits s :
  Forall (fun c => is_digit c = true) (fst (span_digits s)).
Proof.
  induction s as [|c r IH]; cbn [span_digits]; [constructor|].
  destruct (is_digit c) eqn:E; [|constructor].
  destruct (span_digits r) as [d rest]. cbn [fst] in *.
  constructor; assumption.
Qed.

Lemma digits_val_nonneg ds :
  Forall (fun c => is_digit c = true) ds -> 0 <= digits_val ds.
Proof.
  unfold digits_val. intros H.
  assert (G : forall acc, 0 <= acc ->
            0 <= fold_left (fun a c => 10 * a + digit_val c) ds acc).
  { induction H as [|c l Hc _ IH]; intros acc Hacc; cbn [fold_left];
      [exact Hacc|].
    apply IH. pose proof (is_digit_val c Hc). lia. }
  apply G. lia.
Qed.

Lemma finite_coefficient_nonneg neg s n :
  finite neg s = Some n -> 0 <= coefficient n.
Proof.
  unfold finite.
  pose proof (span_digits_digits s) as Hip.
  destruct (span_digits s) as [ip r1]. cbn [fst] in Hip.
  assert (Hfp : forall fp r2,
            match r1 with
            | c :: r => if ascii_eqb c "."%char then span_digits r
                        else ([], r1)
            | [] => ([], [])
            end = (fp, r2) ->
            Forall (fun c => is_digit c = true) fp).
  { intros fp r2. destruct r1 as [|c r]; [intros H; inversion H; constructor|].
    destruct (ascii_eqb c "."%char).
    - intros H. pose proof (span_digits_digits r) as Hd.
      rewrite H in Hd. exact Hd.
    - intros H; inversion H; constructor. }
  destruct (match r1 with [] => _ | _ => _ end) as [fp r2].
  specialize (Hfp fp r2 eq_refl).
  destruct (ip ++ fp) eqn:Eapp; [discriminate|].
  destruct (exponent r2); [|discriminate].
  intros H. inversion H. unfold coefficient. cbn [n_int n_frac].
  apply digits_val_nonneg. apply Forall_app. split; assumption.
Qed.

(** A finite decimal read from text has a coefficient that is not
    negative. *)
Lemma of_str_coefficient_nonneg s sg c e :
  of_str s = Ok (Finite sg c e) -> 0 <= c.
Proof.
  unfold of_str.
  destruct (take_sign _) as [neg body].
  destruct (ieq body "inf" || ieq body "infinity"); [discriminate|].
  destruct (nan_form body); [discriminate|].
  destruct (finite neg body) as [n|] eqn:E; [|discriminate].
  destruct (_ && _); [|discriminate].
  intros H. inversion H; subst.
  eapply finite_coefficient_nonneg. exact E.
Qed.

Lemma pow10_shape d p :
  pow10 d = Ok p -> exists m q, p = Finite false m q /\ 0 < m.
Proof.
  unfold pow10. destruct (_ <=? Emax); [|discriminate].
  intros H. inversion H. do 2 eexists. split; [reflexivity|].
  apply Z.pow_pos_nonneg; lia.
Qed.

Lemma to_int_sign s c e :
  0 <= c ->
  exists m, to_int (Finite s c e) = Ok (if s then - m else m) /\ 0 <= m /\
            (c = 0 -> m = 0).
Proof.
  intros Hc. cbn [to_int]. eexists. split; [reflexivity|].
  destruct (0 <=? e) eqn:E.
  - apply Z.leb_le in E.
    assert (0 <= 10 ^ e) by (apply Z.pow_nonneg; lia). split; [nia|].
    intros ->. lia.
  - apply Z.leb_gt in E.
    assert (0 < 10 ^ (- e)) by (apply Z.pow_pos_nonneg; lia).
    split; [apply Z.div_pos; lia|]. intros ->. apply Z.div_0_l. lia.
Qed.
End DecimalFacts.

(** ** The conversion of send_usdc_and_verify.py *)

Module AmountFacts.
Import Numeral Decimal DecimalFacts SendUsdcAndVerify.

(** A text that denotes zero or a negative number never converts to a
    positive raw amount. *)
Lemma parse_amount_nonpositive s d sg c e :
  of_str s = Ok (Finite sg c e) -> sg = true \/ c = 0 ->
  match parse_amount s d with
  | Ok raw => raw <= 0
  | Raise _ => True
  end.
Proof.
  intros Hs Hz. unfold parse_amount. rewrite Hs. cbn [bind].
  pose proof (of_str_coefficient_nonneg s sg c e Hs) as Hc.
  destruct (pow10 d) as [p|] eqn:Ep; [|exact I]. cbn [bind].
  destruct (pow10_shape d p Ep) as (m & q & -> & Hm).
  cbn [mul].
  destruct (fix_ (xorb sg false) (c * m) (e + q)) as [r|] eqn:Ef; [|exact I].
  cbn [bind].
  assert (Hcm : 0 <= c * m) by nia.
  destruct (fix_shape _ _ _ _ Hcm Ef) as (c' & e' & -> & Hc' & Hz').
  destruct (to_int_sign (xorb sg false) c' e' Hc') as (v & -> & Hv & Hv0).
  destruct Hz as [-> | ->].
  - cbn. lia.
  - rewrite Hv0 by (apply Hz'; lia). destruct (xorb sg false); lia.
Qed.

(** The two scripts convert alike. *)
Lemma format_token_amount_eq raw d :
  EvmTestUsdc.format_token_amount raw d
  = (h <- format_amount raw d ;; Ok (to_str h))%result.
Proof.
  unfold EvmTestUsdc.format_token_amount, format_amount.
  destruct (pow10 d); reflexivity.
Qed.

Lemma truncated_scale_split c j x :
  0 <= j ->
  (if 0 <=? x then c * 10 ^ j * 10 ^ x else c * 10 ^ j / 10 ^ (- x))
  = truncated_scale c (j + x).
Proof.
  intros Hj. unfold truncated_scale.
  destruct (0 <=? x) eqn:Ex.
  - apply Z.leb_le in Ex.
    replace (0 <=? j + x) with true by (symmetry; apply Z.leb_le; lia).
    rewrite Z.pow_add_r by lia. ring.
  - apply Z.leb_gt in Ex.
    destruct (0 <=? j + x) eqn:Ejx.
    + apply Z.leb_le in Ejx.
      replace j with ((j + x) + (- x)) at 1 by lia.
      rewrite Z.pow_add_r by lia. rewrite Z.mul_assoc.
      apply Z.div_mul. apply Z.pow_nonzero; lia.
    + apply Z.leb_gt in Ejx.
      replace (- x) with (- (j + x) + j) by lia.
      rewrite Z.pow_add_r by lia.
      apply Z.div_mul_cancel_r; apply Z.pow_nonzero; lia.
Qed.

(** Rounding a coefficient of at most [prec] digits followed by zeros only
    drops zeros. *)
Lemma fix_scaled s c j e :
  0 < c -> c < 10 ^ prec -> 0 <= j -> Etiny <= e -> e + j <= Etop ->
  exists k, 0 <= k <= j /\
    fix_ s (c * 10 ^ j) e = Ok (Finite s (c * 10 ^ (j - k)) (e + k)).
Proof.
  intros Hc Hlt Hj He Htop.
  pose proof (ndigits_le c prec Hc Hlt) as Hlen.
  pose proof (ndigits_pos c) as Hlen1.
  assert (Hp : 0 < 10 ^ j) by (apply Z.pow_pos_nonneg; lia).
  unfold fix_.
  replace (c * 10 ^ j =? 0) with false by (symmetry; apply Z.eqb_neq; nia).
  rewrite ndigits_mul_pow10 by lia.
  replace (Etop <? ndigits c + j + e - prec) with false
    by (symmetry; apply Z.ltb_ge; lia).
  destruct (e <? Z.max (ndigits c + j + e - prec) Etiny) eqn:E.
  - apply Z.ltb_lt in E.
    rewrite Z.max_l in * by lia.
    set (k := ndigits c + j + e - prec - e).
    assert (Hk : 0 < k <= j) by (subst k; lia).
    replace (ndigits c + j + e - (ndigits c + j + e - prec) <? 0) with false
      by (symmetry; apply Z.ltb_ge; unfold prec; lia).
    assert (Hround : round_half_even (c * 10 ^ j) k = c * 10 ^ (j - k)).
    { unfold round_half_even.
      assert (Hk10 : 0 < 10 ^ k) by (apply Z.pow_pos_nonneg; lia).
      assert (Hsplit : c * 10 ^ j = c * 10 ^ (j - k) * 10 ^ k).
      { rewrite <- Z.mul_assoc, <- Z.pow_add_r by lia.
        replace (j - k + k) with j by lia. reflexivity. }
      rewrite Hsplit, Z.div_mul, Z.mod_mul by lia.
      assert (0 < 5 * 10 ^ (k - 1))
        by (assert (0 < 10 ^ (k - 1)) by (apply Z.pow_pos_nonneg; lia); lia).
      replace (5 * 10 ^ (k - 1) <? 0) with false
        by (symmetry; apply Z.ltb_ge; lia).
      replace (0 =? 5 * 10 ^ (k - 1)) with false
        by (symmetry; apply Z.eqb_neq; lia).
      reflexivity. }
    rewrite Hround, ndigits_mul_pow10 by lia.
    replace (prec <? ndigits c + (j - k)) with false
      by (symmetry; apply Z.ltb_ge; subst k; lia).
    exists k. split; [lia|].
    replace (ndigits c + j + e - prec) with (e + k) by (subst k; lia).
    reflexivity.
  - exists 0. split; [lia|]. rewrite Z.sub_0_r, Z.add_0_r. reflexivity.
Qed.

(** What [parse_amount] computes while the context precision is not
    exceeded: the coefficient scaled by the decimals and the exponent, cut
    towards zero, with the sign of the text. *)
Lemma parse_amount_value s d sg c e :
  of_str s = Ok (Finite sg c e) ->
  0 < c -> c < 10 ^ prec ->
  Z.of_N d <= Emax -> Etiny <= e -> e + Z.of_N d <= Etop ->
  parse_amount s d
  = Ok (if sg then - truncated_scale c (Z.of_N d + e)
        else truncated_scale c (Z.of_N d + e)).
Proof.
  intros Hs Hc Hlt Hd He Htop.
  unfold parse_amount. rewrite Hs. cbn [bind].
  unfold pow10. replace (Z.of_N d <=? Emax) with true
    by (symmetry; apply Z.leb_le; exact Hd).
  cbn [bind mul]. rewrite xorb_false_r.
  set (j := Z.min (Z.of_N d) 27). set (q := Z.max 0 (Z.of_N d - 27)).
  assert (Hj : 0 <= j) by (subst j; lia).
  assert (Hjq : j + q = Z.of_N d) by (subst j q; lia).
  destruct (fix_scaled sg c j (e + q) Hc Hlt Hj ltac:(subst q; lia)
              ltac:(lia)) as (k & Hk & ->).
  cbn [bind to_int]. f_equal.
  assert (Hval :
    (if 0 <=? e + q + k
     then c * 10 ^ (j - k) * 10 ^ (e + q + k)
     else c * 10 ^ (j - k) / 10 ^ (- (e + q + k)))
    = truncated_scale c (Z.of_N d + e)).
  { rewrite truncated_scale_split by lia. f_equal. lia. }
  rewrite Hval. reflexivity.
Qed.

Lemma strip_zeros_spec k : forall fuel c x ideal,
  (k <= fuel)%nat -> x + Z.of_nat k <= ideal -> 0 < c ->
  (x + Z.of_nat k = ideal \/ c mod 10 <> 0) ->
  strip_zeros fuel (c * 10 ^ Z.of_nat k) x ideal = (c, x + Z.of_nat k).
Proof.
  induction k as [|k IH]; intros fuel c x ideal Hfuel Hle Hc Hstop.
  - change (Z.of_nat 0) with 0 in *. rewrite Z.mul_1_r, Z.add_0_r in *.
    destruct fuel as [|f]; [reflexivity|]. cbn [strip_zeros].
    destruct Hstop as [-> | Hm].
    + rewrite Z.ltb_irrefl. reflexivity.
    + replace (c mod 10 =? 0) with false
        by (symmetry; apply Z.eqb_neq; exact Hm).
      rewrite andb_false_r. reflexivity.
  - destruct fuel as [|f]; [lia|]. cbn [strip_zeros].
    rewrite Nat2Z.inj_succ in *.
    rewrite Z.pow_succ_r by lia.
    replace (c * (10 * 10 ^ Z.of_nat k)) with (c * 10 ^ Z.of_nat k * 10)
      by ring.
    rewrite Z.mod_mul, Z.div_mul by lia.
    replace (x <? ideal) with true by (symmetry; apply Z.ltb_lt; lia).
    cbn [andb Z.eqb].
    rewrite IH; [f_equal; lia | lia | lia | exact Hc |].
    destruct Hstop as [H|H]; [left; lia | right; exact H].
Qed.

Lemma div_eucl_exact a b : 0 < b -> Z.div_eucl (a * b) b = (a, 0).
Proof.
  intros Hb.
  pose proof (Z.div_mul a b ltac:(lia)) as Hq.
  pose proof (Z.mod_mul a b ltac:(lia)) as Hr.
  unfold Z.div, Z.modulo in Hq, Hr.
  destruct (Z.div_eucl (a * b) b) as [q r]. cbn in Hq, Hr. subst.
  reflexivity.
Qed.

(** Dividing a raw amount by [10^d] gives back the decimal it was made
    from, in its shortest form. *)
Lemma div_pow10_exact c e d :
  0 < c -> e <= 0 -> - e <= d -> d <= 27 ->
  c * 10 ^ (d + e) < 10 ^ prec ->
  (e = 0 \/ c mod 10 <> 0) ->
  div (of_int (c * 10 ^ (d + e))) (Finite false (10 ^ d) 0)
  = Ok (Finite false c e).
Proof.
  intros Hc He Hed Hd Hlt Hnorm.
  set (raw := c * 10 ^ (d + e)) in *.
  assert (Hp : 0 < 10 ^ (d + e)) by (apply Z.pow_pos_nonneg; lia).
  assert (Hraw : 0 < raw) by (subst raw; nia).
  assert (Hpd : 0 < 10 ^ d) by (apply Z.pow_pos_nonneg; lia).
  unfold of_int.
  replace (raw <? 0) with false by (symmetry; apply Z.ltb_ge; lia).
  rewrite Z.abs_eq by lia. cbn [div xorb].
  replace (10 ^ d =? 0) with false by (symmetry; apply Z.eqb_neq; lia).
  replace (raw =? 0) with false by (symmetry; apply Z.eqb_neq; lia).
  rewrite ndigits_pow10 by lia.
  pose proof (ndigits_le raw prec Hraw Hlt) as HL.
  pose proof (ndigits_pos raw) as HL1.
  set (shift := d + 1 - ndigits raw + prec + 1).
  assert (Hshift : d + 2 <= shift) by (subst shift; lia).
  replace (0 <=? shift) with true by (symmetry; apply Z.leb_le; lia).
  assert (Hmul : raw * 10 ^ shift = raw * 10 ^ (shift - d) * 10 ^ d).
  { rewrite <- Z.mul_assoc, <- Z.pow_add_r by lia.
    replace (shift - d + d) with shift by lia. reflexivity. }
  rewrite Hmul, div_eucl_exact by exact Hpd.
  cbn [Z.eqb].
  assert (Hcoef : raw * 10 ^ (shift - d)
                  = c * 10 ^ Z.of_nat (Z.to_nat (shift + e))).
  { rewrite Z2Nat.id by lia. subst raw.
    rewrite <- Z.mul_assoc, <- Z.pow_add_r by lia.
    f_equal. f_equal. lia. }
  rewrite Hcoef.
  rewrite (strip_zeros_spec (Z.to_nat (shift + e))); try assumption.
  - rewrite Z2Nat.id by lia.
    replace (0 - 0 - shift + (shift + e)) with e by lia.
    apply fix_exact; [exact Hc | | unfold Etiny, Etop, Emin, Emax, prec; lia].
    apply Z.le_lt_trans with raw; [subst raw; nia | exact Hlt].
  - apply Z2Nat.inj_le; lia.
  - rewrite Z2Nat.id by lia. lia.
  - rewrite Z2Nat.id by lia. destruct Hnorm as [-> | H]; [left; lia|].
    right; exact H.
Qed.
End AmountFacts.

(** * The claims about the amount conversion *)

(** C3, as the code has it.  In send_usdc_and_verify.py an amount whose
    text denotes zero or a negative number never reaches the node: nothing is
    submitted and the exit status is not 0; when the steps before the
    conversion succeeded and the conversion itself returned, the script stops
    with status 2. *)
Theorem zero_and_negative_amounts_are_rejected :
  forall (a : SendUsdcAndVerify.args) (env : SendUsdcAndVerify.environ)
         (w : SendUsdcAndVerify.node) (sg : bool) (c e : Z),
    Decimal.of_str (SendUsdcAndVerify.amount a)
      = Ok (Decimal.Finite sg c e) ->
    sg = true \/ c = 0 ->
    submitted (SendUsdcAndVerify.main a env w) = [] /\
    exit_status (SendUsdcAndVerify.main a env w) <> 0 /\
    (forall s raw,
       snd (SendUsdcAndVerify.setup a env w) = inr s ->
       SendUsdcAndVerify.parse_amount (SendUsdcAndVerify.amount a)
         (SendUsdcAndVerify.decimals s) = Ok raw ->
       snd (SendUsdcAndVerify.main a env w) = inl (Exit 2)).
Proof.
  intros a env w sg c e Hs Hz.
  assert (Hnp : forall d raw,
            SendUsdcAndVerify.parse_amount (SendUsdcAndVerify.amount a) d
              = Ok raw -> raw <= 0).
  { intros d raw Hp.
    pose proof (AmountFacts.parse_amount_nonpositive _ d sg c e Hs Hz) as H.
    rewrite Hp in H. exact H. }
  pose proof (SendUsdcFacts.setup_spec a env w) as [_ Hsetup].
  split; [|split].
  - destruct (SendUsdcRuns.main_submitted a env w)
      as [H | (s & raw & _ & Hp & Hpos & _)]; [exact H|].
    apply Hnp in Hp. lia.
  - unfold exit_status.
    destruct (SendUsdcFacts.main_cases a env w)
      as [(t & st & Hst & ->) | (t & s & Hst & [(t2 & st & Hc & _ & ->) |
                                               (raw & _ & Hp & Hpos & _)])].
    + rewrite Hst in Hsetup. cbn [fst snd] in *.
      destruct st as [code|]; [|discriminate].
      destruct Hsetup as [[-> _] | [(-> & _) | (-> & _)]]; discriminate.
    + cbn [snd].
      pose proof (SendUsdcFacts.convert_amount_cases
                    (SendUsdcAndVerify.amount a)
                    (SendUsdcAndVerify.decimals s)) as Hcc.
      destruct (SendUsdcAndVerify.parse_amount _ _) as [raw|];
        [destruct (raw <=? 0)|]; rewrite Hcc in Hc; inversion Hc; subst;
        discriminate.
    + apply Hnp in Hp. lia.
  - intros s raw Hst Hp.
    destruct (SendUsdcFacts.main_cases a env w)
      as [(t & st & Hst' & _) | (t & s' & Hst' & [(t2 & st & Hc & _ & ->) |
                                                 (raw' & _ & Hp' & Hpos & _)])].
    + rewrite Hst' in Hst. discriminate.
    + rewrite Hst' in Hst. inversion Hst; subst s'.
      pose proof (SendUsdcFacts.convert_amount_cases
                    (SendUsdcAndVerify.amount a)
                    (SendUsdcAndVerify.decimals s)) as Hcc.
      rewrite Hp in Hcc.
      replace (raw <=? 0) with true in Hcc
        by (symmetry; apply Z.leb_le; eapply Hnp; exact Hp).
      rewrite Hcc in Hc. inversion Hc; subst. reflexivity.
    + apply Hnp in Hp'. lia.
Qed.

(** The amounts "0" and "-1" with six decimals. *)
Lemma zero_and_negative_amounts_are_rejected_witness :
  (Decimal.of_str (SendUsdcAndVerify.amount (Run.usdc_args "-1"))
     = Ok (Decimal.Finite true 1 0) /\
   (true = true \/ 1 = 0)) /\
  exit_status (SendUsdcAndVerify.main (Run.usdc_args "0") Run.no_env
                 (Run.usdc_node (Ok 6%N) 1000 0 (Ok (Some 1)) 1000 0)) = 2 /\
  submitted (SendUsdcAndVerify.main (Run.usdc_args "-1") Run.no_env
               (Run.usdc_node (Ok 6%N) 1000 0 (Ok (Some 1)) 1000 0)) = [] /\
  exit_status (SendUsdcAndVerify.main (Run.usdc_args "-1") Run.no_env
                 (Run.usdc_node (Ok 6%N) 1000 0 (Ok (Some 1)) 1000 0)) <> 0 /\
  (forall s raw,
     snd (SendUsdcAndVerify.setup (Run.usdc_args "-1") Run.no_env
            (Run.usdc_node (Ok 6%N) 1000 0 (Ok (Some 1)) 1000 0)) = inr s ->
     SendUsdcAndVerify.parse_amount
       (SendUsdcAndVerify.amount (Run.usdc_args "-1"))
       (SendUsdcAndVerify.decimals s) = Ok raw ->
     snd (SendUsdcAndVerify.main (Run.usdc_args "-1") Run.no_env
            (Run.usdc_node (Ok 6%N) 1000 0 (Ok (Some 1)) 1000 0))
     = inl (Exit 2)).
Proof.
  split; [split; [vm_compute; reflexivity | left; reflexivity]|].
  split; [vm_compute; reflexivity|].
  apply (zero_and_negative_amounts_are_rejected
           (Run.usdc_args "-1") Run.no_env
           (Run.usdc_node (Ok 6%N) 1000 0 (Ok (Some 1)) 1000 0) true 1 0);
    [vm_compute; reflexivity | left; reflexivity].
Defined.

(** Seven fractional digits for a token of six decimals: the conversion
    does not fail, it cuts the amount to 1000000 raw units and the transfer
    goes out. *)
Lemma excess_precision_is_truncated_and_sent :
  let r := SendUsdcAndVerify.main (Run.usdc_args "1.0000001") Run.no_env
             (Run.usdc_node (Ok 6%N) 2000000 0 (Ok (Some 1)) 1000000 1000000) in
  SendUsdcAndVerify.parse_amount (lit "1.0000001") 6 = Ok 1000000 /\
  submitted r = [Run.usdc_tx 1000000] /\
  exit_status r = 0.
Proof. vm_compute. repeat split; reflexivity. Qed.

(** C2, as the code has it.  Converting a text to a raw amount and back
    reproduces the text exactly when it is the text [str()] prints for the
    decimal it denotes, that decimal is not negative, has no exponent above
    zero, no trailing zero after the point and at most [d] fractional digits,
    the raw amount stays below [10^28], and [d <= 27]. *)
Theorem amount_round_trip_of_normal_texts :
  forall (s : str) (d : N) (c e : Z),
    Decimal.of_str s = Ok (Decimal.Finite false c e) ->
    Decimal.to_str (Decimal.Finite false c e) = s ->
    e <= 0 -> - e <= Z.of_N d -> Z.of_N d <= 27 ->
    c * 10 ^ (Z.of_N d + e) < 10 ^ 28 ->
    (e = 0 \/ c mod 10 <> 0) ->
    (raw <- EvmTestUsdc.parse_token_amount s d ;;
     EvmTestUsdc.format_token_amount raw d)%result = Ok s /\
    (raw <- SendUsdcAndVerify.parse_amount s d ;;
     h <- SendUsdcAndVerify.format_amount raw d ;;
     Ok (Decimal.to_str h))%result = Ok s.
Proof.
  intros s d c e Hs Hstr He Hed Hd Hlt Hnorm.
  pose proof (DecimalFacts.of_str_coefficient_nonneg s false c e Hs) as Hc.
  assert (Hpow : Decimal.pow10 d = Ok (Decimal.Finite false (10 ^ Z.of_N d) 0)).
  { unfold Decimal.pow10.
    replace (Z.of_N d <=? Decimal.Emax) with true
      by (symmetry; apply Z.leb_le; unfold Decimal.Emax; lia).
    rewrite Z.min_l, Z.max_l by lia. reflexivity. }
  assert (Hparse : SendUsdcAndVerify.parse_amount s d
                   = Ok (c * 10 ^ (Z.of_N d + e))).
  { destruct (Z.eq_dec c 0) as [-> | Hc0].
    - unfold SendUsdcAndVerify.parse_amount. rewrite Hs, Hpow.
      cbn [bind Decimal.mul xorb]. rewrite Z.mul_0_l, Z.add_0_r.
      rewrite DecimalFacts.fix_zero
        by (unfold Decimal.Etiny, Decimal.Emin, Decimal.Emax, Decimal.prec; lia).
      cbn [bind Decimal.to_int]. rewrite Z.mul_0_l.
      destruct (0 <=? e); [|rewrite Z.div_0_l
                              by (apply Z.pow_nonzero; lia)];
        reflexivity.
    - assert (Hp : 0 < 10 ^ (Z.of_N d + e)) by (apply Z.pow_pos_nonneg; lia).
      rewrite (AmountFacts.parse_amount_value s d false c e Hs);
        [ | lia
          | apply Z.le_lt_trans with (c * 10 ^ (Z.of_N d + e));
            [nia | exact Hlt]
          | unfold Decimal.Emax; lia
          | unfold Decimal.Etiny, Decimal.Emin, Decimal.prec; lia
          | unfold Decimal.Etop, Decimal.Emax, Decimal.prec; lia ].
      unfold truncated_scale.
      replace (0 <=? Z.of_N d + e) with true
        by (symmetry; apply Z.leb_le; lia).
      reflexivity. }
  assert (Hformat : SendUsdcAndVerify.format_amount
                      (c * 10 ^ (Z.of_N d + e)) d
                    = Ok (Decimal.Finite false c e)).
  { unfold SendUsdcAndVerify.format_amount. rewrite Hpow. cbn [bind].
    destruct (Z.eq_dec c 0) as [-> | Hc0].
    - assert (e = 0) as -> by (destruct Hnorm as [H|H];
                                [exact H | exfalso; apply H; reflexivity]).
      rewrite Z.mul_0_l. cbn [Decimal.of_int Decimal.div Z.ltb Z.compare
                              Z.abs xorb].
      replace (10 ^ Z.of_N d =? 0) with false
        by (symmetry; apply Z.eqb_neq; apply Z.pow_nonzero; lia).
      cbn [Z.eqb]. apply DecimalFacts.fix_zero.
      unfold Decimal.Etiny, Decimal.Emin, Decimal.Emax, Decimal.prec. lia.
    - apply AmountFacts.div_pow10_exact; try assumption; lia. }
  split.
  - change (EvmTestUsdc.parse_token_amount s d)
      with (SendUsdcAndVerify.parse_amount s d).
    rewrite Hparse. cbn [bind].
    rewrite AmountFacts.format_token_amount_eq, Hformat. cbn [bind]. rewrite Hstr. reflexivity.
  - rewrite Hparse. cbn [bind]. rewrite Hformat. cbn [bind].
    rewrite Hstr. reflexivity.
Qed.

(** The text "1.5" with six decimals. *)
Lemma amount_round_trip_of_normal_texts_witness :
  Decimal.of_str (lit "1.5") = Ok (Decimal.Finite false 15 (-1)) /\
  Decimal.to_str (Decimal.Finite false 15 (-1)) = lit "1.5" /\
  -1 <= 0 /\ - -1 <= Z.of_N 6 /\ Z.of_N 6 <= 27 /\
  15 * 10 ^ (Z.of_N 6 + -1) < 10 ^ 28 /\
  (-1 = 0 \/ 15 mod 10 <> 0) /\
  (raw <- EvmTestUsdc.parse_token_amount (lit "1.5") 6 ;;
   EvmTestUsdc.format_token_amount raw 6)%result = Ok (lit "1.5") /\
  (raw <- SendUsdcAndVerify.parse_amount (lit "1.5") 6 ;;
   h <- SendUsdcAndVerify.format_amount raw 6 ;;
   Ok (Decimal.to_str h))%result = Ok (lit "1.5").
Proof.
  assert (H1 : Decimal.of_str (lit "1.5") = Ok (Decimal.Finite false 15 (-1)))
    by (vm_compute; reflexivity).
  assert (H2 : Decimal.to_str (Decimal.Finite false 15 (-1)) = lit "1.5")
    by (vm_compute; reflexivity).
  assert (H3 : 15 * 10 ^ (Z.of_N 6 + -1) < 10 ^ 28) by (vm_compute; reflexivity).
  assert (H4 : -1 = 0 \/ 15 mod 10 <> 0) by (right; vm_compute; discriminate).
  repeat (split; [first [exact H1 | exact H2 | exact H3 | exact H4
                        | vm_compute; discriminate]|]).
  exact (amount_round_trip_of_normal_texts (lit "1.5") 6 15 (-1) H1 H2
           ltac:(lia) ltac:(vm_compute; discriminate)
           ltac:(vm_compute; discriminate) H3 H4).
Defined.

(** Texts with at most [d] fractional digits that do not come back: a
    trailing zero is lost, a small amount comes back in scientific notation,
    and a 29-digit amount comes back rounded. *)
Lemma round_trip_changes_the_text :
  (raw <- EvmTestUsdc.parse_token_amount (lit "1.50") 2 ;;
   EvmTestUsdc.format_token_amount raw 2)%result = Ok (lit "1.5") /\
  (raw <- EvmTestUsdc.parse_token_amount (lit "0.0000001") 7 ;;
   EvmTestUsdc.format_token_amount raw 7)%result = Ok (lit "1E-7") /\
  (raw <- EvmTestUsdc.parse_token_amount
            (lit "12345678901234567890123456789") 0 ;;
   EvmTestUsdc.format_token_amount raw 0)%result
  = Ok (lit "1.234567890123456789012345679E+28").
Proof. vm_compute. repeat split; reflexivity. Qed.

(** C1.  The Solana script converts through binary floating point and the
    result drifts: for the amount "2.01" it sends 2009999999 lamports, where
    the exact scaling by [10^9], which the decimal conversion of the EVM
    scripts computes, is 2010000000; with six token decimals it gets 2009999
    instead of 2010000. *)
Theorem solana_amounts_go_through_binary_floats :
  SendSolanaAndVerify.lamports_of (lit "2.01") = Ok 2009999999 /\
  SendUsdcAndVerify.parse_amount (lit "2.01") 9 = Ok 2010000000 /\
  submitted (SendSolanaAndVerify.main (Run.sol_args "2.01") Run.sol_env
               Run.sol_node)
  = [ {| tx_asset := None; tx_to := lit "Receiver";
         tx_amount := 2009999999; tx_gas := None |} ] /\
  SendSolanaAndVerify.raw_amount_of (lit "2.01") 6 = Ok 2009999 /\
  SendUsdcAndVerify.parse_amount (lit "2.01") 6 = Ok 2010000.
Proof. vm_compute. repeat split; reflexivity. Qed.

(** * Printing and reading back

    The texts that [str()] prints for plain decimals are texts of the kind
    the round trip reproduces. *)

Module PrintFacts.
Import Numeral Decimal DecimalFacts.

Lemma digits_val_app a b :
  digits_val (a ++ b)
  = fold_left (fun acc c => 10 * acc + digit_val c) b (digits_val a).
Proof. unfold digits_val. apply fold_left_app. Qed.

Lemma digits_val_snoc a c :
  digits_val (a ++ [c]) = 10 * digits_val a + digit_val c.
Proof. rewrite digits_val_app. reflexivity. Qed.

Lemma digit_char_val n :
  0 <= n < 10 ->
  is_digit (ascii_of_N (Z.to_N n + 48)) = true /\
  digit_val (ascii_of_N (Z.to_N n + 48)) = n.
Proof.
  intros Hn. unfold is_digit, digit_val.
  rewrite N_ascii_embedding by lia.
  split; [|lia].
  apply andb_true_iff. split; apply N.leb_le; lia.
Qed.

(** The digits printed for [n] are digits, as many as [ndigits] counts, and
    read back as [n]. *)
Lemma digits_fuel_spec fuel : forall n acc,
  0 <= n -> n < 2 ^ (Z.of_nat fuel + 1) ->
  exists ds,
    digits_fuel fuel n acc = ds ++ acc /\
    Forall (fun c => is_digit c = true) ds /\
    digits_val ds = n /\
    Z.of_nat (length ds) = ndigits_fuel fuel n.
Proof.
  induction fuel as [|f IH]; intros n acc Hn Hlt.
  - change (2 ^ (Z.of_nat 0 + 1)) with 2 in Hlt.
    assert (Hmod : n mod 10 = n) by (apply Z.mod_small; lia).
    destruct (digit_char_val n ltac:(lia)) as [Hd Hv].
    cbn [digits_fuel ndigits_fuel]. rewrite Hmod.
    exists [ascii_of_N (Z.to_N n + 48)].
    repeat split; [repeat constructor; exact Hd|].
    unfold digits_val. cbn [fold_left]. lia.
  - cbn [digits_fuel ndigits_fuel].
    pose proof (Z.mod_pos_bound n 10 ltac:(lia)) as Hm.
    destruct (digit_char_val (n mod 10) Hm) as [Hd Hv].
    destruct (n <? 10) eqn:E.
    + apply Z.ltb_lt in E.
      exists [ascii_of_N (Z.to_N (n mod 10) + 48)].
      repeat split; [repeat constructor; exact Hd|].
      unfold digits_val. cbn [fold_left]. rewrite Hv.
      rewrite Z.mod_small; lia.
    + apply Z.ltb_ge in E.
      assert (Hq : 0 <= n / 10) by (apply Z.div_pos; lia).
      assert (Hq2 : n / 10 < 2 ^ (Z.of_nat f + 1)).
      { apply Z.div_lt_upper_bound; [lia|].
        replace (Z.of_nat (S f) + 1) with (Z.succ (Z.of_nat f + 1)) in Hlt
          by lia.
        rewrite Z.pow_succ_r in Hlt by lia. lia. }
      destruct (IH (n / 10) (ascii_of_N (Z.to_N (n mod 10) + 48) :: acc)
                  Hq Hq2) as (ds & Heq & Hds & Hval & Hlen).
      exists (ds ++ [ascii_of_N (Z.to_N (n mod 10) + 48)]).
      repeat split.
      * rewrite Heq, <- app_assoc. reflexivity.
      * apply Forall_app. split; [exact Hds | repeat constructor; exact Hd].
      * rewrite digits_val_snoc, Hval, Hv.
        pose proof (Z.div_mod n 10 ltac:(lia)). lia.
      * rewrite length_app, Nat2Z.inj_add, Hlen. cbn [length]. lia.
Qed.

Lemma digits_of_spec n :
  0 <= n ->
  Forall (fun c => is_digit c = true) (digits_of n) /\
  digits_val (digits_of n) = n /\
  Z.of_nat (length (digits_of n)) = ndigits n.
Proof.
  intros Hn. unfold digits_of, ndigits.
  destruct (digits_fuel_spec (Z.to_nat (Z.log2 n)) n [] Hn)
    as (ds & Heq & Hds & Hval & Hlen).
  - rewrite Z2Nat.id by apply Z.log2_nonneg.
    destruct (Z.eq_dec n 0) as [->|Hz].
    + change (2 ^ (Z.log2 0 + 1)) with 2. lia.
    + replace (Z.log2 n + 1) with (Z.succ (Z.log2 n)) by lia.
      apply Z.log2_spec. lia.
  - rewrite Heq, app_nil_r. auto.
Qed.

(** ** Reading plain numerals *)

Lemma digit_cases c :
  is_digit c = true ->
  In c [ "0"%char; "1"%char; "2"%char; "3"%char; "4"%char;
         "5"%char; "6"%char; "7"%char; "8"%char; "9"%char ].
Proof.
  destruct c as [b0 b1 b2 b3 b4 b5 b6 b7].
  destruct b0, b1, b2, b3, b4, b5, b6, b7; intros H;
    try discriminate H; cbn; tauto.
Qed.

(** A digit is no blank, underscore, point, sign or letter. *)
Lemma digit_is_plain c :
  is_digit c = true ->
  is_space c = false /\ ascii_eqb c "_"%char = false /\
  ascii_eqb c "."%char = false /\ ascii_eqb c "-"%char = false /\
  ascii_eqb c "+"%char = false /\ lower c = c /\
  ascii_eqb c "i"%char = false /\ ascii_eqb c "n"%char = false /\
  ascii_eqb c "s"%char = false.
Proof.
  intros H. apply digit_cases in H. cbn [In] in H.
  repeat (destruct H as [<- | H]; [repeat split; reflexivity|]).
  contradiction.
Qed.

Lemma span_digits_app ds rest :
  Forall (fun c => is_digit c = true) ds ->
  match rest with [] => True | c :: _ => is_digit c = false end ->
  span_digits (ds ++ rest) = (ds, rest).
Proof.
  intros Hds Hrest. induction Hds as [|c l Hc _ IH].
  - destruct rest as [|c r]; [reflexivity|].
    cbn [app span_digits]. rewrite Hrest. reflexivity.
  - cbn [app span_digits]. rewrite Hc, IH. reflexivity.
Qed.

Lemma lstrip_id space s :
  match s with [] => True | c :: _ => space c = false end ->
  lstrip space s = s.
Proof.
  destruct s as [|c r]; [reflexivity|]. intros H.
  cbn [lstrip]. rewrite H. reflexivity.
Qed.

Lemma strip_id space s :
  Forall (fun c => space c = false) s -> strip space s = s.
Proof.
  intros H. unfold strip.
  rewrite (lstrip_id space s) by (destruct H; auto).
  assert (Hrev : Forall (fun c => space c = false) (rev s))
    by (apply Forall_rev; exact H).
  rewrite (lstrip_id space (rev s)) by (destruct Hrev; auto).
  apply rev_involutive.
Qed.

Lemma filter_id {A} (f : A -> bool) l :
  Forall (fun c => f c = true) l -> filter f l = l.
Proof.
  induction 1 as [|c l Hc _ IH]; [reflexivity|].
  cbn [filter]. rewrite Hc, IH. reflexivity.
Qed.

(** The characters of a plain numeral. *)
Lemma plain_chars ip fp :
  Forall (fun c => is_digit c = true) ip ->
  Forall (fun c => is_digit c = true) fp ->
  Forall (fun c => is_space c = false) (ip ++ "."%char :: fp) /\
  Forall (fun c => negb (ascii_eqb c "_"%char) = true)
         (ip ++ "."%char :: fp).
Proof.
  intros Hip Hfp.
  assert (G : forall l, Forall (fun c => is_digit c = true) l ->
              Forall (fun c => is_space c = false) l /\
              Forall (fun c => negb (ascii_eqb c "_"%char) = true) l).
  { intros l Hl. split; (eapply Forall_impl; [|exact Hl]); intros c Hc;
      destruct (digit_is_plain c Hc) as (H1 & H2 & _);
      [exact H1 | rewrite H2; reflexivity]. }
  destruct (G ip Hip) as [A1 A2]. destruct (G fp Hfp) as [B1 B2].
  split; apply Forall_app; (split; [assumption|]);
    constructor; (reflexivity || assumption).
Qed.

(** A text that starts with a digit is read as a finite number. *)
Lemma of_str_starts_with_digit c r :
  is_digit c = true ->
  Forall (fun x => is_space x = false) (c :: r) ->
  Forall (fun x => negb (ascii_eqb x "_"%char) = true) (c :: r) ->
  of_str (c :: r)
  = match finite false (c :: r) with
    | Some n =>
        if (scale n + ndigits (coefficient n) - 1 <=? MAX_EMAX)
           && (MIN_ETINY <=? scale n)
        then Ok (Finite false (coefficient n) (scale n))
        else Raise DecimalException
    | None => Raise DecimalException
    end.
Proof.
  intros Hc Hsp Hus.
  destruct (digit_is_plain c Hc)
    as (_ & _ & _ & Hminus & Hplus & Hlow & Hi & Hn & Hs).
  unfold of_str. rewrite (strip_id _ _ Hsp), (filter_id _ _ Hus).
  cbn [take_sign]. rewrite Hminus, Hplus.
  assert (H1 : ieq (c :: r) "inf" = false).
  { unfold ieq. cbn [map lit list_ascii_of_string str_eqb].
    rewrite Hlow, Hi. reflexivity. }
  assert (H2 : ieq (c :: r) "infinity" = false).
  { unfold ieq. cbn [map lit list_ascii_of_string str_eqb].
    rewrite Hlow, Hi. reflexivity. }
  rewrite H1, H2. cbn [orb].
  assert (H3 : nan_form (c :: r) = None).
  { unfold nan_form. rewrite Hlow, Hs.
    unfold ieq. cbn [firstn map lit list_ascii_of_string str_eqb].
    rewrite Hlow, Hn. reflexivity. }
  rewrite H3. reflexivity.
Qed.

(** [int.frac] is read as the number its digits make, scaled down by the
    number of fraction digits. *)
Lemma of_str_plain ip fp :
  Forall (fun c => is_digit c = true) ip ->
  Forall (fun c => is_digit c = true) fp ->
  ip <> [] ->
  - Z.of_nat (length fp) + ndigits (digits_val (ip ++ fp)) - 1 <= MAX_EMAX ->
  MIN_ETINY <= - Z.of_nat (length fp) ->
  of_str (ip ++ "."%char :: fp)
  = Ok (Finite false (digits_val (ip ++ fp)) (- Z.of_nat (length fp))).
Proof.
  intros Hip Hfp Hne Hmax Hmin.
  destruct (plain_chars ip fp Hip Hfp) as [Hsp Hus].
  destruct ip as [|c ip']; [contradiction|].
  cbn [app] in *.
  rewrite of_str_starts_with_digit;
    [| inversion Hip; assumption | exact Hsp | exact Hus].
  unfold finite.
  change (c :: ip' ++ "."%char :: fp) with ((c :: ip') ++ "."%char :: fp).
  rewrite (span_digits_app (c :: ip') ("."%char :: fp) Hip eq_refl).
  cbn [ascii_eqb Ascii.eqb Bool.eqb].
  change (ascii_eqb "." ".") with true. cbn iota.
  rewrite <- (app_nil_r fp) at 1.
  rewrite (span_digits_app fp [] Hfp I).
  cbn [app exponent coefficient scale n_int n_frac n_exp].
  replace (0 - Z.of_nat (length fp)) with (- Z.of_nat (length fp)) by lia.
  change (c :: ip' ++ fp) with ((c :: ip') ++ fp).
  replace (_ && _) with true; [reflexivity|].
  symmetry. apply andb_true_intro. split; apply Z.leb_le; assumption.
Qed.

(** A run of digits is read as the integer it spells. *)
Lemma of_str_integer ip :
  Forall (fun c => is_digit c = true) ip ->
  ip <> [] ->
  ndigits (digits_val ip) - 1 <= MAX_EMAX ->
  of_str ip = Ok (Finite false (digits_val ip) 0).
Proof.
  intros Hip Hne Hmax.
  destruct ip as [|c ip']; [contradiction|].
  assert (Hsp : Forall (fun x => is_space x = false) (c :: ip')).
  { eapply Forall_impl; [|exact Hip]. intros x Hx.
    apply (digit_is_plain x Hx). }
  assert (Hus : Forall (fun x => negb (ascii_eqb x "_"%char) = true)
                       (c :: ip')).
  { eapply Forall_impl; [|exact Hip]. intros x Hx.
    destruct (digit_is_plain x Hx) as (_ & -> & _). reflexivity. }
  rewrite of_str_starts_with_digit;
    [| inversion Hip; assumption | exact Hsp | exact Hus].
  unfold finite.
  rewrite <- (app_nil_r (c :: ip')) at 1.
  rewrite (span_digits_app (c :: ip') [] Hip I).
  cbn [app exponent]. unfold coefficient, scale.
  cbn [n_int n_frac n_exp length Z.of_nat]. rewrite app_nil_r.
  change (0 - 0) with 0.
  replace (_ && _) with true; [reflexivity|].
  symmetry. apply andb_true_intro. split; apply Z.leb_le;
    [lia | unfold MIN_ETINY; lia].
Qed.

Lemma zeros_digits k : Forall (fun c => is_digit c = true) (zeros k).
Proof.
  unfold zeros. induction (Z.to_nat k) as [|n IH]; cbn [repeat];
    constructor; [reflexivity | exact IH].
Qed.

Lemma digits_val_zeros k ds : digits_val (zeros k ++ ds) = digits_val ds.
Proof.
  unfold zeros. induction (Z.to_nat k) as [|n IH]; [reflexivity|].
  cbn [repeat app]. exact IH.
Qed.

Lemma zeros_length k : 0 <= k -> Z.of_nat (length (zeros k)) = k.
Proof. intros Hk. unfold zeros. rewrite repeat_length. lia. Qed.

(** What [str()] prints for a plain decimal is read back as that
    decimal. *)
Lemma of_str_to_str c e :
  0 <= c -> e <= 0 -> -6 < ndigits c + e ->
  MIN_ETINY <= e -> e + ndigits c - 1 <= MAX_EMAX ->
  of_str (to_str (Finite false c e)) = Ok (Finite false c e).
Proof.
  intros Hc He Hleft Hmin Hmax.
  destruct (digits_of_spec c Hc) as (Hd & Hv & Hl).
  pose proof (ndigits_pos c) as HL.
  cbn [to_str]. cbv zeta. rewrite Hl.
  replace ((e <=? 0) && (-6 <? e + ndigits c)) with true
    by (symmetry; apply andb_true_intro; split;
        [apply Z.leb_le | apply Z.ltb_lt]; lia).
  rewrite Z.eqb_refl. cbn [app]. rewrite app_nil_r.
  destruct (e + ndigits c <=? 0) eqn:E1.
  - apply Z.leb_le in E1.
    change (lit "0." ++ zeros (- (e + ndigits c)) ++ digits_of c)
      with (["0"%char] ++ "."%char
              :: (zeros (- (e + ndigits c)) ++ digits_of c)).
    assert (Hlen : - Z.of_nat (length (zeros (- (e + ndigits c))
                                        ++ digits_of c)) = e).
    { rewrite length_app, Nat2Z.inj_add, zeros_length, Hl by lia. lia. }
    assert (Hval : digits_val (["0"%char] ++ zeros (- (e + ndigits c))
                                 ++ digits_of c) = c).
    { change (["0"%char] ++ ?l) with ("0"%char :: l).
      change (digits_val ("0"%char :: ?l)) with (digits_val l).
      rewrite digits_val_zeros. exact Hv. }
    rewrite of_str_plain.
    + rewrite Hval, Hlen. reflexivity.
    + repeat constructor.
    + apply Forall_app. split; [apply zeros_digits | exact Hd].
    + discriminate.
    + rewrite Hval, Hlen. exact Hmax.
    + rewrite Hlen. exact Hmin.
  - apply Z.leb_gt in E1.
    destruct (ndigits c <=? e + ndigits c) eqn:E2.
    + apply Z.leb_le in E2. assert (e = 0) as -> by lia.
      replace (0 + ndigits c - ndigits c) with 0 by lia.
      change (zeros 0) with (@nil ascii). rewrite app_nil_r.
      rewrite of_str_integer; [rewrite Hv; reflexivity | exact Hd | | ].
      * intros Hnil. rewrite Hnil in Hl. cbn in Hl. lia.
      * rewrite Hv. lia.
    + apply Z.leb_gt in E2.
      set (k := Z.to_nat (e + ndigits c)).
      assert (Hk : (0 < k < length (digits_of c))%nat) by (subst k; lia).
      assert (Hlen : - Z.of_nat (length (skipn k (digits_of c))) = e).
      { rewrite length_skipn. subst k. lia. }
      assert (Hval : digits_val (firstn k (digits_of c)
                                   ++ skipn k (digits_of c)) = c)
        by (rewrite firstn_skipn; exact Hv).
      assert (Hparts : Forall (fun x => is_digit x = true)
                              (firstn k (digits_of c)) /\
                       Forall (fun x => is_digit x = true)
                              (skipn k (digits_of c))).
      { apply Forall_app. rewrite firstn_skipn. exact Hd. }
      rewrite of_str_plain.
      * rewrite Hval, Hlen. reflexivity.
      * apply Hparts.
      * apply Hparts.
      * intros Hnil. apply (f_equal (@length ascii)) in Hnil.
        rewrite length_firstn in Hnil. cbn in Hnil. lia.
      * rewrite Hval, Hlen. exact Hmax.
      * rewrite Hlen. exact Hmin.
Qed.
End PrintFacts.

(** Every plain decimal in shortest form is printed as a text that the
    round trip reproduces: for a coefficient [c] and an exponent [e <= 0]
    with no trailing zero in the fraction, at most [d] fraction digits, a raw
    amount below [10^28] and [d <= 27], converting the text [str()] prints
    for [c * 10^e] to a raw amount and back gives that text again. *)
Lemma printed_decimals_round_trip (c e : Z) (d : N) :
  0 <= c -> e <= 0 -> - e <= Z.of_N d -> Z.of_N d <= 27 ->
  -6 < Decimal.ndigits c + e ->
  c * 10 ^ (Z.of_N d + e) < 10 ^ 28 ->
  (e = 0 \/ c mod 10 <> 0) ->
  let s := Decimal.to_str (Decimal.Finite false c e) in
  (raw <- EvmTestUsdc.parse_token_amount s d ;;
   EvmTestUsdc.format_token_amount raw d)%result = Ok s.
Proof.
  intros Hc He Hed Hd Hleft Hlt Hnorm s.
  assert (Hdig : Decimal.ndigits c <= 28).
  { destruct (Z.eq_dec c 0) as [->|Hc0]; [vm_compute; discriminate|].
    apply DecimalFacts.ndigits_le; [lia|].
    assert (0 < 10 ^ (Z.of_N d + e)) by (apply Z.pow_pos_nonneg; lia).
    apply Z.le_lt_trans with (c * 10 ^ (Z.of_N d + e)); [nia | exact Hlt]. }
  assert (Hs : Decimal.of_str s = Ok (Decimal.Finite false c e)).
  { apply PrintFacts.of_str_to_str; try assumption;
      unfold Decimal.MIN_ETINY, Decimal.MAX_EMAX; lia. }
  unfold EvmTestUsdc.parse_token_amount, EvmTestUsdc.format_token_amount.
  rewrite Hs. cbn [bind].
  assert (Hpow : Decimal.pow10 d = Ok (Decimal.Finite false (10 ^ Z.of_N d) 0)).
  { unfold Decimal.pow10.
    replace (Z.of_N d <=? Decimal.Emax) with true
      by (symmetry; apply Z.leb_le; unfold Decimal.Emax; lia).
    rewrite Z.min_l, Z.max_l by lia. reflexivity. }
  rewrite Hpow. cbn [bind Decimal.mul xorb].
  destruct (Z.eq_dec c 0) as [-> | Hc0].
  - assert (e = 0) as -> by (destruct Hnorm as [H|H];
                              [exact H | exfalso; apply H; reflexivity]).
    rewrite Z.mul_0_l.
    rewrite DecimalFacts.fix_zero
      by (unfold Decimal.Etiny, Decimal.Emin, Decimal.Emax, Decimal.prec; lia).
    cbn [bind Decimal.to_int Z.leb Z.compare Z.mul Decimal.of_int Z.ltb
         Z.abs Decimal.div xorb].
    replace (10 ^ Z.of_N d =? 0) with false
      by (symmetry; apply Z.eqb_neq; apply Z.pow_nonzero; lia).
    cbn [Z.eqb]. rewrite DecimalFacts.fix_zero
      by (unfold Decimal.Etiny, Decimal.Emin, Decimal.Emax, Decimal.prec; lia).
    reflexivity.
  - assert (Hp : 0 < 10 ^ (Z.of_N d + e)) by (apply Z.pow_pos_nonneg; lia).
    pose proof (AmountFacts.parse_amount_value s d false c e Hs) as Hparse.
    unfold SendUsdcAndVerify.parse_amount in Hparse.
    rewrite Hs, Hpow in Hparse. cbn [bind Decimal.mul xorb] in Hparse.
    rewrite Hparse;
      [ | lia
        | apply Z.le_lt_trans with (c * 10 ^ (Z.of_N d + e));
          [nia | exact Hlt]
        | unfold Decimal.Emax; lia
        | unfold Decimal.Etiny, Decimal.Emin, Decimal.prec; lia
        | unfold Decimal.Etop, Decimal.Emax, Decimal.prec; lia ].
    cbn [bind]. unfold truncated_scale.
    replace (0 <=? Z.of_N d + e) with true
      by (symmetry; apply Z.leb_le; lia).
    rewrite AmountFacts.div_pow10_exact by (try assumption; lia).
    reflexivity.
Qed.

(** * Further properties of the scripts *)

(** ** More about the extractors *)

Module ExtractorFacts.
Import ExtractorSpec.

Lemma is_open_eq ch : is_open ch = true -> ch = "{"%char.
Proof. unfold is_open, ascii_eqb. apply Ascii.eqb_eq. Qed.

Lemma is_close_eq ch : is_close ch = true -> ch = "}"%char.
Proof. unfold is_close, ascii_eqb. apply Ascii.eqb_eq. Qed.

(** What follows a chunk plays no part in finding its end. *)
Lemma split_balanced_more s : forall d b rest t,
  split_balanced d s = Some (b, rest) ->
  split_balanced d (s ++ t) = Some (b, rest ++ t).
Proof.
  induction s as [|ch r IH]; intros d b rest t H; simpl in H; [discriminate|].
  simpl. destruct (is_close ch).
  - destruct d as [|d].
    + inversion H; subst. reflexivity.
    + destruct (split_balanced d r) as [[b' rest']|] eqn:E; [|discriminate].
      inversion H; subst. rewrite (IH _ _ _ t E). reflexivity.
  - destruct (split_balanced _ r) as [[b' rest']|] eqn:E; [|discriminate].
    inversion H; subst. rewrite (IH _ _ _ t E). reflexivity.
Qed.

(** A chunk that closes leaves no brace open; one that does not leaves
    some. *)
Lemma final_depth_after_chunk s : forall d b rest,
  split_balanced d s = Some (b, rest) ->
  final_depth (S d) s = final_depth 0 rest.
Proof.
  induction s as [|ch r IH]; intros d b rest H; simpl in H; [discriminate|].
  cbn [final_depth]. destruct (is_close ch) eqn:Hc.
  - rewrite (close_not_open _ Hc).
    destruct d as [|d].
    + inversion H; subst. reflexivity.
    + destruct (split_balanced d r) as [[b' rest']|] eqn:E; [|discriminate].
      inversion H; subst. apply (IH _ _ _ E).
  - destruct (split_balanced _ r) as [[b' rest']|] eqn:E; [|discriminate].
    inversion H; subst.
    destruct (is_open ch); apply (IH _ _ _ E).
Qed.

Lemma final_depth_unclosed s : forall d,
  split_balanced d s = None -> final_depth (S d) s <> 0%nat.
Proof.
  induction s as [|ch r IH]; intros d H; simpl in H; [discriminate|].
  cbn [final_depth]. destruct (is_close ch) eqn:Hc.
  - rewrite (close_not_open _ Hc).
    destruct d as [|d]; [discriminate|].
    destruct (split_balanced d r) as [[b' rest']|] eqn:E; [discriminate|].
    apply (IH _ E).
  - destruct (split_balanced _ r) as [[b' rest']|] eqn:E; [discriminate|].
    destruct (is_open ch); apply (IH _ E).
Qed.

(** The chunks of a text that leaves no brace open, followed by another
    text, are its own and then the other's. *)
Lemma top_level_chunks_app t : forall fuel s,
  (length s <= fuel)%nat ->
  final_depth 0 s = 0%nat ->
  top_level_chunks (fuel + length t) (s ++ t)
  = top_level_chunks fuel s ++ candidates t.
Proof.
  induction fuel as [|fuel IH]; intros s Hfuel Hd.
  - destruct s; [|simpl in Hfuel; lia].
    simpl. apply top_level_chunks_fuel. lia.
  - destruct s as [|ch r].
    + simpl app. rewrite top_level_chunks_fuel by lia.
      destruct fuel; reflexivity.
    + simpl in Hfuel. cbn [final_depth] in Hd.
      change (S fuel + length t)%nat with (S (fuel + length t)).
      change ((ch :: r) ++ t) with (ch :: (r ++ t)).
      cbn [top_level_chunks].
      destruct (is_open ch) eqn:Ho.
      * destruct (split_balanced 0 r) as [[b rest]|] eqn:E.
        -- rewrite (split_balanced_more _ _ _ _ t E).
           destruct (RunDemoFacts.split_balanced_app _ _ _ _ E) as [Hr _].
           rewrite (final_depth_after_chunk _ _ _ _ E) in Hd.
           rewrite IH; [reflexivity | | exact Hd].
           rewrite Hr, length_app in Hfuel. lia.
        -- exfalso. exact (final_depth_unclosed _ _ E Hd).
      * assert (Hd' : final_depth 0 r = 0%nat)
          by (destruct (is_close ch); exact Hd).
        apply IH; [lia | exact Hd'].
Qed.

Lemma candidates_app s t :
  final_depth 0 s = 0%nat ->
  candidates (s ++ t) = candidates s ++ candidates t.
Proof.
  intros Hd. unfold candidates at 1 2.
  rewrite length_app. apply top_level_chunks_app; [lia | exact Hd].
Qed.

(** Every chunk starts with an opening brace. *)
Lemma chunks_start_open : forall fuel s c,
  In c (top_level_chunks fuel s) -> exists r, c = "{"%char :: r.
Proof.
  induction fuel as [|fuel IH]; intros s c H; [contradiction|].
  destruct s as [|ch r]; [contradiction|].
  cbn [top_level_chunks] in H.
  destruct (is_open ch) eqn:Ho.
  - destruct (split_balanced 0 r) as [[b rest]|]; [|contradiction].
    destruct H as [<- | H].
    + exists b. rewrite (is_open_eq _ Ho). reflexivity.
    + exact (IH _ _ H).
  - exact (IH _ _ H).
Qed.

Section Loops.
Variable J : Type.
Variable json_loads : str -> option J.

(** The stack-based loop computes the contract. *)
Lemma stack_extractor_is_contract text :
  RunDemoWithMock.extract_json_objects J json_loads text
  = valid_objects json_loads text.
Proof.
  unfold RunDemoWithMock.extract_json_objects, valid_objects, candidates.
  apply (RunDemoFacts.loop_top_level J json_loads text (length text) text
           [] []); [lia | reflexivity].
Qed.

(** The copy in automated_recording.py moves as the original does. *)
Local Abbreviation as_original := (AutomatedRecording.as_original J).

Lemma step_as_original text st i ch :
  as_original (AutomatedRecording.step J json_loads text st i ch)
  = RunDemoWithMock.step J json_loads text (as_original st) i ch.
Proof.
  unfold AutomatedRecording.step, RunDemoWithMock.step,
    AutomatedRecording.as_original.
  destruct st as [os stk start]. cbn.
  destruct (is_open ch); [reflexivity|].
  destruct (is_close ch); [|reflexivity].
  destruct (null stk); [reflexivity|].
  destruct (null (removelast stk)), start; reflexivity.
Qed.

Lemma loop_as_original text : forall rest i st,
  as_original (AutomatedRecording.loop J json_loads text i rest st)
  = RunDemoWithMock.loop J json_loads text i rest (as_original st).
Proof.
  induction rest as [|ch r IH]; intros i st; [reflexivity|].
  cbn [AutomatedRecording.loop RunDemoWithMock.loop].
  rewrite IH, step_as_original. reflexivity.
Qed.

Lemma recording_extractor_is_original text :
  AutomatedRecording.extract_json_objects J json_loads text
  = RunDemoWithMock.extract_json_objects J json_loads text.
Proof.
  unfold AutomatedRecording.extract_json_objects,
    RunDemoWithMock.extract_json_objects.
  change (AutomatedRecording.objs J
            (AutomatedRecording.loop J json_loads text 0 text
               (AutomatedRecording.init J)))
    with (RunDemoWithMock.objs J
            (as_original (AutomatedRecording.loop J json_loads text 0 text
                            (AutomatedRecording.init J)))).
  rewrite loop_as_original. reflexivity.
Qed.

(** What the counter-based loop hands to [json.loads]. *)
Lemma counter_loop_slices text : forall rest pre os brace start,
  text = pre ++ rest ->
  Forall (braced_slice json_loads text) os ->
  (forall s, start = Some s ->
     exists p1 p2, pre = p1 ++ "{"%char :: p2 /\ s = length p1) ->
  Forall (braced_slice json_loads text)
    (OneClickTest.objs J
       (OneClickTest.loop J json_loads text (length pre) rest
          (OneClickTest.Build_loop_state J os brace start))).
Proof.
  induction rest as [|ch r IH]; intros pre os brace start Ht Hos Hst;
    [exact Hos|].
  cbn [OneClickTest.loop]. unfold OneClickTest.step. cbn.
  assert (Hnext : text = (pre ++ [ch]) ++ r)
    by (rewrite Ht, <- app_assoc; reflexivity).
  assert (Hlen : S (length pre) = length (pre ++ [ch]))
    by (rewrite length_app; simpl; lia).
  rewrite Hlen.
  assert (Hkeep : forall s, start = Some s ->
            exists p1 p2, pre ++ [ch] = p1 ++ "{"%char :: p2 /\ s = length p1).
  { intros s Hs. destruct (Hst s Hs) as (p1 & p2 & Hp & Hl).
    exists p1, (p2 ++ [ch]). split; [|exact Hl].
    rewrite Hp, <- app_assoc. reflexivity. }
  destruct (is_open ch) eqn:Ho.
  - apply IH; [exact Hnext | exact Hos |].
    destruct (brace =? 0); [|exact Hkeep].
    intros s Hs. inversion Hs; subst s.
    exists pre, []. rewrite (is_open_eq _ Ho). split; reflexivity.
  - destruct (is_close ch) eqn:Hc.
    + destruct (brace - 1 =? 0), start as [s|];
        try (apply IH; [exact Hnext | exact Hos | exact Hkeep]).
      apply IH; [exact Hnext | | discriminate].
      apply Forall_app. split; [exact Hos|].
      destruct (json_loads (slice text s (length pre + 1))) as [o|] eqn:E;
        [|constructor].
      constructor; [|constructor].
      destruct (Hst s eq_refl) as (p1 & p2 & Hp & Hl).
      exists s, (length pre + 1)%nat, p2. split; [|exact E].
      rewrite Ht, Hp, Hl, (is_close_eq _ Hc).
      replace (length (p1 ++ "{"%char :: p2) + 1)%nat
        with (length p1 + length ("{"%char :: p2 ++ ["}"%char]))%nat
        by (rewrite length_app; simpl; rewrite length_app; simpl; lia).
      rewrite <- app_assoc.
      change (p1 ++ ("{"%char :: p2) ++ "}"%char :: r)
        with (p1 ++ ("{"%char :: p2) ++ ["}"%char] ++ r).
      rewrite (app_assoc ("{"%char :: p2) ["}"%char] r).
      apply slice_middle.
    + apply IH; [exact Hnext | exact Hos | exact Hkeep].
Qed.

Lemma counter_extractor_slices text :
  Forall (braced_slice json_loads text)
         (OneClickTest.extract_json_objects J json_loads text).
Proof.
  unfold OneClickTest.extract_json_objects.
  apply (counter_loop_slices text text [] [] 0 None);
    [reflexivity | constructor | discriminate].
Qed.
End Loops.

(** [json.loads] makes an object of a text that starts with a brace, or
    nothing. *)
Lemma members_object : forall fuel s acc v r,
  Json.members fuel s acc = Some (v, r) -> exists d, v = Json.JObj d.
Proof.
  induction fuel as [|f IH]; intros s acc v r H; [discriminate|].
  cbn [Json.members] in H.
  destruct (Json.scanstring _ s []) as [[key r0]|]; [|discriminate].
  destruct (Json.skip_ws r0) as [|c r1]; [discriminate|].
  destruct (ascii_eqb c ":"%char); [|discriminate].
  destruct (Json.scan_once f (Json.skip_ws r1)) as [[v1 r2]|]; [|discriminate].
  destruct (Json.skip_ws r2) as [|c2 r3]; [discriminate|].
  destruct (ascii_eqb c2 "}"%char).
  - inversion H; subst. eexists. reflexivity.
  - destruct (ascii_eqb c2 ","%char); [|discriminate].
    destruct (Json.skip_ws r3) as [|q r4]; [discriminate|].
    destruct (ascii_eqb q dquote); [|discriminate].
    exact (IH _ _ _ _ H).
Qed.

Lemma loads_of_brace r o :
  Json.loads ("{"%char :: r) = Some o -> exists d, o = Json.JObj d.
Proof.
  unfold Json.loads.
  change (Json.skip_ws ("{"%char :: r)) with ("{"%char :: r).
  replace (2 * length ("{"%char :: r) + 2)%nat
    with (S (2 * length r + 3)) by (simpl; lia).
  cbn [Json.scan_once].
  change (ascii_eqb "{"%char dquote) with false.
  change (ascii_eqb "{"%char "{"%char) with true.
  cbv iota.
  destruct (Json.skip_ws r) as [|c' r']; [discriminate|].
  destruct (ascii_eqb c' "}"%char).
  - destruct (Json.skip_ws r'); [|discriminate].
    intros H; inversion H. eexists. reflexivity.
  - destruct (ascii_eqb c' dquote); [|discriminate].
    destruct (Json.members _ r' []) as [[v r2]|] eqn:E; [|discriminate].
    destruct (Json.skip_ws r2); [|discriminate].
    intros H; inversion H; subst.
    exact (members_object _ _ _ _ _ E).
Qed.
End ExtractorFacts.

(** X1. On a text in which no closing brace comes before its opening one,
    the counter-based extractor of one_click_test.py returns what the
    stack-based one of run_demo_with_mock.py returns, which is what
    [json.loads] makes of the top-level balanced chunks, in order. *)
Theorem counter_extractor_on_matched_text :
  forall (J : Type) (json_loads : str -> option J) (text : str),
    ExtractorSpec.closers_matched 0 text = true ->
    OneClickTest.extract_json_objects J json_loads text
    = RunDemoWithMock.extract_json_objects J json_loads text /\
    OneClickTest.extract_json_objects J json_loads text
    = ExtractorSpec.valid_objects json_loads text.
Proof.
  intros J json_loads text H. split.
  - symmetry. apply ExtractorAgreement.extractors_agree_when_matched.
    exact H.
  - apply ExtractorAgreement.counter_extractor_meets_contract_when_matched.
    exact H.
Qed.

Lemma counter_extractor_on_matched_text_witness :
  ExtractorSpec.closers_matched 0 (lit "log {} and {{}}") = true /\
  OneClickTest.extract_json_objects Json.json Json.loads
    (lit "log {} and {{}}")
  = RunDemoWithMock.extract_json_objects Json.json Json.loads
      (lit "log {} and {{}}") /\
  OneClickTest.extract_json_objects Json.json Json.loads
    (lit "log {} and {{}}")
  = ExtractorSpec.valid_objects Json.loads (lit "log {} and {{}}").
Proof.
  split; [reflexivity|].
  apply (counter_extractor_on_matched_text Json.json Json.loads
           (lit "log {} and {{}}")).
  reflexivity.
Defined.

(** X2. The extractor of automated_recording.py is a copy that behaves as
    the one of run_demo_with_mock.py on every text and for every behaviour
    of [json.loads]: it returns, in order, what [json.loads] makes of each
    top-level balanced chunk. *)
Theorem recording_extractor_meets_contract :
  forall (J : Type) (json_loads : str -> option J) (text : str),
    AutomatedRecording.extract_json_objects J json_loads text
    = RunDemoWithMock.extract_json_objects J json_loads text /\
    AutomatedRecording.extract_json_objects J json_loads text
    = ExtractorSpec.valid_objects json_loads text.
Proof.
  intros J json_loads text.
  rewrite ExtractorFacts.recording_extractor_is_original.
  split; [reflexivity | apply ExtractorFacts.stack_extractor_is_contract].
Qed.

(** X3. Extraction goes through concatenation: when the first text leaves
    no brace open at its end, the stack-based extractors return for the two
    texts joined the objects of the first followed by the objects of the
    second. *)
Theorem extraction_of_joined_texts :
  forall (J : Type) (json_loads : str -> option J) (s t : str),
    final_depth 0 s = 0%nat ->
    RunDemoWithMock.extract_json_objects J json_loads (s ++ t)
    = RunDemoWithMock.extract_json_objects J json_loads s
      ++ RunDemoWithMock.extract_json_objects J json_loads t /\
    AutomatedRecording.extract_json_objects J json_loads (s ++ t)
    = AutomatedRecording.extract_json_objects J json_loads s
      ++ AutomatedRecording.extract_json_objects J json_loads t.
Proof.
  intros J json_loads s t Hd.
  rewrite !ExtractorFacts.recording_extractor_is_original.
  rewrite !ExtractorFacts.stack_extractor_is_contract.
  unfold ExtractorSpec.valid_objects.
  rewrite (ExtractorFacts.candidates_app s t Hd), flat_map_app.
  split; reflexivity.
Qed.

Lemma extraction_of_joined_texts_witness :
  final_depth 0 (lit "} {} x") = 0%nat /\
  RunDemoWithMock.extract_json_objects Json.json Json.loads
    (lit "} {} x" ++ lit "[{}]")
  = RunDemoWithMock.extract_json_objects Json.json Json.loads (lit "} {} x")
    ++ RunDemoWithMock.extract_json_objects Json.json Json.loads (lit "[{}]") /\
  AutomatedRecording.extract_json_objects Json.json Json.loads
    (lit "} {} x" ++ lit "[{}]")
  = AutomatedRecording.extract_json_objects Json.json Json.loads
      (lit "} {} x")
    ++ AutomatedRecording.extract_json_objects Json.json Json.loads
         (lit "[{}]").
Proof.
  split; [reflexivity|].
  apply (extraction_of_joined_texts Json.json Json.loads
           (lit "} {} x") (lit "[{}]")).
  reflexivity.
Defined.

(** X4. Whatever the text, stray closing braces included, every value the
    counter-based extractor of one_click_test.py returns is what
    [json.loads] made of a slice [text[a:b]] that starts with an opening
    brace and ends with a closing one. *)
Theorem counter_extractor_returns_parsed_slices :
  forall (J : Type) (json_loads : str -> option J) (text : str),
    Forall (braced_slice json_loads text)
           (OneClickTest.extract_json_objects J json_loads text).
Proof.
  intros J json_loads text.
  apply ExtractorFacts.counter_extractor_slices.
Qed.

(** X5. With Python's [json.loads], the three extractors return JSON
    objects only: a chunk starts with a brace, and [json.loads] makes a
    dict of such a text or raises. *)
Theorem extracted_values_are_objects :
  forall text : str,
    let is_object := fun o => exists d, o = Json.JObj d in
    Forall is_object
      (RunDemoWithMock.extract_json_objects Json.json Json.loads text) /\
    Forall is_object
      (AutomatedRecording.extract_json_objects Json.json Json.loads text) /\
    Forall is_object
      (OneClickTest.extract_json_objects Json.json Json.loads text).
Proof.
  intros text is_object.
  assert (Hstack : Forall is_object
            (RunDemoWithMock.extract_json_objects Json.json Json.loads text)).
  { rewrite ExtractorFacts.stack_extractor_is_contract.
    unfold ExtractorSpec.valid_objects. apply Forall_forall. intros o Ho.
    apply in_flat_map in Ho. destruct Ho as (c & Hc & Ho).
    destruct (ExtractorFacts.chunks_start_open _ _ _ Hc) as [r ->].
    destruct (Json.loads ("{"%char :: r)) as [o'|] eqn:E; [|contradiction].
    destruct Ho as [<- | []].
    exact (ExtractorFacts.loads_of_brace _ _ E). }
  split; [exact Hstack|]. split.
  - rewrite ExtractorFacts.recording_extractor_is_original. exact Hstack.
  - eapply Forall_impl;
      [|apply (ExtractorFacts.counter_extractor_slices Json.json Json.loads
                 text)].
    intros o (a & b & r & Hs & Hl). rewrite Hs in Hl.
    exact (ExtractorFacts.loads_of_brace _ _ Hl).
Qed.

(** ** one_click_test.py: the status codes and the exit status *)

Module OneClickFacts.
Import Json OneClickTestMain.

#[local] Arguments lit : simpl never.

Section Facts.
Variable int_of_text : ustr -> option Z.

Local Abbreviation codes := (find_status_codes int_of_text).
Local Abbreviation not_200 := (fun c : Z => negb (c =? 200)).

Lemma keep_non200 : forall (l : list Z) (acc : list Z),
  fold_left (fun acc c => if c =? 200 then acc else acc ++ [c]) l acc
  = acc ++ filter not_200 l.
Proof.
  induction l as [|c l IH]; intros acc; cbn [fold_left filter].
  - symmetry. apply app_nil_r.
  - rewrite IH. destruct (c =? 200); cbn [negb].
    + reflexivity.
    + rewrite <- app_assoc. reflexivity.
Qed.

(** The two loops of [main] keep, in order, the codes that are not 200. *)
Lemma collect_non200_filter objs :
  collect_non200 int_of_text objs = filter not_200 (flat_map codes objs).
Proof.
  unfold collect_non200.
  assert (G : forall objs acc,
            fold_left
              (fun non200 o =>
                 fold_left (fun acc c => if c =? 200 then acc else acc ++ [c])
                           (codes o) non200) objs acc
            = acc ++ filter not_200 (flat_map codes objs)).
  { induction objs0 as [|o objs0 IH]; intros acc; cbn [fold_left flat_map].
    - symmetry. apply app_nil_r.
    - rewrite IH, keep_non200, filter_app, app_assoc. reflexivity. }
  apply (G objs []).
Qed.

Lemma null_non200 (l : list Z) :
  if null (filter not_200 l)
  then Forall (fun c => c = 200) l
  else Exists (fun c => c <> 200) l.
Proof.
  induction l as [|c l IH]; cbn [filter]; [constructor|].
  destruct (c =? 200) eqn:E; cbn [negb].
  - apply Z.eqb_eq in E.
    destruct (null (filter not_200 l)).
    + constructor; assumption.
    + apply Exists_cons_tl. exact IH.
  - apply Z.eqb_neq in E. cbn [null]. apply Exists_cons_hd. exact E.
Qed.

(** A value in which no object has the key reports no code. *)
Lemma find_status_codes_without_key :
  forall o, no_status_key o = true -> codes o = [].
Proof.
  fix IH 1. intros o. destruct o as [ | b | n | f | s | l | d];
    try reflexivity; cbn [no_status_key find_status_codes].
  - induction l as [|i l IHl]; [reflexivity|].
    intros H. apply andb_prop in H. destruct H as [H1 H2].
    rewrite (IH i H1). exact (IHl H2).
  - destruct (dict_get d (ulit "status_code")); [discriminate|].
    induction d as [|[k v] d IHd]; [reflexivity|].
    intros H. apply andb_prop in H. destruct H as [H1 H2].
    rewrite (IH v H1). exact (IHd H2).
Qed.

Lemma flat_map_without_key objs :
  forallb no_status_key objs = true -> flat_map codes objs = [].
Proof.
  induction objs as [|o objs IH]; [reflexivity|].
  cbn [forallb flat_map]. intros H. apply andb_prop in H. destruct H as [H1 H2].
  rewrite (find_status_codes_without_key o H1), (IH H2). reflexivity.
Qed.
End Facts.
End OneClickFacts.

(** X6. one_click_test.py ends in one of three exits, or with a traceback
    when a call outside a [try] raises: 1 only when the mock was not ready
    in time; otherwise the demo has returned and the exit is 0 when every
    status code found in the objects extracted from its output is 200, and
    2 when one is not.  The demo's return code and its error output play no
    part. *)
Theorem one_click_exit_status :
  forall (int_of_text : Json.ustr -> option Z) (w : OneClickTestMain.world),
    match snd (OneClickTestMain.main int_of_text w) with
    | inl (Exit c) =>
        (c = 1 /\ OneClickTestMain.wait_for_mock w = false) \/
        (OneClickTestMain.wait_for_mock w = true /\
         exists res,
           OneClickTestMain.run_demo w = Ok res /\
           let found :=
             flat_map (OneClickTestMain.find_status_codes int_of_text)
               (OneClickTest.extract_json_objects Json.json Json.loads
                  (stdout res)) in
           (c = 0 /\ Forall (fun x => x = 200) found) \/
           (c = 2 /\ Exists (fun x => x <> 200) found))
    | inl (Uncaught _) => True
    | inr _ => False
    end.
Proof.
  intros int_of_text w. unfold OneClickTestMain.main.
  destruct (OneClickTestMain.mkdir w) as [[]|]; cbn; [|exact I].
  destruct (OneClickTestMain.write_log w []) as [[]|]; cbn; [|exact I].
  destruct (OneClickTestMain.start_mock w) as [[]|]; cbn; [|exact I].
  destruct (OneClickTestMain.wait_for_mock w); cbn.
  - destruct (OneClickTestMain.run_demo w) as [res|]; cbn; [|exact I].
    destruct (OneClickTestMain.write_log w _) as [[]|]; cbn; [|exact I].
    rewrite OneClickFacts.collect_non200_filter.
    pose proof (OneClickFacts.null_non200
                  (flat_map (OneClickTestMain.find_status_codes int_of_text)
                     (OneClickTest.extract_json_objects Json.json Json.loads
                        (stdout res)))) as Hn.
    destruct (null (OneClickTest.extract_json_objects Json.json Json.loads
                      (stdout res))); cbn.
    + destruct (null (filter _ _)); cbn; right; (split; [reflexivity|]);
        exists res; (split; [reflexivity|]); [left | right];
        (split; [reflexivity | exact Hn]).
    + destruct (OneClickTestMain.write_last_json w _) as [[]|]; cbn;
        [|exact I].
      destruct (null (filter _ _)); cbn; right; (split; [reflexivity|]);
        exists res; (split; [reflexivity|]); [left | right];
        (split; [reflexivity | exact Hn]).
  - destruct (OneClickTestMain.communicate w); cbn;
      (destruct (OneClickTestMain.kill w) as [[]|]; cbn; [|exact I];
       destruct (OneClickTestMain.write_log w _) as [[]|]; cbn; [|exact I];
       left; split; reflexivity).
Qed.

(** X7. one_click_test.py passes when there is nothing to check: once the
    mock is ready and the demo has returned, a run in which no extracted
    object holds a ['status_code'] key exits 0, whatever the demo's return
    code and error output; so does a run whose demo printed no JSON at
    all. *)
Theorem one_click_passes_without_status_codes :
  forall (int_of_text : Json.ustr -> option Z) (w : OneClickTestMain.world)
         (res : completed_process),
    OneClickTestMain.mkdir w = Ok tt ->
    OneClickTestMain.start_mock w = Ok tt ->
    OneClickTestMain.wait_for_mock w = true ->
    OneClickTestMain.run_demo w = Ok res ->
    (forall t, OneClickTestMain.write_log w t = Ok tt) ->
    (forall l, OneClickTestMain.write_last_json w l = Ok tt) ->
    forallb OneClickTestMain.no_status_key
      (OneClickTest.extract_json_objects Json.json Json.loads (stdout res))
    = true ->
    snd (OneClickTestMain.main int_of_text w) = inl (Exit 0).
Proof.
  intros int_of_text w res Hmk Hstart Hready Hrun Hlog Hlast Hkeys.
  unfold OneClickTestMain.main.
  rewrite Hmk, Hlog, Hstart, Hready, Hrun. cbn.
  rewrite Hlog. cbn.
  rewrite OneClickFacts.collect_non200_filter.
  rewrite (OneClickFacts.flat_map_without_key int_of_text _ Hkeys).
  destruct (null (OneClickTest.extract_json_objects Json.json Json.loads
                    (stdout res))); cbn; [reflexivity|].
  rewrite Hlast. reflexivity.
Qed.

Lemma one_click_passes_without_status_codes_witness :
  let w := RunnerRuns.one_click_world true RunnerRuns.crashed_demo in
  returncode RunnerRuns.crashed_demo = 1 /\
  snd (OneClickTestMain.main (fun _ => None) w) = inl (Exit 0).
Proof.
  split; [reflexivity|].
  apply (one_click_passes_without_status_codes (fun _ => None)
           (RunnerRuns.one_click_world true RunnerRuns.crashed_demo)
           RunnerRuns.crashed_demo); reflexivity.
Defined.

(** X8. run_demo_with_mock.py hands on the demo's return code: when the
    system calls of the runner succeed, it exits 1 if the mock was not
    ready in time, otherwise calls [sys.exit] with the demo's return code
    when that is not zero and ends normally when it is zero; an exception
    of the demo call (its timeout) is not caught. *)
Theorem run_demo_with_mock_exit_status :
  forall w : RunDemoWithMockMain.world,
    RunDemoWithMockMain.start_mock w = Ok tt ->
    RunDemoWithMockMain.kill w = Ok tt ->
    (forall t, RunDemoWithMockMain.write_log w t = Ok tt) ->
    (forall l, RunDemoWithMockMain.write_last_tx w l = Ok tt) ->
    snd (RunDemoWithMockMain.main w)
    = if RunDemoWithMockMain.wait_for_mock w then
        match RunDemoWithMockMain.run_demo w with
        | Ok res =>
            if returncode res =? 0 then inr tt
            else inl (Exit (returncode res))
        | Raise e => inl (Uncaught e)
        end
      else inl (Exit 1).
Proof.
  intros w Hstart Hkill Hlog Hlast.
  unfold RunDemoWithMockMain.main. rewrite Hstart. cbn.
  destruct (RunDemoWithMockMain.wait_for_mock w); cbn.
  - destruct (RunDemoWithMockMain.run_demo w) as [res|]; cbn;
      [|reflexivity].
    rewrite Hlog. cbn.
    destruct (null (RunDemoWithMock.extract_json_objects Json.json
                      Json.loads (stdout res))); cbn.
    + destruct (returncode res =? 0); reflexivity.
    + rewrite Hlast. cbn. destruct (returncode res =? 0); reflexivity.
  - destruct (RunDemoWithMockMain.communicate w); cbn;
      rewrite Hkill; reflexivity.
Qed.

Lemma run_demo_with_mock_exit_status_witness :
  snd (RunDemoWithMockMain.main
         (RunnerRuns.run_demo_world true
            {| stdout := lit "{}"; stderr := []; returncode := 3 |}))
  = inl (Exit 3) /\
  snd (RunDemoWithMockMain.main
         (RunnerRuns.run_demo_world false RunnerRuns.crashed_demo))
  = inl (Exit 1).
Proof.
  split.
  - apply (run_demo_with_mock_exit_status
             (RunnerRuns.run_demo_world true
                {| stdout := lit "{}"; stderr := []; returncode := 3 |}));
      reflexivity.
  - apply (run_demo_with_mock_exit_status
             (RunnerRuns.run_demo_world false RunnerRuns.crashed_demo));
      reflexivity.
Defined.

(** X9. automated_recording.py does not hand on the demo's return code:
    when the system calls of the runner succeed, it exits 1 if the mock was
    not ready in time and otherwise ends normally (status 0) as soon as the
    demo call has returned, whatever the return code; the return code is
    only printed. *)
Theorem recording_runner_exit_status :
  forall (a : AutomatedRecording.args) (w : AutomatedRecording.world),
    AutomatedRecording.start_mock w = Ok tt ->
    AutomatedRecording.kill w = Ok tt ->
    (forall t, AutomatedRecording.write_log w t = Ok tt) ->
    (forall l, AutomatedRecording.write_last_tx w l = Ok tt) ->
    snd (AutomatedRecording.main a w)
    = match AutomatedRecording.wait_for_mock w with
      | Ok true =>
          match AutomatedRecording.run_demo w (AutomatedRecording.timeout a)
          with
          | Ok _ => inr tt
          | Raise e => inl (Uncaught e)
          end
      | Ok false => inl (Exit 1)
      | Raise e => inl (Uncaught e)
      end.
Proof.
  intros a w Hstart Hkill Hlog Hlast.
  unfold AutomatedRecording.main, AutomatedRecording.start,
    AutomatedRecording.await_mock, AutomatedRecording.lift.
  rewrite Hstart. cbn.
  destruct (AutomatedRecording.wait_for_mock w) as [[]|]; cbn;
    [| |reflexivity].
  - destruct (AutomatedRecording.prepare a w) as [t2 [s|p]] eqn:Hp; cbn.
    + exfalso. revert Hp.
      unfold AutomatedRecording.prepare,
        AutomatedRecording.start_ffmpeg_recording.
      destruct (AutomatedRecording.record a); cbn; [|discriminate].
      destruct (AutomatedRecording.which_ffmpeg w); cbn; [|discriminate].
      destruct (AutomatedRecording.popen_ffmpeg w); cbn; discriminate.
    + unfold AutomatedRecording.run_and_save. cbn.
      destruct (AutomatedRecording.run_demo w _) as [res|]; cbn;
        [|reflexivity].
      rewrite Hlog. cbn.
      destruct (null (AutomatedRecording.extract_json_objects Json.json
                        Json.loads (stdout res))); cbn;
        [|rewrite Hlast; cbn];
        destruct (returncode res =? 0); reflexivity.
  - destruct (AutomatedRecording.communicate w); cbn;
      rewrite Hkill; reflexivity.
Qed.

Lemma recording_runner_exit_status_witness :
  returncode RunnerRuns.crashed_demo = 1 /\
  snd (AutomatedRecording.main (RunnerRuns.recording_args false)
         (RunnerRuns.recording_world (Ok RunnerRuns.crashed_demo)))
  = inr tt.
Proof.
  split; [reflexivity|].
  apply (recording_runner_exit_status (RunnerRuns.recording_args false)
           (RunnerRuns.recording_world (Ok RunnerRuns.crashed_demo)));
    reflexivity.
Defined.

Module RecordingFacts.
Import AutomatedRecording.

(** A run in which a recorder was started ends with the [finally] clause
    for a running recorder. *)
Lemma main_with_recorder a w :
  start_mock w = Ok tt ->
  wait_for_mock w = Ok true ->
  record a = true ->
  which_ffmpeg w = true ->
  popen_ffmpeg w = Ok tt ->
  exists t0, fst (main a w) = t0 ++ stop_recorder w ++ stop_mock w.
Proof.
  intros Hstart Hready Hrec Hwhich Hpopen.
  assert (H0 : exists t, start w = (t, inr tt)).
  { unfold start. rewrite Hstart. eexists. reflexivity. }
  assert (H1 : exists t, await_mock w = (t, inr true)).
  { unfold await_mock. rewrite Hready. eexists. reflexivity. }
  assert (H2 : exists t, prepare a w = (t, inr true)).
  { unfold prepare, start_ffmpeg_recording.
    rewrite Hrec, Hwhich, Hpopen. eexists. reflexivity. }
  destruct H0 as [t0 H0], H1 as [t1 H1], H2 as [t2 H2].
  unfold main, lift. rewrite H0, H1, H2. cbn [fst snd].
  destruct (run_and_save a w) as [t3 r]. cbn [fst snd].
  exists (map Out t0 ++ map Out t1 ++ map Out t2 ++ map Out t3).
  unfold cleanup. rewrite <- !app_assoc. reflexivity.
Qed.
End RecordingFacts.

(** X10. Once automated_recording.py has started a recorder, its [finally]
    clause stops it however the rest of the run goes, also when the demo
    call raises or a file cannot be written: the run ends with the
    [finally] clause, in which the recorder is asked to terminate and is
    killed unless it has ended within the three seconds the runner waits
    for it; the mock is asked to terminate after it. *)
Theorem recorder_is_always_stopped :
  forall (a : AutomatedRecording.args) (w : AutomatedRecording.world),
    AutomatedRecording.start_mock w = Ok tt ->
    AutomatedRecording.wait_for_mock w = Ok true ->
    AutomatedRecording.record a = true ->
    AutomatedRecording.which_ffmpeg w = true ->
    AutomatedRecording.popen_ffmpeg w = Ok tt ->
    let t := fst (AutomatedRecording.main a w) in
    (exists t0,
       t = t0
           ++ AutomatedRecording.Out (Message (lit "Stopping ffmpeg recording..."))
              :: AutomatedRecording.Terminate AutomatedRecording.Recorder
              :: (if match AutomatedRecording.terminate w
                               AutomatedRecording.Recorder with
                     | Ok _ => true
                     | Raise _ => false
                     end
                  then [AutomatedRecording.Wait AutomatedRecording.Recorder]
                  else [])
           ++ (if match AutomatedRecording.terminate w
                             AutomatedRecording.Recorder,
                           AutomatedRecording.wait w
                             AutomatedRecording.Recorder with
                   | Ok _, Ok _ => true
                   | _, _ => false
                   end
               then []
               else [AutomatedRecording.Kill AutomatedRecording.Recorder])
           ++ AutomatedRecording.stop_mock w) /\
    In (AutomatedRecording.Terminate AutomatedRecording.Recorder) t /\
    (In (AutomatedRecording.Kill AutomatedRecording.Recorder) t \/
     AutomatedRecording.terminate w AutomatedRecording.Recorder = Ok tt /\
     AutomatedRecording.wait w AutomatedRecording.Recorder = Ok tt) /\
    In (AutomatedRecording.Terminate AutomatedRecording.Mock) t.
Proof.
  intros a w Hstart Hready Hrec Hwhich Hpopen t.
  assert (Hend : exists t0,
            t = t0 ++ AutomatedRecording.stop_recorder w
                   ++ AutomatedRecording.stop_mock w)
    by (apply RecordingFacts.main_with_recorder; assumption).
  destruct Hend as [t0 Hend]. rewrite Hend.
  unfold AutomatedRecording.stop_recorder, AutomatedRecording.stop_mock.
  split; [|split; [|split]].
  - exists t0.
    destruct (AutomatedRecording.terminate w AutomatedRecording.Recorder)
      as [[]|];
      [destruct (AutomatedRecording.wait w AutomatedRecording.Recorder)
         as [[]|]|]; reflexivity.
  - apply in_or_app. right. right. left. reflexivity.
  - destruct (AutomatedRecording.terminate w AutomatedRecording.Recorder)
      as [[]|];
      [destruct (AutomatedRecording.wait w AutomatedRecording.Recorder)
         as [[]|]|].
    + right. split; reflexivity.
    + left. apply in_or_app. right. cbn. auto.
    + left. apply in_or_app. right. cbn. auto.
  - apply in_or_app. right. apply in_or_app. right. left. reflexivity.
Qed.

Lemma recorder_is_always_stopped_witness :
  let t := fst (AutomatedRecording.main (RunnerRuns.recording_args true)
                  (RunnerRuns.recording_world (Raise LibraryError))) in
  (exists t0,
     t = t0
         ++ [ AutomatedRecording.Out (Message (lit "Stopping ffmpeg recording..."));
              AutomatedRecording.Terminate AutomatedRecording.Recorder;
              AutomatedRecording.Wait AutomatedRecording.Recorder;
              AutomatedRecording.Kill AutomatedRecording.Recorder;
              AutomatedRecording.Terminate AutomatedRecording.Mock;
              AutomatedRecording.Wait AutomatedRecording.Mock ]) /\
  In (AutomatedRecording.Terminate AutomatedRecording.Recorder) t /\
  (In (AutomatedRecording.Kill AutomatedRecording.Recorder) t \/
   Ok tt = Ok tt /\ Raise LibraryError = Ok tt) /\
  In (AutomatedRecording.Terminate AutomatedRecording.Mock) t.
Proof.
  apply (recorder_is_always_stopped (RunnerRuns.recording_args true)
           (RunnerRuns.recording_world (Raise LibraryError)));
    reflexivity.
Defined.

(** ** run_facilitator_forever.py *)

Module LauncherFacts.
Import RunFacilitatorForever.

#[local] Arguments lit : simpl never.

(** The server answered in this round. *)
Local Abbreviation answered :=
  (fun r => match wait_for_ready r with Ok true => true | _ => false end).

(** The round ends with the process gone and nothing raised. *)
Local Abbreviation restartable :=
  (fun r => start_uvicorn_log r = Ok tt /\
            (exists b, wait_for_ready r = Ok b) /\
            wait r <> Interrupted /\
            interrupt r = None).

Lemma opened_app t1 t2 : opened (t1 ++ t2) = (opened t1 + opened t2)%nat.
Proof. unfold opened. rewrite filter_app, length_app. reflexivity. Qed.

Lemma started_app t1 t2 : started (t1 ++ t2) = (started t1 + started t2)%nat.
Proof. unfold started. rewrite filter_app, length_app. reflexivity. Qed.

(** The browser is opened while [first_time] holds, and that ends it. *)
Lemma loop_opens ob : forall rounds ft,
  (opened (fst (loop ob ft rounds)) <= (if ob && ft then 1 else 0))%nat.
Proof.
  induction rounds as [|r rounds IH]; intros ft; cbn [loop].
  - cbn. lia.
  - destruct (interrupted_at r InStart); [cbn; lia|].
    destruct (start_uvicorn_log r) as [[]|]; [|cbn; lia].
    destruct (interrupted_at r InReadyCheck); [cbn; lia|].
    destruct (wait_for_ready r) as [ready|]; [|cbn; lia].
    destruct (interrupted_at r InReport); [cbn; lia|].
    specialize (IH (if ready && (ob && ft) then false else ft)).
    destruct (loop ob _ rounds) as [t s]. cbn [fst] in IH.
    destruct (interrupted_at r InBrowser), (interrupted_at r InSleep),
      (interrupted_at r InHandler), (wait r), ready, ob, ft;
      cbn in *; rewrite ?opened_app; unfold opened in *; cbn in *; lia.
Qed.

(** Rounds that end with the process gone are all run. *)
Lemma loop_restarts ob : forall rounds ft,
  Forall restartable rounds ->
  snd (loop ob ft rounds) = Running /\
  started (fst (loop ob ft rounds)) = length rounds /\
  opened (fst (loop ob ft rounds))
  = (if ob && ft && existsb answered rounds then 1 else 0)%nat.
Proof.
  induction rounds as [|r rounds IH]; intros ft H; cbn [loop].
  - cbn. rewrite andb_false_r. auto.
  - inversion H as [|? ? (Hs & (b & Hr) & Hw & Hi) Hrest]; subst.
    unfold interrupted_at. rewrite Hi.
    cbn [existsb]. rewrite Hs, Hr. rewrite andb_false_r.
    specialize (IH (if b && (ob && ft) then false else ft) Hrest).
    destruct IH as (IH1 & IH2 & IH3).
    destruct (wait r) as [code| |e]; [|congruence|];
      (destruct (loop ob _ rounds) as [t s]; cbn [fst snd] in *;
       split; [exact IH1|];
       destruct b, ob, ft; cbn in *;
         rewrite ?started_app, ?opened_app; unfold started, opened in *;
         cbn in *; rewrite ?IH2, ?IH3;
         (split; [reflexivity || lia|]);
         try reflexivity;
         try (destruct (existsb _ rounds); reflexivity)).
Qed.



Lemma main_opened ob rounds :
  opened (fst (main ob rounds)) = opened (fst (loop ob true rounds)).
Proof.
  unfold main. destruct (loop ob true rounds) as [t s]. cbn [fst].
  change (Say (lit "Starting facilitator launcher for") :: t ++ ?x)
    with ([Say (lit "Starting facilitator launcher for")] ++ t ++ x).
  rewrite !opened_app. destruct s; cbn; lia.
Qed.

Lemma main_started ob rounds :
  started (fst (main ob rounds)) = started (fst (loop ob true rounds)).
Proof.
  unfold main. destruct (loop ob true rounds) as [t s]. cbn [fst].
  change (Say (lit "Starting facilitator launcher for") :: t ++ ?x)
    with ([Say (lit "Starting facilitator launcher for")] ++ t ++ x).
  rewrite !started_app. destruct s; cbn; lia.
Qed.

Lemma main_status ob rounds :
  snd (main ob rounds) = snd (loop ob true rounds).
Proof.
  unfold main. destruct (loop ob true rounds) as [t s]. reflexivity.
Qed.
End LauncherFacts.

(** X11. run_facilitator_forever.py opens the browser at most once in a
    run, however many times the server is restarted and answers again, and
    never when [OPEN_FACILITATOR_BROWSER] turns it off. *)
Theorem launcher_opens_browser_at_most_once :
  forall (OPEN_BROWSER : bool) (rounds : list RunFacilitatorForever.round),
    (RunFacilitatorForever.opened
       (fst (RunFacilitatorForever.main OPEN_BROWSER rounds)) <= 1)%nat /\
    RunFacilitatorForever.opened
      (fst (RunFacilitatorForever.main false rounds)) = 0%nat.
Proof.
  intros ob rounds. rewrite !LauncherFacts.main_opened. split.
  - pose proof (LauncherFacts.loop_opens ob rounds true) as H.
    destruct (ob && true); lia.
  - pose proof (LauncherFacts.loop_opens false rounds true) as H.
    cbn in H. lia.
Qed.

(** X12. The launcher restarts the server after every exit, whatever the
    exit code and whether or not the server ever answered: as long as the
    server process can be started and ends by itself, and the user does not
    interrupt the launcher, every round is run,
    the launcher is still running after the last one, and the browser has
    been opened exactly when it is enabled and the server answered in some
    round. *)
Theorem launcher_restarts_after_every_exit :
  forall (OPEN_BROWSER : bool) (rounds : list RunFacilitatorForever.round),
    Forall (fun r =>
              RunFacilitatorForever.start_uvicorn_log r = Ok tt /\
              (exists b, RunFacilitatorForever.wait_for_ready r = Ok b) /\
              RunFacilitatorForever.wait r
              <> RunFacilitatorForever.Interrupted /\
              RunFacilitatorForever.interrupt r = None) rounds ->
    let run := RunFacilitatorForever.main OPEN_BROWSER rounds in
    snd run = RunFacilitatorForever.Running /\
    RunFacilitatorForever.started (fst run) = length rounds /\
    RunFacilitatorForever.opened (fst run)
    = (if OPEN_BROWSER
          && existsb (fun r =>
                        match RunFacilitatorForever.wait_for_ready r with
                        | Ok true => true
                        | _ => false
                        end) rounds
       then 1 else 0)%nat.
Proof.
  intros ob rounds H run. subst run.
  rewrite LauncherFacts.main_status, LauncherFacts.main_started,
    LauncherFacts.main_opened.
  destruct (LauncherFacts.loop_restarts ob rounds true H) as (H1 & H2 & H3).
  rewrite andb_true_r in H3. auto.
Qed.

Lemma launcher_restarts_after_every_exit_witness :
  let rounds := [RunnerRuns.failed 1; RunnerRuns.served 0;
                 RunnerRuns.served 3] in
  let run := RunFacilitatorForever.main true rounds in
  snd run = RunFacilitatorForever.Running /\
  RunFacilitatorForever.started (fst run) = 3%nat /\
  RunFacilitatorForever.opened (fst run) = 1%nat.
Proof.
  apply (launcher_restarts_after_every_exit true
           [RunnerRuns.failed 1; RunnerRuns.served 0; RunnerRuns.served 3]).
  repeat constructor; cbn; try (eexists; reflexivity); discriminate.
Defined.


(** ** Amounts shown and read back *)

Module DisplayFacts.
Import Numeral Decimal DecimalFacts SendUsdcAndVerify.

(** A positive integer without its trailing zeros, at most [k] of them. *)
Lemma trailing_zeros (k : nat) : forall raw,
  0 < raw ->
  exists c j,
    0 <= j <= Z.of_nat k /\ raw = c * 10 ^ j /\ 0 < c /\
    (j = Z.of_nat k \/ c mod 10 <> 0).
Proof.
  induction k as [|k IH]; intros raw Hraw.
  - exists raw, 0. rewrite Z.mul_1_r. repeat split; lia.
  - destruct (Z.eq_dec (raw mod 10) 0) as [Hz | Hnz].
    + assert (Hdiv : raw = 10 * (raw / 10))
        by (pose proof (Z.div_mod raw 10); lia).
      destruct (IH (raw / 10)) as (c & j & Hj & Hc & Hpos & Hnorm); [lia|].
      exists c, (j + 1). repeat split; try lia.
      rewrite Z.pow_add_r by lia. rewrite Hdiv at 1. rewrite Hc at 1.
      rewrite Z.pow_1_r. ring.
    + exists raw, 0. rewrite Z.mul_1_r. repeat split; lia.
Qed.

Lemma pow10_small d :
  Z.of_N d <= 27 -> pow10 d = Ok (Finite false (10 ^ Z.of_N d) 0).
Proof.
  intros Hd. unfold pow10.
  replace (Z.of_N d <=? Emax) with true
    by (symmetry; apply Z.leb_le; unfold Emax; lia).
  rewrite Z.min_l, Z.max_l by lia. reflexivity.
Qed.

(** What [format_amount] shows for a raw amount of at most 28 digits is
    exact, and [parse_amount] reads its text back. *)
Lemma format_then_parse raw d :
  0 < raw < 10 ^ 28 ->
  Z.of_N d <= 27 ->
  Z.of_N d < ndigits raw + 6 ->
  exists c e,
    raw = c * 10 ^ (Z.of_N d + e) /\ e <= 0 /\
    format_amount raw d = Ok (Finite false c e) /\
    parse_amount (to_str (Finite false c e)) d = Ok raw.
Proof.
  intros Hraw Hd Hplain.
  destruct (trailing_zeros (N.to_nat d) raw) as (c & j & Hj & Hc & Hpos & Hnorm);
    [lia|].
  rewrite N_nat_Z in Hj, Hnorm.
  exists c, (j - Z.of_N d).
  replace (Z.of_N d + (j - Z.of_N d)) with j by lia.
  assert (Hp : 0 < 10 ^ j) by (apply Z.pow_pos_nonneg; lia).
  assert (Hcraw : c <= raw) by nia.
  assert (Hdig : ndigits raw = ndigits c + j)
    by (rewrite Hc; apply ndigits_mul_pow10; lia).
  pose proof (ndigits_pos c) as Hnd.
  assert (Hnd28 : ndigits c <= 28) by (apply ndigits_le; lia).
  split; [exact Hc|]. split; [lia|]. split.
  - unfold format_amount. rewrite (pow10_small d Hd). cbn [bind].
    rewrite Hc.
    replace j with (Z.of_N d + (j - Z.of_N d)) at 1 by lia.
    apply AmountFacts.div_pow10_exact; try lia.
    replace (Z.of_N d + (j - Z.of_N d)) with j by lia.
    unfold prec. lia.
  - assert (Hread : of_str (to_str (Finite false c (j - Z.of_N d)))
                    = Ok (Finite false c (j - Z.of_N d))).
    { apply PrintFacts.of_str_to_str; unfold MIN_ETINY, MAX_EMAX; lia. }
    rewrite (AmountFacts.parse_amount_value _ d false c (j - Z.of_N d) Hread);
      [ | lia
        | unfold prec; lia
        | unfold Emax; lia
        | unfold Etiny, Emin, prec; lia
        | unfold Etop, Emax, prec; lia ].
    unfold truncated_scale.
    replace (Z.of_N d + (j - Z.of_N d)) with j by lia.
    replace (0 <=? j) with true by (symmetry; apply Z.leb_le; lia).
    rewrite <- Hc. reflexivity.
Qed.
End DisplayFacts.

(** X14. The amount conversion of both EVM scripts never rounds: for a
    numeral with coefficient [c] and exponent [e] that fits the 28-digit
    context, [parse_amount] and [parse_token_amount] return [c * 10^(d+e)]
    when that is an integer and otherwise that value cut towards zero,
    with the sign of the numeral. *)
Theorem amount_conversion_cuts_towards_zero :
  forall (s : str) (d : N) (sg : bool) (c e : Z),
    Decimal.of_str s = Ok (Decimal.Finite sg c e) ->
    0 < c < 10 ^ 28 ->
    Z.of_N d <= 255 ->
    -1000000 <= e <= 999000 ->
    let cut := truncated_scale c (Z.of_N d + e) in
    let raw := if sg then - cut else cut in
    SendUsdcAndVerify.parse_amount s d = Ok raw /\
    EvmTestUsdc.parse_token_amount s d = Ok raw.
Proof.
  intros s d sg c e Hs Hc Hd He cut raw. subst cut raw.
  change (EvmTestUsdc.parse_token_amount s d)
    with (SendUsdcAndVerify.parse_amount s d).
  rewrite (AmountFacts.parse_amount_value s d sg c e Hs);
    [ split; reflexivity
    | lia
    | unfold Decimal.prec; lia
    | unfold Decimal.Emax; lia
    | unfold Decimal.Etiny, Decimal.Emin, Decimal.prec; lia
    | unfold Decimal.Etop, Decimal.Emax, Decimal.prec; lia ].
Qed.

Lemma amount_conversion_cuts_towards_zero_witness :
  SendUsdcAndVerify.parse_amount (lit "-1.0000009") 6 = Ok (-1000000) /\
  EvmTestUsdc.parse_token_amount (lit "-1.0000009") 6 = Ok (-1000000).
Proof.
  apply (amount_conversion_cuts_towards_zero (lit "-1.0000009") 6 true
           10000009 (-7)); [reflexivity | lia | lia | lia].
Defined.

(** X15. A balance the scripts display can be given back as an amount: for
    a raw amount of at most 28 digits, at most 27 decimals, and a value that
    is printed in plain notation, [format_amount] is exact (the decimal it
    returns, scaled by [10^d], is the raw amount) and [parse_amount] of the
    text it shows returns the raw amount; likewise for
    [format_token_amount] and [parse_token_amount]. *)
Theorem displayed_amount_reads_back :
  forall (raw : Z) (d : N),
    0 < raw < 10 ^ 28 ->
    Z.of_N d <= 27 ->
    Z.of_N d < Decimal.ndigits raw + 6 ->
    exists c e,
      raw = c * 10 ^ (Z.of_N d + e) /\ e <= 0 /\
      SendUsdcAndVerify.format_amount raw d = Ok (Decimal.Finite false c e) /\
      SendUsdcAndVerify.parse_amount
        (Decimal.to_str (Decimal.Finite false c e)) d = Ok raw /\
      EvmTestUsdc.format_token_amount raw d
      = Ok (Decimal.to_str (Decimal.Finite false c e)) /\
      EvmTestUsdc.parse_token_amount
        (Decimal.to_str (Decimal.Finite false c e)) d = Ok raw.
Proof.
  intros raw d Hraw Hd Hplain.
  destruct (DisplayFacts.format_then_parse raw d Hraw Hd Hplain)
    as (c & e & Hc & He & Hf & Hp).
  exists c, e. repeat split; try assumption.
  rewrite AmountFacts.format_token_amount_eq, Hf. reflexivity.
Qed.

Lemma displayed_amount_reads_back_witness :
  exists c e,
    1500000 = c * 10 ^ (Z.of_N 6 + e) /\ e <= 0 /\
    SendUsdcAndVerify.format_amount 1500000 6 = Ok (Decimal.Finite false c e) /\
    SendUsdcAndVerify.parse_amount
      (Decimal.to_str (Decimal.Finite false c e)) 6 = Ok 1500000 /\
    EvmTestUsdc.format_token_amount 1500000 6
    = Ok (Decimal.to_str (Decimal.Finite false c e)) /\
    EvmTestUsdc.parse_token_amount
      (Decimal.to_str (Decimal.Finite false c e)) 6 = Ok 1500000.
Proof.
  apply (displayed_amount_reads_back 1500000 6);
    [lia | lia | vm_compute; reflexivity].
Defined.

(** ** What the transfer scripts hand to the node *)

Module TransferFacts.
Import Decimal.

#[local] Arguments lit : simpl never.

(** A numeral that denotes zero converts to the raw amount zero. *)
Lemma parse_amount_zero s d sg e :
  of_str s = Ok (Finite sg 0 e) ->
  Z.of_N d <= Emax ->
  SendUsdcAndVerify.parse_amount s d = Ok 0.
Proof.
  intros Hs Hd. unfold SendUsdcAndVerify.parse_amount, pow10.
  rewrite Hs.
  replace (Z.of_N d <=? Emax) with true by (symmetry; apply Z.leb_le; exact Hd).
  cbn [bind mul]. rewrite Z.mul_0_l. unfold fix_. cbn [Z.eqb bind to_int].
  rewrite !Z.mul_0_l.
  destruct (0 <=? _), (xorb sg false); reflexivity.
Qed.

Section Evm.
Import EvmTestUsdc.

#[local] Opaque format_token_amount parse_token_amount of_str
  Numeral.int_of_str.
#[local] Arguments native_value : simpl never.

Lemma show_balances_end a env w :
  match snd (show_balances a env w) with
  | inl (Exit c) => c = 2 \/ c = 3
  | _ => True
  end.
Proof.
  unfold show_balances, load_rpc. cbn.
  destruct (truthy (rpc a)); [|destruct (truthy (RPC_URL env))]; cbn;
    try (left; reflexivity);
    (destruct (import_web3 w) as [[]|]; cbn; [|exact I];
     destruct (is_connected w); cbn; [|right; reflexivity];
     destruct (get_balance w); cbn;
     (destruct (truthy (erc20 a)); cbn; [|exact I];
      destruct (contract w) as [[]|]; cbn; [|exact I];
      destruct (balance_of w); cbn; [|exact I];
      destruct (format_token_amount _ _); exact I)).
Qed.

Lemma prepare_send_end a env w :
  match snd (prepare_send a env w) with
  | inl (Exit c) => c = 2
  | inl (Uncaught _) => True
  | inr _ =>
      truthy (to a) = true /\
      truthy (py_or (PRIVATE_KEY env) (X402_PRIVATE_KEY env)) = true
  end.
Proof.
  unfold prepare_send.
  destruct (truthy (to a)); cbn; [|reflexivity].
  destruct (truthy (py_or (PRIVATE_KEY env) (X402_PRIVATE_KEY env))); cbn;
    [|reflexivity].
  destruct (import_account w) as [[]|]; cbn; [|exact I].
  destruct (from_key w); cbn; [|exact I].
  destruct (checksum_match w) as [[]|]; cbn; auto.
Qed.

Lemma send_erc20_cases a w :
  (sent (fst (send_erc20 a w)) = [] /\
   (truthy (amount a) = false ->
    match snd (send_erc20 a w) with
    | inl (Exit c) => c = 2
    | inl (Uncaught _) => True
    | inr _ => False
    end)) \/
  exists raw to_addr,
    truthy (amount a) = true /\
    parse_token_amount (get (amount a)) (try_or (send_decimals_call w) 18%N)
    = Ok raw /\
    to_checksum_address w = Ok to_addr /\
    sent (fst (send_erc20 a w))
    = [ {| tx_asset := erc20 a; tx_to := to_addr; tx_amount := raw;
           tx_gas := Some 150000 |} ].
Proof.
  unfold send_erc20.
  destruct (contract w) as [[]|]; cbn; [|left; split; [reflexivity | auto]].
  destruct (truthy (amount a)); cbn; [|left; split; [reflexivity | auto]].
  destruct (parse_token_amount _ _) as [raw|]; cbn;
    [|left; split; [reflexivity | discriminate]].
  destruct (to_checksum_address w) as [to_addr|]; cbn;
    [|left; split; [reflexivity | discriminate]].
  destruct (get_transaction_count w); cbn;
    [|left; split; [reflexivity | discriminate]].
  destruct (abi_uint256 raw); cbn;
    [|left; split; [reflexivity | discriminate]].
  destruct (build_transaction w) as [[]|]; cbn;
    [|left; split; [reflexivity | discriminate]].
  destruct (sign_transaction w) as [[]|]; cbn;
    [|left; split; [reflexivity | discriminate]].
  right. exists raw, to_addr.
  destruct (send_raw_transaction w); cbn; auto.
Qed.

Lemma send_native_cases a w :
  (sent (fst (send_native a w)) = [] /\
   (truthy (amount a) = false ->
    match snd (send_native a w) with
    | inl (Exit c) => c = 2
    | inl (Uncaught _) => True
    | inr _ => False
    end)) \/
  exists value to_addr,
    truthy (amount a) = true /\
    native_value a w = Ok value /\
    to_checksum_address w = Ok to_addr /\
    sent (fst (send_native a w))
    = [ {| tx_asset := None; tx_to := to_addr; tx_amount := value;
           tx_gas := Some 21000 |} ].
Proof.
  unfold send_native. fold (native_value a w).
  destruct (truthy (amount a)); cbn; [|left; split; [reflexivity | auto]].
  destruct (native_value a w) as [value|] eqn:Hv; cbn;
    [|left; split; [reflexivity | discriminate]].
  destruct (to_checksum_address w) as [to_addr|]; cbn;
    [|left; split; [reflexivity | discriminate]].
  destruct (get_transaction_count w); cbn;
    [|left; split; [reflexivity | discriminate]].
  destruct (sign_transaction w) as [[]|]; cbn;
    [|left; split; [reflexivity | discriminate]].
  right. exists value, to_addr.
  destruct (send_raw_transaction w); cbn; auto.
Qed.

(** The parts of [main] and what each of them sends. *)
Lemma main_parts a env w :
  (exists t st, main a env w = (t, inl st) /\ sent t = [] /\
                match st with Exit c => c = 2 \/ c = 3 | Uncaught _ => True end) \/
  (send a = false /\ sent (fst (main a env w)) = []) \/
  (send a = true /\
   truthy (to a) = true /\
   truthy (py_or (PRIVATE_KEY env) (X402_PRIVATE_KEY env)) = true /\
   exists t,
     let last := if truthy (erc20 a) then send_erc20 a w
                 else send_native a w in
     sent t = [] /\ main a env w = (t ++ fst last, snd last)).
Proof.
  unfold main.
  pose proof (EvmTestFacts.show_balances_sent a env w) as H1.
  pose proof (show_balances_end a env w) as E1.
  destruct (show_balances a env w) as [t1 [st|[]]]; cbn [fst snd] in *.
  - left. exists t1, st. rewrite then_stop.
    split; [reflexivity|]. split; [exact H1|]. destruct st; auto.
  - rewrite then_value.
    destruct (send a).
    + pose proof (EvmTestFacts.prepare_send_sent a env w) as H2.
      pose proof (prepare_send_end a env w) as E2.
      destruct (prepare_send a env w) as [t2 [st|[]]]; cbn [fst snd] in *.
      * left. exists (t1 ++ t2), st. rewrite then_stop. cbn [fst snd].
        split; [reflexivity|]. split; [rewrite sent_app, H1, H2; reflexivity|].
        destruct st; auto.
      * right. right. destruct E2 as [Eto Ekey].
        split; [reflexivity|]. split; [exact Eto|]. split; [exact Ekey|].
        exists (t1 ++ t2). cbv zeta. split;
          [rewrite sent_app, H1, H2; reflexivity|].
        rewrite then_value. cbn [fst snd]. rewrite app_assoc. reflexivity.
    + right. left. split; [reflexivity|]. cbn. rewrite app_nil_r. exact H1.
Qed.
End Evm.
End TransferFacts.

Module SolanaTransferFacts.
Import SendSolanaAndVerify.

#[local] Arguments lit : simpl never.

(** A text that [float] reads as zero gives zero lamports. *)
Lemma lamports_of_zero s sg :
  Float64.of_str s = Ok (S754_zero sg) -> lamports_of s = Ok 0.
Proof.
  intros H. unfold lamports_of. rewrite H. reflexivity.
Qed.

#[local] Opaque lamports_of raw_amount_of.

(** What [main] hands to the node. *)
Lemma solana_main_sent a env w :
  submitted (main a env w) = [] \/
  exists raw,
    match token_type a with
    | sol => lamports_of (amount a) = Ok raw
    | spl =>
        exists d, mint_decimals w = Ok d /\
                  raw_amount_of (amount a) d = Ok raw
    end /\
    submitted (main a env w)
    = [ {| tx_asset := match token_type a with
                       | sol => None
                       | spl => py_or (token a) (SPL_TOKEN env)
                       end;
           tx_to := get (py_or (to a) (RECEIVER env));
           tx_amount := raw; tx_gas := None |} ].
Proof.
  unfold submitted, output, main, require.
  destruct (truthy (py_or (rpc a) (SOLANA_RPC env))); cbn; [|auto].
  destruct (truthy (py_or (private_key a) (SOLANA_PRIVATE_KEY env))); cbn;
    [|auto].
  destruct (truthy (py_or (to a) (RECEIVER env))); cbn; [|auto].
  destruct (imports w) as [[]|]; cbn; [|auto].
  destruct (load_keypair w); cbn; [|auto].
  destruct (token_type a); cbn.
  - destruct (get_balance_before w) as [[]|]; cbn; [|auto].
    destruct (lamports_of (amount a)) as [raw|]; cbn; [|auto].
    destruct (build_transfer w) as [[]|]; cbn; [|auto].
    right. exists raw. split; [reflexivity|].
    destruct (send_transaction w) as [[]|]; cbn; [|reflexivity].
    destruct (get_balance_after w) as [[]|]; reflexivity.
  - destruct (token_client w) as [[]|]; cbn; [|auto].
    destruct (mint_decimals w) as [d|] eqn:Hd; cbn; [|auto].
    destruct (raw_amount_of (amount a) d) as [raw|] eqn:Hraw; cbn; [|auto].
    right. exists raw. split; [exists d; split; [reflexivity | exact Hraw]|].
    destruct (token_transfer w) as [[]|]; reflexivity.
Qed.
End SolanaTransferFacts.

(** X16. evm_test_usdc.py only reads unless it is told to send and given
    what a transfer needs: without [--send], without [--to], without a
    private key in the environment or without [--amount] it hands no
    transaction to the node, whatever the node answers; and a run with
    [--send] that lacks one of the three does not end with status 0. *)
Theorem evm_transfer_needs_send_recipient_key_and_amount :
  forall (a : EvmTestUsdc.args) (env : EvmTestUsdc.environ)
         (w : EvmTestUsdc.node),
    EvmTestUsdc.send a = false \/
    truthy (EvmTestUsdc.to a) = false \/
    truthy (py_or (EvmTestUsdc.PRIVATE_KEY env)
                  (EvmTestUsdc.X402_PRIVATE_KEY env)) = false \/
    truthy (EvmTestUsdc.amount a) = false ->
    submitted (EvmTestUsdc.main a env w) = [] /\
    (EvmTestUsdc.send a = true ->
     exit_status (EvmTestUsdc.main a env w) <> 0).
Proof.
  intros a env w H. unfold submitted, output, exit_status.
  destruct (TransferFacts.main_parts a env w)
    as [(t & st & Hm & Hs & Hst) | [(Hsend & Hs) | (Hsend & Hto & Hkey & t & Hs & Hm)]].
  - rewrite Hm. cbn [fst snd]. split; [exact Hs|].
    intros _. destruct st; [destruct Hst; lia | lia].
  - split; [exact Hs | congruence].
  - cbv zeta in Hm.
    assert (Ham : truthy (EvmTestUsdc.amount a) = false)
      by (destruct H as [H | [H | [H | H]]]; congruence).
    rewrite Hm. cbn [fst snd]. rewrite sent_app, Hs. cbn [app].
    destruct (truthy (EvmTestUsdc.erc20 a)).
    + destruct (TransferFacts.send_erc20_cases a w)
        as [[Hnone Hend] | (raw & to_addr & Hamt & _)]; [|congruence].
      split; [exact Hnone|]. intros _. specialize (Hend Ham).
      destruct (snd (EvmTestUsdc.send_erc20 a w)) as [[c|e]|[]];
        [lia | lia | contradiction].
    + destruct (TransferFacts.send_native_cases a w)
        as [[Hnone Hend] | (raw & to_addr & Hamt & _)]; [|congruence].
      split; [exact Hnone|]. intros _. specialize (Hend Ham).
      destruct (snd (EvmTestUsdc.send_native a w)) as [[c|e]|[]];
        [lia | lia | contradiction].
Qed.

Lemma evm_transfer_needs_send_recipient_key_and_amount_witness :
  let a := {| EvmTestUsdc.rpc := Some (lit "http://127.0.0.1:8545");
              EvmTestUsdc.address := lit "0xSender";
              EvmTestUsdc.erc20 := Some (lit "0xToken");
              EvmTestUsdc.amount := Some (lit "1");
              EvmTestUsdc.unit_ := EvmTestUsdc.token_unit;
              EvmTestUsdc.send := true;
              EvmTestUsdc.to := None |} in
  submitted (EvmTestUsdc.main a Run.evm_env (Run.evm_node (Ok 6%N))) = [] /\
  (EvmTestUsdc.send a = true ->
   exit_status (EvmTestUsdc.main a Run.evm_env (Run.evm_node (Ok 6%N))) <> 0).
Proof.
  apply (evm_transfer_needs_send_recipient_key_and_amount
           {| EvmTestUsdc.rpc := Some (lit "http://127.0.0.1:8545");
              EvmTestUsdc.address := lit "0xSender";
              EvmTestUsdc.erc20 := Some (lit "0xToken");
              EvmTestUsdc.amount := Some (lit "1");
              EvmTestUsdc.unit_ := EvmTestUsdc.token_unit;
              EvmTestUsdc.send := true;
              EvmTestUsdc.to := None |}
           Run.evm_env (Run.evm_node (Ok 6%N))).
  right. left. reflexivity.
Defined.

(** X17. A run of evm_test_usdc.py hands at most one transaction to the
    node, and only with [--send], a recipient, a key and an amount: a token
    transfer of [parse_token_amount] of the amount at the decimals read
    before sending (18 when that read fails) with gas 150000 when [--erc20]
    is given, and otherwise a native transfer of the amount in wei with gas
    21000; both go to the checksum form of [--to]. *)
Theorem evm_submits_at_most_one_transfer :
  forall (a : EvmTestUsdc.args) (env : EvmTestUsdc.environ)
         (w : EvmTestUsdc.node),
    submitted (EvmTestUsdc.main a env w) = [] \/
    exists raw to_addr,
      EvmTestUsdc.send a = true /\
      truthy (EvmTestUsdc.to a) = true /\
      truthy (py_or (EvmTestUsdc.PRIVATE_KEY env)
                    (EvmTestUsdc.X402_PRIVATE_KEY env)) = true /\
      truthy (EvmTestUsdc.amount a) = true /\
      EvmTestUsdc.to_checksum_address w = Ok to_addr /\
      (if truthy (EvmTestUsdc.erc20 a)
       then EvmTestUsdc.parse_token_amount (get (EvmTestUsdc.amount a))
              (try_or (EvmTestUsdc.send_decimals_call w) 18%N)
       else native_value a w) = Ok raw /\
      submitted (EvmTestUsdc.main a env w)
      = [ {| tx_asset := if truthy (EvmTestUsdc.erc20 a)
                         then EvmTestUsdc.erc20 a else None;
             tx_to := to_addr;
             tx_amount := raw;
             tx_gas := Some (if truthy (EvmTestUsdc.erc20 a)
                             then 150000 else 21000) |} ].
Proof.
  intros a env w. unfold submitted, output.
  destruct (TransferFacts.main_parts a env w)
    as [(t & st & Hm & Hs & Hst) | [(Hsend & Hs) | (Hsend & Hto & Hkey & t & Hs & Hm)]].
  - left. rewrite Hm. exact Hs.
  - left. exact Hs.
  - cbv zeta in Hm. rewrite Hm. cbn [fst]. rewrite sent_app, Hs. cbn [app].
    destruct (truthy (EvmTestUsdc.erc20 a)).
    + destruct (TransferFacts.send_erc20_cases a w)
        as [[Hnone _] | (raw & to_addr & Hamt & Hraw & Haddr & Hsent)];
        [left; exact Hnone|].
      right. exists raw, to_addr. auto 10.
    + destruct (TransferFacts.send_native_cases a w)
        as [[Hnone _] | (raw & to_addr & Hamt & Hraw & Haddr & Hsent)];
        [left; exact Hnone|].
      right. exists raw, to_addr. auto 10.
Qed.

(** X18. evm_test_usdc.py has no check of the converted amount: once the
    balances have been shown and the key loaded, an amount text that
    denotes zero is converted to the raw amount 0 and a token transfer of 0
    is handed to the node as soon as the transaction can be built and
    signed. *)
Theorem evm_sends_zero_token_amounts :
  forall (a : EvmTestUsdc.args) (env : EvmTestUsdc.environ)
         (w : EvmTestUsdc.node) (sg : bool) (e : Z) (to_addr : str) (n : Z),
    EvmTestUsdc.send a = true ->
    truthy (EvmTestUsdc.erc20 a) = true ->
    truthy (EvmTestUsdc.amount a) = true ->
    snd (EvmTestUsdc.show_balances a env w) = inr tt ->
    snd (EvmTestUsdc.prepare_send a env w) = inr tt ->
    Decimal.of_str (get (EvmTestUsdc.amount a))
    = Ok (Decimal.Finite sg 0 e) ->
    Z.of_N (try_or (EvmTestUsdc.send_decimals_call w) 18%N) <= 255 ->
    EvmTestUsdc.contract w = Ok tt ->
    EvmTestUsdc.to_checksum_address w = Ok to_addr ->
    EvmTestUsdc.get_transaction_count w = Ok n ->
    EvmTestUsdc.build_transaction w = Ok tt ->
    EvmTestUsdc.sign_transaction w = Ok tt ->
    submitted (EvmTestUsdc.main a env w)
    = [ {| tx_asset := EvmTestUsdc.erc20 a; tx_to := to_addr;
           tx_amount := 0; tx_gas := Some 150000 |} ].
Proof.
  intros a env w sg e to_addr n Hsend Herc Hamt Hshow Hprep Hzero Hd
         Hcontract Hto Hcount Hbuild Hsign.
  unfold submitted, output, EvmTestUsdc.main. rewrite Hsend, Herc.
  pose proof (EvmTestFacts.show_balances_sent a env w) as H1.
  destruct (EvmTestUsdc.show_balances a env w) as [t1 r1].
  cbn [fst snd] in *. subst r1. rewrite then_value. cbn [fst].
  pose proof (EvmTestFacts.prepare_send_sent a env w) as H2.
  destruct (EvmTestUsdc.prepare_send a env w) as [t2 r2].
  cbn [fst snd] in *. subst r2. rewrite then_value. cbn [fst].
  rewrite !sent_app, H1, H2. cbn [app].
  unfold EvmTestUsdc.send_erc20.
  rewrite Hcontract, Hamt.
  change (EvmTestUsdc.parse_token_amount (get (EvmTestUsdc.amount a))
            (try_or (EvmTestUsdc.send_decimals_call w) 18%N))
    with (SendUsdcAndVerify.parse_amount (get (EvmTestUsdc.amount a))
            (try_or (EvmTestUsdc.send_decimals_call w) 18%N)).
  rewrite (TransferFacts.parse_amount_zero _ _ sg e Hzero)
    by (unfold Decimal.Emax; lia).
  rewrite Hto, Hcount, Hbuild, Hsign. cbn.
  destruct (EvmTestUsdc.send_raw_transaction w); reflexivity.
Qed.

Lemma evm_sends_zero_token_amounts_witness :
  submitted (EvmTestUsdc.main (Run.evm_args "0.0") Run.evm_env
               (Run.evm_node (Ok 6%N)))
  = [Run.evm_tx 0].
Proof.
  apply (evm_sends_zero_token_amounts (Run.evm_args "0.0") Run.evm_env
           (Run.evm_node (Ok 6%N)) false (-1) (lit "0xReceiver") 7);
    try reflexivity.
  cbn. lia.
Defined.

(** X19. A run of send_solana_and_verify.py hands at most one transfer to
    the node: of [int(float(amount) * 1e9)] lamports on the SOL path, of
    [int(float(amount) * 10**decimals)] raw units of the mint on the SPL
    path, to the recipient given on the command line or in [RECEIVER]. *)
Theorem solana_submits_at_most_one_transfer :
  forall (a : SendSolanaAndVerify.args) (env : SendSolanaAndVerify.environ)
         (w : SendSolanaAndVerify.node),
    submitted (SendSolanaAndVerify.main a env w) = [] \/
    exists raw,
      match SendSolanaAndVerify.token_type a with
      | SendSolanaAndVerify.sol =>
          SendSolanaAndVerify.lamports_of (SendSolanaAndVerify.amount a)
          = Ok raw
      | SendSolanaAndVerify.spl =>
          exists d,
            SendSolanaAndVerify.mint_decimals w = Ok d /\
            SendSolanaAndVerify.raw_amount_of (SendSolanaAndVerify.amount a) d
            = Ok raw
      end /\
      submitted (SendSolanaAndVerify.main a env w)
      = [ {| tx_asset :=
               match SendSolanaAndVerify.token_type a with
               | SendSolanaAndVerify.sol => None
               | SendSolanaAndVerify.spl =>
                   py_or (SendSolanaAndVerify.token a)
                         (SendSolanaAndVerify.SPL_TOKEN env)
               end;
             tx_to := get (py_or (SendSolanaAndVerify.to a)
                                 (SendSolanaAndVerify.RECEIVER env));
             tx_amount := raw; tx_gas := None |} ].
Proof.
  intros a env w. apply SolanaTransferFacts.solana_main_sent.
Qed.

(** X20. send_solana_and_verify.py has no check of the amount: when the
    inputs are given, the key loads and the transfer can be built, an
    amount text that [float] reads as zero is handed to the node as a
    transfer of 0 lamports. *)
Theorem solana_sends_zero_amounts :
  forall (a : SendSolanaAndVerify.args) (env : SendSolanaAndVerify.environ)
         (w : SendSolanaAndVerify.node) (sg : bool) (addr : str),
    truthy (py_or (SendSolanaAndVerify.rpc a)
                  (SendSolanaAndVerify.SOLANA_RPC env)) = true ->
    truthy (py_or (SendSolanaAndVerify.private_key a)
                  (SendSolanaAndVerify.SOLANA_PRIVATE_KEY env)) = true ->
    truthy (py_or (SendSolanaAndVerify.to a)
                  (SendSolanaAndVerify.RECEIVER env)) = true ->
    SendSolanaAndVerify.token_type a = SendSolanaAndVerify.sol ->
    SendSolanaAndVerify.imports w = Ok tt ->
    SendSolanaAndVerify.load_keypair w = Ok addr ->
    SendSolanaAndVerify.get_balance_before w = Ok tt ->
    SendSolanaAndVerify.build_transfer w = Ok tt ->
    Float64.of_str (SendSolanaAndVerify.amount a) = Ok (S754_zero sg) ->
    submitted (SendSolanaAndVerify.main a env w)
    = [ {| tx_asset := None;
           tx_to := get (py_or (SendSolanaAndVerify.to a)
                               (SendSolanaAndVerify.RECEIVER env));
           tx_amount := 0; tx_gas := None |} ].
Proof.
  intros a env w sg addr Hrpc Hkey Hto Hsol Himp Hload Hbal Hbuild Hzero.
  unfold submitted, output, SendSolanaAndVerify.main,
    SendSolanaAndVerify.require.
  rewrite Hrpc, Hkey, Hto, Hsol, Himp, Hload, Hbal, Hbuild.
  rewrite (SolanaTransferFacts.lamports_of_zero _ sg Hzero). cbn.
  destruct (SendSolanaAndVerify.send_transaction w) as [[]|]; cbn;
    [|reflexivity].
  destruct (SendSolanaAndVerify.get_balance_after w) as [[]|]; reflexivity.
Qed.

Lemma solana_sends_zero_amounts_witness :
  submitted (SendSolanaAndVerify.main (Run.sol_args "0.0") Run.sol_env
               Run.sol_node)
  = [ {| tx_asset := None; tx_to := lit "Receiver";
         tx_amount := 0; tx_gas := None |} ].
Proof.
  apply (solana_sends_zero_amounts (Run.sol_args "0.0") Run.sol_env
           Run.sol_node false (lit "Sender")); reflexivity.
Defined.

(** X21. What the mock returns under ["received"] is itself a request body
    that validates, and to the same model: whenever [POST /verify] answers
    a body with 200, the answer holds the validated model under
    ["received"], and a client that posts that received body again gets
    the very same answer. *)
Theorem received_body_validates_to_itself :
  forall (body : Json.json) (r : MockFacilitator.response),
    MockFacilitator.post_verify MockFacilitator.json_validators body
    = MockFacilitator.Handled r ->
    exists req : MockFacilitator.PaymentRequest,
      MockFacilitator.validate MockFacilitator.json_validators body
      = Some req /\
      MockFacilitator.content r
      = Json.JObj [ (Json.ulit "ok", Json.JBool true);
                    (Json.ulit "message", Json.JStr (Json.ulit "verified"));
                    (Json.ulit "received", MockFacilitator.dict req) ] /\
      MockFacilitator.validate MockFacilitator.json_validators
        (MockFacilitator.dict req) = Some req /\
      MockFacilitator.post_verify MockFacilitator.json_validators
        (MockFacilitator.dict req)
      = MockFacilitator.Handled r.
Proof.
  intros body r.
  unfold MockFacilitator.post_verify, MockFacilitator.route.
  destruct (MockFacilitator.validate MockFacilitator.json_validators body)
    as [req|] eqn:Hv; [|discriminate].
  destruct (MockFacilitator.renders _) eqn:Hr; [|discriminate].
  intros H. injection H as <-.
  exists req.
  assert (Hd : MockFacilitator.validate MockFacilitator.json_validators
                 (MockFacilitator.dict req) = Some req)
    by (destruct req as [a c [m|] [f|] [n|]]; reflexivity).
  repeat split; [exact Hd|].
  rewrite Hd. cbv zeta. rewrite Hr. reflexivity.
Qed.

Lemma received_body_validates_to_itself_witness :
  exists req : MockFacilitator.PaymentRequest,
    MockFacilitator.validate MockFacilitator.json_validators
      (Json.JObj [ (Json.ulit "amount", Json.JInt 1);
                   (Json.ulit "currency", Json.JStr (Json.ulit "USD"));
                   (Json.ulit "memo", Json.JStr (Json.ulit "x")) ])
    = Some req /\
    MockFacilitator.content
      (MockFacilitator.verify
         {| MockFacilitator.amount := S754_finite false 4503599627370496 (-52);
            MockFacilitator.currency := Json.ulit "USD";
            MockFacilitator.metadata := None;
            MockFacilitator.from_address := None;
            MockFacilitator.network := None |})
    = Json.JObj [ (Json.ulit "ok", Json.JBool true);
                  (Json.ulit "message", Json.JStr (Json.ulit "verified"));
                  (Json.ulit "received", MockFacilitator.dict req) ] /\
    MockFacilitator.validate MockFacilitator.json_validators
      (MockFacilitator.dict req) = Some req /\
    MockFacilitator.post_verify MockFacilitator.json_validators
      (MockFacilitator.dict req)
    = MockFacilitator.Handled
        (MockFacilitator.verify
           {| MockFacilitator.amount :=
                S754_finite false 4503599627370496 (-52);
              MockFacilitator.currency := Json.ulit "USD";
              MockFacilitator.metadata := None;
              MockFacilitator.from_address := None;
              MockFacilitator.network := None |}).
Proof.
  apply (received_body_validates_to_itself
           (Json.JObj [ (Json.ulit "amount", Json.JInt 1);
                        (Json.ulit "currency", Json.JStr (Json.ulit "USD"));
                        (Json.ulit "memo", Json.JStr (Json.ulit "x")) ])).
  reflexivity.
Defined.

(** X22. A run of send_usdc_and_verify.py hands at most one transfer to the
    node, and only of a positive raw amount: the amount text converted at
    the decimals of the token (18 when they cannot be read), sent from the
    token given by [--token] or [USDC_CONTRACT] to the recipient given by
    [--to], [RECEIVER] or [ADDRESS], with gas 200000. *)
Theorem usdc_submits_at_most_one_transfer :
  forall (a : SendUsdcAndVerify.args) (env : SendUsdcAndVerify.environ)
         (w : SendUsdcAndVerify.node),
    submitted (SendUsdcAndVerify.main a env w) = [] \/
    exists raw,
      SendUsdcAndVerify.parse_amount (SendUsdcAndVerify.amount a)
        (try_or (SendUsdcAndVerify.decimals_call w) 18%N) = Ok raw /\
      0 < raw /\
      submitted (SendUsdcAndVerify.main a env w)
      = [ {| tx_asset := py_or (SendUsdcAndVerify.token a)
                               (SendUsdcAndVerify.USDC_CONTRACT env);
             tx_to := get (py_or (py_or (SendUsdcAndVerify.to a)
                                        (SendUsdcAndVerify.RECEIVER env))
                                 (SendUsdcAndVerify.ADDRESS env));
             tx_amount := raw; tx_gas := Some 200000 |} ].
Proof.
  intros a env w.
  destruct (SendUsdcRuns.main_submitted a env w)
    as [H | (s & raw & Hs & Hraw & Hpos & Hsub)]; [left; exact H|].
  right. exists raw.
  pose proof (SendUsdcFacts.setup_spec a env w) as [_ Hspec].
  rewrite Hs in Hspec.
  destruct Hspec as (_ & _ & Hdec & _ & _ & Htok & Hto).
  rewrite <- Hdec. split; [exact Hraw|]. split; [exact Hpos|].
  rewrite Hsub. unfold SendUsdcAndVerify.session_tx.
  rewrite Htok, Hto. reflexivity.
Qed.

(** ** Switches that change nothing *)

Module SwitchFacts.
#[local] Arguments lit : simpl never.

Section Evm.
Import EvmTestUsdc.

#[local] Opaque format_token_amount parse_token_amount Decimal.of_str
  Numeral.int_of_str.

(** The comparison of the addresses only decides whether [prepare_send]
    prints its warning. *)
Lemma prepare_send_warns a env w r :
  snd (prepare_send a env (with_checksum_match w (Ok r)))
  = snd (prepare_send a env (with_checksum_match w (Ok true))) /\
  sent (fst (prepare_send a env (with_checksum_match w (Ok r)))) = [].
Proof.
  split; [|apply EvmTestFacts.prepare_send_sent].
  unfold prepare_send. cbn.
  destruct (truthy (to a)); cbn; [|reflexivity].
  destruct (truthy (py_or (PRIVATE_KEY env) (X402_PRIVATE_KEY env))); cbn;
    [|reflexivity].
  destruct (import_account w) as [[]|]; cbn; [|reflexivity].
  destruct (from_key w); cbn; [|reflexivity].
  destruct r; reflexivity.
Qed.

Lemma main_with_checksum_match a env w r :
  submitted (main a env (with_checksum_match w (Ok r)))
  = submitted (main a env (with_checksum_match w (Ok true))) /\
  snd (main a env (with_checksum_match w (Ok r)))
  = snd (main a env (with_checksum_match w (Ok true))).
Proof.
  unfold submitted, output, main.
  change (show_balances a env (with_checksum_match w (Ok r)))
    with (show_balances a env w).
  change (show_balances a env (with_checksum_match w (Ok true)))
    with (show_balances a env w).
  change (send_erc20 a (with_checksum_match w (Ok r)))
    with (send_erc20 a w).
  change (send_erc20 a (with_checksum_match w (Ok true)))
    with (send_erc20 a w).
  change (send_native a (with_checksum_match w (Ok r)))
    with (send_native a w).
  change (send_native a (with_checksum_match w (Ok true)))
    with (send_native a w).
  destruct (show_balances a env w) as [t1 [st|[]]];
    [rewrite !then_stop; split; reflexivity|].
  rewrite !then_value. cbn [fst snd].
  destruct (send a); [|split; reflexivity].
  destruct (prepare_send_warns a env w r) as [Hsnd Hsent].
  pose proof (EvmTestFacts.prepare_send_sent a env
                (with_checksum_match w (Ok true))) as Hsent'.
  destruct (prepare_send a env (with_checksum_match w (Ok r))) as [t2 r2].
  destruct (prepare_send a env (with_checksum_match w (Ok true)))
    as [t2' r2'].
  cbn [fst snd] in *. subst r2.
  destruct r2' as [st|[]].
  - rewrite !then_stop. cbn [fst snd].
    rewrite !sent_app, Hsent, Hsent'. split; reflexivity.
  - rewrite !then_value. cbn [fst snd].
    rewrite !sent_app, Hsent, Hsent'. split; reflexivity.
Qed.
End Evm.
End SwitchFacts.

(** X23. The [--wait] switch of send_usdc_and_verify.py changes nothing:
    [wait = args.wait or True] is always true, so a run with the switch and
    a run without it print, send and exit alike, and both wait for the
    receipt. *)
Theorem wait_flag_has_no_effect :
  forall (a : SendUsdcAndVerify.args) (env : SendUsdcAndVerify.environ)
         (w : SendUsdcAndVerify.node) (b : bool),
    SendUsdcAndVerify.main (with_wait a b) env w
    = SendUsdcAndVerify.main a env w.
Proof.
  intros [r p t o m wt] env w b.
  unfold SendUsdcAndVerify.main, with_wait.
  cbn [SendUsdcAndVerify.wait SendUsdcAndVerify.amount].
  rewrite !orb_true_r. reflexivity.
Qed.

(** X24. A private key that does not belong to [--address] only draws a
    warning from evm_test_usdc.py: the run hands the same transaction to
    the node and ends the same way as a run in which the addresses
    match. *)
Theorem key_mismatch_only_warns :
  forall (a : EvmTestUsdc.args) (env : EvmTestUsdc.environ)
         (w : EvmTestUsdc.node),
    submitted (EvmTestUsdc.main a env (with_checksum_match w (Ok false)))
    = submitted (EvmTestUsdc.main a env (with_checksum_match w (Ok true))) /\
    snd (EvmTestUsdc.main a env (with_checksum_match w (Ok false)))
    = snd (EvmTestUsdc.main a env (with_checksum_match w (Ok true))).
Proof.
  intros a env w. apply SwitchFacts.main_with_checksum_match.
Qed.

(** ** evm_test_usdc.py: how a run ends *)

Module EvmExitFacts.
Import EvmTestUsdc.

#[local] Arguments lit : simpl never.
#[local] Arguments native_value : simpl never.
#[local] Opaque format_token_amount parse_token_amount Decimal.of_str
  Numeral.int_of_str.

Lemma show_balances_exit a env w :
  match snd (show_balances a env w) with
  | inl (Exit c) =>
      (c = 2 /\ truthy (rpc a) = false /\ truthy (RPC_URL env) = false) \/
      (c = 3 /\ is_connected w = false)
  | _ => True
  end.
Proof.
  unfold show_balances, load_rpc. cbn.
  destruct (truthy (rpc a)); [|destruct (truthy (RPC_URL env))]; cbn;
    try (left; auto);
    (destruct (import_web3 w) as [[]|]; cbn; [|exact I];
     destruct (is_connected w); cbn; [|right; auto];
     destruct (get_balance w); cbn;
     (destruct (truthy (erc20 a)); cbn; [|exact I];
      destruct (contract w) as [[]|]; cbn; [|exact I];
      destruct (balance_of w); cbn; [|exact I];
      destruct (format_token_amount _ _); exact I)).
Qed.

Lemma prepare_send_exit a env w :
  match snd (prepare_send a env w) with
  | inl (Exit c) =>
      c = 2 /\
      (truthy (to a) = false \/
       truthy (py_or (PRIVATE_KEY env) (X402_PRIVATE_KEY env)) = false)
  | _ => True
  end.
Proof.
  unfold prepare_send.
  destruct (truthy (to a)); cbn; [|auto].
  destruct (truthy (py_or (PRIVATE_KEY env) (X402_PRIVATE_KEY env))); cbn;
    [|auto].
  destruct (import_account w) as [[]|]; cbn; [|exact I].
  destruct (from_key w); cbn; [|exact I].
  destruct (checksum_match w) as [[]|]; cbn; exact I.
Qed.

Lemma send_erc20_exit a w :
  match snd (send_erc20 a w) with
  | inl (Exit c) =>
      c = 2 /\
      (truthy (amount a) = false \/
       exists e,
         parse_token_amount (get (amount a))
           (try_or (send_decimals_call w) 18%N) = Raise e)
  | inl (Uncaught _) => True
  | inr _ => exists h, send_raw_transaction w = Ok h
  end.
Proof.
  unfold send_erc20.
  destruct (contract w) as [[]|]; cbn; [|exact I].
  destruct (truthy (amount a)); cbn; [|auto].
  destruct (parse_token_amount _ _) as [raw|] eqn:E; cbn; [|eauto].
  destruct (to_checksum_address w) as [to_addr|]; cbn; [|exact I].
  destruct (get_transaction_count w); cbn; [|exact I].
  destruct (abi_uint256 raw); cbn; [|exact I].
  destruct (build_transaction w) as [[]|]; cbn; [|exact I].
  destruct (sign_transaction w) as [[]|]; cbn; [|exact I].
  destruct (send_raw_transaction w); cbn; eauto.
Qed.

Lemma send_native_exit a w :
  match snd (send_native a w) with
  | inl (Exit c) =>
      c = 2 /\
      (truthy (amount a) = false \/ exists e, native_value a w = Raise e)
  | inl (Uncaught _) => True
  | inr _ => exists h, send_raw_transaction w = Ok h
  end.
Proof.
  unfold send_native. fold (native_value a w).
  destruct (truthy (amount a)); cbn; [|auto].
  destruct (native_value a w) as [value|] eqn:E; cbn; [|eauto].
  destruct (to_checksum_address w) as [to_addr|]; cbn; [|exact I].
  destruct (get_transaction_count w); cbn; [|exact I].
  destruct (sign_transaction w) as [[]|]; cbn; [|exact I].
  destruct (send_raw_transaction w); cbn; eauto.
Qed.
End EvmExitFacts.

(** X25. evm_test_usdc.py calls [sys.exit] with two codes only: 2 when the
    RPC URL is missing or, with [--send], when [--to], the private key or
    [--amount] is missing or the amount cannot be converted; and 3 when the
    node cannot be reached.  A run that ends normally either did not send,
    or got the hash of its transaction back from the node; there is no
    check of the balance and no status for a failed transfer. *)
Theorem evm_exit_codes_and_their_causes :
  forall (a : EvmTestUsdc.args) (env : EvmTestUsdc.environ)
         (w : EvmTestUsdc.node),
    match snd (EvmTestUsdc.main a env w) with
    | inl (Exit c) =>
        (c = 2 /\
         ((truthy (EvmTestUsdc.rpc a) = false /\
           truthy (EvmTestUsdc.RPC_URL env) = false) \/
          (EvmTestUsdc.send a = true /\
           (truthy (EvmTestUsdc.to a) = false \/
            truthy (py_or (EvmTestUsdc.PRIVATE_KEY env)
                          (EvmTestUsdc.X402_PRIVATE_KEY env)) = false \/
            truthy (EvmTestUsdc.amount a) = false \/
            exists e,
              (if truthy (EvmTestUsdc.erc20 a)
               then EvmTestUsdc.parse_token_amount
                      (get (EvmTestUsdc.amount a))
                      (try_or (EvmTestUsdc.send_decimals_call w) 18%N)
               else native_value a w) = Raise e)))) \/
        (c = 3 /\ EvmTestUsdc.is_connected w = false)
    | inl (Uncaught _) => True
    | inr _ =>
        EvmTestUsdc.send a = false \/
        exists h, EvmTestUsdc.send_raw_transaction w = Ok h
    end.
Proof.
  intros a env w. unfold EvmTestUsdc.main.
  pose proof (EvmExitFacts.show_balances_exit a env w) as E1.
  destruct (EvmTestUsdc.show_balances a env w) as [t1 [st|[]]];
    cbn [fst snd] in *.
  - rewrite then_stop. cbn [snd]. destruct st as [c|e]; [|exact I].
    destruct E1 as [(-> & H1 & H2) | (-> & H)]; auto.
  - rewrite then_value. cbn [snd].
    destruct (EvmTestUsdc.send a); [|left; reflexivity].
    pose proof (EvmExitFacts.prepare_send_exit a env w) as E2.
    destruct (EvmTestUsdc.prepare_send a env w) as [t2 [st|[]]];
      cbn [fst snd] in *.
    + rewrite then_stop. cbn [snd]. destruct st as [c|e]; [|exact I].
      destruct E2 as (-> & [H | H]); left; (split; [reflexivity|]);
        right; (split; [reflexivity|]); auto.
    + rewrite then_value. cbn [snd].
      destruct (truthy (EvmTestUsdc.erc20 a)).
      * pose proof (EvmExitFacts.send_erc20_exit a w) as E3.
        destruct (snd (EvmTestUsdc.send_erc20 a w)) as [[c|e]|[]];
          [|exact I|right; exact E3].
        destruct E3 as (-> & [H | H]); left; (split; [reflexivity|]);
          right; (split; [reflexivity|]); auto.
      * pose proof (EvmExitFacts.send_native_exit a w) as E3.
        destruct (snd (EvmTestUsdc.send_native a w)) as [[c|e]|[]];
          [|exact I|right; exact E3].
        destruct E3 as (-> & [H | H]); left; (split; [reflexivity|]);
          right; (split; [reflexivity|]); auto.
Qed.

(** ** one_click_test.py: what the check sees *)

Module OneClickCheckFacts.
Import Json OneClickTestMain.

#[local] Arguments lit : simpl never.

(** How a run goes on once the demo has returned. *)
Lemma main_after_demo int_of_text w res :
  mkdir w = Ok tt ->
  start_mock w = Ok tt ->
  wait_for_mock w = true ->
  run_demo w = Ok res ->
  (forall t, write_log w t = Ok tt) ->
  (forall l, write_last_json w l = Ok tt) ->
  snd (main int_of_text w)
  = if null (filter (fun c => negb (c =? 200))
               (flat_map (find_status_codes int_of_text)
                  (OneClickTest.extract_json_objects json loads
                     (stdout res))))
    then inl (Exit 0) else inl (Exit 2).
Proof.
  intros Hmk Hstart Hready Hrun Hlog Hlast.
  unfold main.
  rewrite Hmk, Hlog, Hstart, Hready, Hrun. cbn.
  rewrite Hlog. cbn.
  rewrite OneClickFacts.collect_non200_filter.
  destruct (null (OneClickTest.extract_json_objects json loads (stdout res)));
    cbn; [|rewrite Hlast; cbn];
    destruct (null (filter _ _)); reflexivity.
Qed.
End OneClickCheckFacts.

(** X26. one_click_test.py detects a failed answer: once the mock is ready
    and the demo has returned, a run in which some extracted object has a
    top-level ['status_code'] that is an integer other than 200 exits 2. *)
Theorem one_click_fails_on_a_bad_status :
  forall (int_of_text : Json.ustr -> option Z) (w : OneClickTestMain.world)
         (res : completed_process) (d : list (Json.ustr * Json.json))
         (c : Z),
    OneClickTestMain.mkdir w = Ok tt ->
    OneClickTestMain.start_mock w = Ok tt ->
    OneClickTestMain.wait_for_mock w = true ->
    OneClickTestMain.run_demo w = Ok res ->
    (forall t, OneClickTestMain.write_log w t = Ok tt) ->
    (forall l, OneClickTestMain.write_last_json w l = Ok tt) ->
    In (Json.JObj d)
       (OneClickTest.extract_json_objects Json.json Json.loads (stdout res)) ->
    Json.dict_get d (Json.ulit "status_code") = Some (Json.JInt c) ->
    c <> 200 ->
    snd (OneClickTestMain.main int_of_text w) = inl (Exit 2).
Proof.
  intros int_of_text w res d c Hmk Hstart Hready Hrun Hlog Hlast Hin Hget Hc.
  rewrite (OneClickCheckFacts.main_after_demo int_of_text w res
             Hmk Hstart Hready Hrun Hlog Hlast).
  assert (Hfound : In c (filter (fun c => negb (c =? 200))
                           (flat_map
                              (OneClickTestMain.find_status_codes int_of_text)
                              (OneClickTest.extract_json_objects Json.json
                                 Json.loads (stdout res))))).
  { apply filter_In. split.
    - apply in_flat_map. exists (Json.JObj d). split; [exact Hin|].
      cbn [OneClickTestMain.find_status_codes]. rewrite Hget.
      left. reflexivity.
    - apply negb_true_iff. apply Z.eqb_neq. exact Hc. }
  destruct (filter _ _); [contradiction | reflexivity].
Qed.

Lemma one_click_fails_on_a_bad_status_witness :
  snd (OneClickTestMain.main (fun _ => None)
         (RunnerRuns.one_click_world true RunnerRuns.failed_answer))
  = inl (Exit 2).
Proof.
  apply (one_click_fails_on_a_bad_status (fun _ => None)
           (RunnerRuns.one_click_world true RunnerRuns.failed_answer)
           RunnerRuns.failed_answer
           [(Json.ulit "status_code", Json.JInt 422)] 422);
    try reflexivity.
  - left. reflexivity.
  - discriminate.
Defined.

(** X27. The check looks no further than the first ['status_code'] on a
    path: when every extracted object has the integer 200 under its
    top-level ['status_code'], the run exits 0 whatever else the objects
    hold, a failed answer nested in a body included. *)
Theorem one_click_stops_at_the_first_status :
  forall (int_of_text : Json.ustr -> option Z) (w : OneClickTestMain.world)
         (res : completed_process),
    OneClickTestMain.mkdir w = Ok tt ->
    OneClickTestMain.start_mock w = Ok tt ->
    OneClickTestMain.wait_for_mock w = true ->
    OneClickTestMain.run_demo w = Ok res ->
    (forall t, OneClickTestMain.write_log w t = Ok tt) ->
    (forall l, OneClickTestMain.write_last_json w l = Ok tt) ->
    Forall (fun o =>
              exists d,
                o = Json.JObj d /\
                Json.dict_get d (Json.ulit "status_code")
                = Some (Json.JInt 200))
           (OneClickTest.extract_json_objects Json.json Json.loads
              (stdout res)) ->
    snd (OneClickTestMain.main int_of_text w) = inl (Exit 0).
Proof.
  intros int_of_text w res Hmk Hstart Hready Hrun Hlog Hlast Hall.
  rewrite (OneClickCheckFacts.main_after_demo int_of_text w res
             Hmk Hstart Hready Hrun Hlog Hlast).
  assert (Hnone : filter (fun c => negb (c =? 200))
                    (flat_map
                       (OneClickTestMain.find_status_codes int_of_text)
                       (OneClickTest.extract_json_objects Json.json
                          Json.loads (stdout res))) = []).
  { induction Hall as [|o objs (d & -> & Hget) _ IH]; [reflexivity|].
    cbn [flat_map OneClickTestMain.find_status_codes]. rewrite Hget.
    cbn. exact IH. }
  rewrite Hnone. reflexivity.
Qed.

Lemma one_click_stops_at_the_first_status_witness :
  OneClickTest.extract_json_objects Json.json Json.loads
    (stdout RunnerRuns.masked_failure)
  = [ Json.JObj
        [ (Json.ulit "status_code", Json.JInt 200);
          (Json.ulit "body",
           Json.JObj [ (Json.ulit "status_code", Json.JInt 500) ]) ] ] /\
  snd (OneClickTestMain.main (fun _ => None)
         (RunnerRuns.one_click_world true RunnerRuns.masked_failure))
  = inl (Exit 0).
Proof.
  split; [reflexivity|].
  apply (one_click_stops_at_the_first_status (fun _ => None)
           (RunnerRuns.one_click_world true RunnerRuns.masked_failure)
           RunnerRuns.masked_failure); try reflexivity.
  repeat constructor. eexists. split; reflexivity.
Defined.
